(** * Appointment extraction pipeline: a shallow embedding and its properties

    The development follows the two TypeScript sources of the pipeline:
    the completion client ([sendToAtlas], with [getEnvValue]) and the page
    module holding [mapTypeToPriority], [isHospitalAppointment],
    [extractAppointmentsJSON], [isRateLimitError],
    [convertAtlasToAppointment] and [handleAiSubmit].  It then covers the
    rest of the page module that computes: the tag and reminder-window
    handlers of the settings overlay, [getManualTemplate], [toDateParts],
    [handleManualSubmit], [handleEditSubmit], and the reminder timer with
    its notification effects.

    Conventions of the embedding:
    - a JavaScript string is the list of its UTF-16 code units;
    - [null] and [undefined] are both [None] (the code only ever tests them
      with [??], [?.] and truthiness, which do not tell them apart);
    - a JavaScript number that the code treats as a count of minutes or an
      interval is an integer ([Z]);
    - a thrown exception is the [Throw] branch of a result type;
    - what the platform provides (the JSON reader, the date parser and
      printer, the clock, the network, the store) is a parameter. *)

From Stdlib Require Import ZArith NArith List Ascii String Bool Lia.
From Stdlib Require Import DecimalString.
From Stdlib Require DecimalPos.
From stdpp Require Import gmap.

Set Warnings "-register-all".
Import ListNotations.

Local Open Scope N_scope.

(** ** JavaScript strings *)

Module JsString.

(** A string is its sequence of UTF-16 code units. *)
Abbreviation t := (list N).

(** Source literals are written as they appear in the TypeScript files.
    Rocq reads a literal as UTF-8 bytes; [utf8_decode] turns the bytes
    back into code points.  Every literal of the sources lies in the
    Basic Multilingual Plane (one, two or three bytes), where a code
    point is one code unit. *)
Fixpoint utf8_decode (bs : list N) : t :=
  match bs with
  | [] => []
  | b0 :: t0 =>
    if b0 <? 128 then b0 :: utf8_decode t0
    else
      match t0 with
      | [] => []
      | b1 :: t1 =>
        if b0 <? 224 then ((b0 - 192) * 64 + (b1 - 128)) :: utf8_decode t1
        else
          match t1 with
          | [] => []
          | b2 :: t2 =>
            ((b0 - 224) * 4096 + (b1 - 128) * 64 + (b2 - 128))
              :: utf8_decode t2
          end
      end
  end.

Definition lit (s : string) : t :=
  utf8_decode (List.map N_of_ascii (list_ascii_of_string s)).

(** [s.length] *)
Definition length (s : t) : nat := List.length s.

(** [s.startsWith(k)] *)
Fixpoint startsWith (s k : t) {struct k} : bool :=
  match k with
  | [] => true
  | a :: k' =>
    match s with
    | [] => false
    | b :: s' => (a =? b) && startsWith s' k'
    end
  end.

(** [s.includes(k)]: [k] occurs at some position of [s]. *)
Fixpoint includes (s k : t) : bool :=
  startsWith s k ||
  match s with
  | [] => false
  | _ :: s' => includes s' k
  end.

(** [s.slice(0, n)] for a non-negative [n]. *)
Definition slice0 (n : nat) (s : t) : t := firstn n s.

(** [s.toLowerCase()].  A Latin capital letter becomes its small letter.
    Two more code units have a lower-case form that holds a Latin letter:
    U+0130 (capital I with dot above) becomes "i" followed by U+0307, and
    U+212A (the Kelvin sign) becomes "k".  Every other code unit is kept:
    the texts the sources look for hold Latin small letters, digits and
    spaces, or Arabic letters, which have no case, and the lower-case
    form of no other letter holds one of these. *)
Definition lower_units (c : N) : list N :=
  if (65 <=? c) && (c <=? 90) then [c + 32]
  else if c =? 304 then [105; 775]
  else if c =? 8490 then [107]
  else [c].

Definition toLowerCase (s : t) : t := flat_map lower_units s.

(** White space and line terminators, as [String.prototype.trim] and the
    regular-expression class [\s] define them. *)
Definition isWhiteSpace (c : N) : bool :=
  ((9 <=? c) && (c <=? 13)) || (c =? 32) || (c =? 160) || (c =? 5760)
  || ((8192 <=? c) && (c <=? 8202)) || (c =? 8232) || (c =? 8233)
  || (c =? 8239) || (c =? 8287) || (c =? 12288) || (c =? 65279).

Fixpoint trimStart (s : t) : t :=
  match s with
  | [] => []
  | c :: s' => if isWhiteSpace c then trimStart s' else s
  end.

(** [s.trim()] *)
Definition trim (s : t) : t := rev (trimStart (rev (trimStart s))).

(** [String(n)] for an integer [n], all digits written out (as JavaScript
    does below 10^21). *)
Definition ofZ (n : Z) : t :=
  List.map N_of_ascii (list_ascii_of_string (NilZero.string_of_int (Z.to_int n))).

(** [parts.join(sep)] *)
Fixpoint join (sep : t) (parts : list t) : t :=
  match parts with
  | [] => []
  | [p] => p
  | p :: ps => p ++ sep ++ join sep ps
  end.

End JsString.

Abbreviation jsstring := JsString.t.
Notation "'js' s" :=
  (JsString.lit s%string) (at level 1, s at level 0, format "'js'  s").

(** ** JavaScript values the normalizer tests *)

(** [a ?? b] *)
Definition nullish {A} (a : option A) (b : A) : A :=
  match a with Some x => x | None => b end.

(** Truthiness of an optional string: present and not empty. *)
Definition truthy_string (a : option jsstring) : bool :=
  match a with Some (_ :: _) => true | _ => false end.

(** Truthiness of an optional number: present and not zero. *)
Definition truthy_number (a : option Z) : bool :=
  match a with Some n => negb (n =? 0)%Z | None => false end.

(** Truthiness of [a?.length]: the array is present and not empty. *)
Definition truthy_length {A} (a : option (list A)) : bool :=
  match a with Some (_ :: _) => true | _ => false end.

(** ** Data model *)

Inductive Priority := low | medium | high | critical.
Inductive Status := scheduled | done | canceled.

(** The raw item, as the completion service returns it
    ([type AtlasAppointment]). *)
Module Atlas.
Record Recurrence := {
  pattern : option jsstring;
  every : option Z;
  days_of_week : option (list jsstring)
}.

Record Appointment := {
  type : option jsstring;
  title : option jsstring;
  date : option jsstring;
  time : option jsstring;
  end_time : option jsstring;
  location : option jsstring;
  person : option jsstring;
  actions_before : option (list jsstring);
  actions_after : option (list jsstring);
  tags : option (list jsstring);
  reminder_minutes_before : option Z;
  recurrence : option Recurrence;
  notes : option jsstring
}.
End Atlas.

(** The normalized draft handed to the store
    ([Omit<Appointment, "id" | "status"> & Partial<Pick<Appointment, "status">>]). *)
Module Appointment.
Record t := {
  title : jsstring;
  description : option jsstring;
  tag : option jsstring;
  start_at : jsstring;
  end_at : option jsstring;
  priority : Priority;
  status : Status;
  location : option jsstring;
  reminder_minutes_before : option Z
}.
End Appointment.

(** ** The normalizer *)

Definition mapTypeToPriority (type : jsstring) : Priority :=
  let t := JsString.toLowerCase type in
  if JsString.includes t (js "critical") then critical
  else if JsString.includes t (js "medical") || JsString.includes t (js "medication") then high
  else if JsString.includes t (js "work") then medium
  else if JsString.includes t (js "personal") then low
  else medium.

(** The keyword table of [isHospitalAppointment]. *)
Definition hospitalKeywords : list jsstring :=
  Eval vm_compute in
  [js "مستشفى"; js "عيادة"; js "تحليل"; js "دواء"; js "مراجعة"; js "طبيب"].

Definition hospitalText (raw : Atlas.Appointment) : jsstring :=
  JsString.toLowerCase
    (nullish (Atlas.title raw) [] ++ js " " ++ nullish (Atlas.notes raw) []
       ++ js " " ++ nullish (Atlas.location raw) []).

Definition isHospitalAppointment (raw : Atlas.Appointment) : bool :=
  let text := hospitalText raw in
  existsb (fun k => JsString.includes text k) hospitalKeywords
  || JsString.includes (JsString.toLowerCase (nullish (Atlas.type raw) [])) (js "medical").

(** [parts.push(s)] under a guard. *)
Definition push_if (c : bool) (s : jsstring) (parts : list jsstring) : list jsstring :=
  if c then parts ++ [s] else parts.

(** The line built for a recurrence whose pattern is set and not "none". *)
Definition recurrenceLine (pat : jsstring) (r : Atlas.Recurrence) : jsstring :=
  let every :=
    if truthy_number (Atlas.every r)
    then js "كل " ++ JsString.ofZ (nullish (Atlas.every r) 0%Z)
    else js "متكرر" in
  let days :=
    if truthy_length (Atlas.days_of_week r)
    then js " (" ++ JsString.join (js ",") (nullish (Atlas.days_of_week r) []) ++ js ")"
    else [] in
  js "تكرار: " ++ pat ++ js " " ++ every ++ days.

(** The guard [raw.recurrence?.pattern && raw.recurrence.pattern !== "none"]. *)
Definition recurrenceShown (raw : Atlas.Appointment) : option (jsstring * Atlas.Recurrence) :=
  match Atlas.recurrence raw with
  | Some r =>
    match Atlas.pattern r with
    | Some pat =>
      if truthy_string (Some pat) && negb (bool_decide (pat = js "none"))
      then Some (pat, r) else None
    | None => None
    end
  | None => None
  end.

Definition reminderOf (raw : Atlas.Appointment) (hospital : bool) : option Z :=
  match Atlas.reminder_minutes_before raw with
  | Some n => Some n
  | None => if hospital then Some 120%Z else None
  end.

(** The [parts] array after the pushes that precede the classification. *)
Definition partsBeforeHospital (raw : Atlas.Appointment) : list jsstring :=
  let parts := [] in
  let parts := push_if (truthy_string (Atlas.notes raw)) (nullish (Atlas.notes raw) []) parts in
  let parts := push_if (truthy_string (Atlas.person raw))
                 (js "مع: " ++ nullish (Atlas.person raw) []) parts in
  let parts := push_if (truthy_length (Atlas.actions_before raw))
                 (js "قبل: " ++ JsString.join (js " | ") (nullish (Atlas.actions_before raw) [])) parts in
  let parts := push_if (truthy_length (Atlas.actions_after raw))
                 (js "بعد: " ++ JsString.join (js " | ") (nullish (Atlas.actions_after raw) [])) parts in
  let parts :=
    match recurrenceShown raw with
    | Some (pat, r) => parts ++ [recurrenceLine pat r]
    | None => parts
    end in
  push_if (truthy_length (Atlas.tags raw))
    (js "وسوم: " ++ JsString.join (js ", ") (nullish (Atlas.tags raw) [])) parts.

(** The pushes of the [if (hospital)] block. *)
Definition pushHospital (raw : Atlas.Appointment) (parts : list jsstring) : list jsstring :=
  let parts := push_if (negb (truthy_length (Atlas.actions_before raw)))
                 (js "اقتراح قبل الموعد: تحضير التحاليل أو الملفات الضرورية") parts in
  let parts := push_if (negb (truthy_length (Atlas.actions_after raw)))
                 (js "اقتراح بعد الموعد: تدوين الملاحظات والتعليمات الطبية") parts in
  parts ++ [js "تنبيه مقترح: قبل 15 دقيقة على الأقل"].

(** The last push: [if (reminder) parts.push(...)]. *)
Definition pushReminder (reminder : option Z) (parts : list jsstring) : list jsstring :=
  push_if (truthy_number reminder)
    (js "تذكير قبل: " ++ JsString.ofZ (nullish reminder 0%Z) ++ js " دقيقة") parts.

(** The [parts] array when the [if (hospital)] block is left. *)
Definition partsBeforeReminder (raw : Atlas.Appointment) : list jsstring :=
  let parts := partsBeforeHospital raw in
  if isHospitalAppointment raw then pushHospital raw parts else parts.

(** The whole [parts] array at the [return]. *)
Definition descriptionParts (raw : Atlas.Appointment) : list jsstring :=
  let hospital := isHospitalAppointment raw in
  let reminder := reminderOf raw hospital in
  pushReminder reminder (partsBeforeReminder raw).

(** [s || undefined] *)
Definition or_undefined (s : jsstring) : option jsstring :=
  match s with [] => None | _ => Some s end.

Section Normalizer.

(** The platform's date reader and printer: [Date_parse s] is the time
    value of [new Date(s)], [None] when it is [NaN] (an invalid date);
    [toISOString] prints a valid time value. *)
Variable Date_parse : jsstring -> option Z.
Variable toISOString : Z -> jsstring.

(** [now] is the time value of [new Date()] read at the call. *)
Definition convertAtlasToAppointment (now : Z) (raw : Atlas.Appointment) : Appointment.t :=
  let datePart := nullish (Atlas.date raw) (JsString.slice0 10 (toISOString now)) in
  let timePart := nullish (Atlas.time raw) (js "09:00") in
  let start := Date_parse (datePart ++ js "T" ++ timePart) in
  let start_at :=
    match start with
    | None => toISOString now
    | Some t => toISOString t
    end in
  let end_at :=
    if truthy_string (Atlas.end_time raw) then
      match Date_parse (datePart ++ js "T" ++ nullish (Atlas.end_time raw) []) with
      | Some t => Some (toISOString t)
      | None => None
      end
    else None in
  let hospital := isHospitalAppointment raw in
  let reminder := reminderOf raw hospital in
  {| Appointment.title :=
       if truthy_string (Atlas.title raw) then nullish (Atlas.title raw) []
       else js "موعد بدون عنوان";
     Appointment.description := or_undefined (JsString.join (js " | ") (descriptionParts raw));
     Appointment.tag :=
       match Atlas.tags raw with Some (x :: _) => Some x | _ => None end;
     Appointment.start_at := start_at;
     Appointment.end_at := end_at;
     Appointment.priority :=
       if hospital then high else mapTypeToPriority (nullish (Atlas.type raw) []);
     Appointment.status := scheduled;
     Appointment.location := Atlas.location raw;
     Appointment.reminder_minutes_before := reminder |}.

End Normalizer.

(** ** Exceptions *)

(** A thrown value: an [Error] object (of whatever subclass) with its
    message, or some other value, kept as what [String(err)] prints. *)
Inductive ErrorName := Error_ | SyntaxError | TypeError.

Inductive thrown :=
| ErrorObject (name : ErrorName) (message : jsstring)
| OtherValue (printed : jsstring).

Inductive result (A : Type) :=
| Return (a : A)
| Throw (e : thrown).
Arguments Return {A} a.
Arguments Throw {A} e.

(** [throw new Error(msg)] *)
Definition throwError {A} (msg : jsstring) : result A := Throw (ErrorObject Error_ msg).

Definition bind {A B} (m : result A) (f : A -> result B) : result B :=
  match m with Return a => f a | Throw e => Throw e end.

Notation "x <- m ;; k" := (bind m (fun x => k))
  (at level 100, m at next level, right associativity).

(** ** Regular expressions

    The two patterns of [extractAppointmentsJSON] are kept as patterns and
    run by a backtracking matcher that tries the alternatives in the order
    of the ECMAScript semantics: a greedy quantifier takes one more
    repetition first, a lazy one tries the rest of the pattern first. *)

Module Regex.

Inductive t :=
| Eps
| Unit (p : N -> bool)      (* one code unit of a class *)
| Seq (r1 r2 : t)
| Opt (r : t)               (* r?  *)
| Star (r : t)              (* r*  *)
| StarLazy (r : t)          (* r*? *)
| Group (r : t).            (* ( r ), the first capture group *)

(** A literal, unit by unit. *)
Definition Lit (s : jsstring) : t :=
  fold_right (fun c r => Seq (Unit (N.eqb c)) r) Eps s.

(** Under the [i] flag two code units match when they canonicalize to
    the same one.  A Latin small letter canonicalizes to its capital; a
    code unit beyond U+007F never canonicalizes to one below, so against
    the Latin letters and marks of a pattern every other code unit
    stands for itself. *)
Definition canonicalize (c : N) : N :=
  if (97 <=? c) && (c <=? 122) then c - 32 else c.

Definition Lit_i (s : jsstring) : t :=
  fold_right (fun c r => Seq (Unit (fun d => canonicalize d =? canonicalize c)) r) Eps s.

(** [\s] and [[\s\S]] *)
Definition space : t := Unit JsString.isWhiteSpace.
Definition any : t := Unit (fun _ => true).

Section Run.
Context {R : Type}.

(** A continuation receives the position reached, the input left and
    the span of the capture group, if it took part so far. *)
Definition cont := nat -> jsstring -> option (nat * nat) -> option R.

Fixpoint run (r : t) (pos : nat) (s : jsstring) (cap : option (nat * nat))
    (k : cont) {struct r} : option R :=
  match r with
  | Eps => k pos s cap
  | Unit p =>
    match s with
    | c :: s' => if p c then k (S pos) s' cap else None
    | [] => None
    end
  | Seq r1 r2 => run r1 pos s cap (fun pos' s' cap' => run r2 pos' s' cap' k)
  | Opt r1 =>
    match run r1 pos s cap k with
    | Some x => Some x
    | None => k pos s cap
    end
  | Star r1 =>
    (fix loop (n : nat) (pos : nat) (s : jsstring) (cap : option (nat * nat)) : option R :=
       match n with
       | O => k pos s cap
       | S n' =>
         match run r1 pos s cap
                 (fun pos' s' cap' =>
                    if (pos <? pos')%nat then loop n' pos' s' cap' else None) with
         | Some x => Some x
         | None => k pos s cap
         end
       end) (S (List.length s)) pos s cap
  | StarLazy r1 =>
    (fix loop (n : nat) (pos : nat) (s : jsstring) (cap : option (nat * nat)) : option R :=
       match k pos s cap with
       | Some x => Some x
       | None =>
         match n with
         | O => None
         | S n' =>
           run r1 pos s cap
             (fun pos' s' cap' =>
                if (pos <? pos')%nat then loop n' pos' s' cap' else None)
         end
       end) (S (List.length s)) pos s cap
  | Group r1 => run r1 pos s cap (fun pos' s' _ => k pos' s' (Some (pos, pos')))
  end.

(** The leftmost start position at which the pattern matches. *)
Fixpoint search (r : t) (pos : nat) (s : jsstring) (k : nat -> cont) : option R :=
  match run r pos s None (k pos) with
  | Some x => Some x
  | None =>
    match s with
    | [] => None
    | _ :: s' => search r (S pos) s' k
    end
  end.
End Run.

Definition substring (s : jsstring) (from to : nat) : jsstring :=
  firstn (to - from) (skipn from s).

(** [input.match(r)] for a pattern without the [g] flag: the matched text
    (index 0 of the result) and the text of the capture group (index 1),
    or [None] for [null]. *)
Definition exec (r : t) (input : jsstring) : option (jsstring * option jsstring) :=
  search r 0 input
    (fun start stop _ cap =>
       Some (substring input start stop,
             match cap with
             | Some (a, b) => Some (substring input a b)
             | None => None
             end)).

End Regex.

(** [/```(?:json)?\s*([\s\S]*?)```/i] *)
Definition fenceRe : Regex.t :=
  Regex.Seq (Regex.Lit_i (js "```"))
    (Regex.Seq (Regex.Opt (Regex.Lit_i (js "json")))
       (Regex.Seq (Regex.Star Regex.space)
          (Regex.Seq (Regex.Group (Regex.StarLazy Regex.any))
             (Regex.Lit_i (js "```"))))).

(** [/\{[\s\S]*\}/] *)
Definition braceRe : Regex.t :=
  Regex.Seq (Regex.Lit (js "{")) (Regex.Seq (Regex.Star Regex.any) (Regex.Lit (js "}"))).

(** ** JSON values *)

Module Json.

(** A number is held as the exact decimal [m * 10^e] of its text; the
    rounding to a double is not modelled. *)
Inductive t :=
| Null
| Bool (b : bool)
| Num (m e : Z)
| Str (s : jsstring)
| Arr (xs : list t)
| Obj (fields : list (jsstring * t)).

(** Truthiness of a value that may be [undefined] ([None]). *)
Definition truthy (v : option t) : bool :=
  match v with
  | None | Some Null => false
  | Some (Bool b) => b
  | Some (Num m _) => negb (m =? 0)%Z
  | Some (Str s) => match s with [] => false | _ => true end
  | Some (Arr _) | Some (Obj _) => true
  end.

(** An own property of a parsed object; of two members with one name the
    later one is kept. *)
Definition lookup (k : jsstring) (fields : list (jsstring * t)) : option t :=
  fold_left (fun acc kv => if bool_decide (fst kv = k) then Some (snd kv) else acc)
    fields None.

(** [v?.k] for a property name [k] that is neither an index nor defined
    by a prototype ("choices", "message", "content", "delta",
    "appointments"): only an object can hold it. *)
Definition member (v : option t) (k : jsstring) : option t :=
  match v with
  | Some (Obj fields) => lookup k fields
  | _ => None
  end.

(** [v?.[0]] *)
Definition first (v : option t) : option t :=
  match v with
  | Some (Arr (x :: _)) => Some x
  | Some (Str (c :: _)) => Some (Str [c])
  | Some (Obj fields) => lookup (js "0") fields
  | _ => None
  end.

(** The integer a number denotes, if it is one. *)
Definition toZ (m e : Z) : option Z :=
  if (0 <=? e)%Z then Some (m * 10 ^ e)%Z
  else if (m mod 10 ^ (- e) =? 0)%Z then Some (m / 10 ^ (- e))%Z
  else None.

End Json.

(** ** The response extractor *)

Definition unparseableMessage : jsstring :=
  Eval vm_compute in js "تعذر قراءة JSON. يرجى إعادة المحاولة وإرجاع كائن appointments.".

Section Extractor.

(** The platform's [JSON.parse]: the value read, or the message of the
    [SyntaxError] it throws. *)
Variable JSON_parse : jsstring -> Json.t + jsstring.

Definition parseJSON (text : jsstring) : result Json.t :=
  match JSON_parse text with
  | inl v => Return v
  | inr msg => Throw (ErrorObject SyntaxError msg)
  end.

(** The candidate text: group 1 of the fence match, else the whole text.
    ([None] stands for an [undefined] group, which the fence pattern
    never leaves: its group takes part in every match.) *)
Definition candidate (rawContent : jsstring) : option jsstring :=
  match Regex.exec fenceRe rawContent with
  | Some (_, inner) => inner
  | None => Some rawContent
  end.

Definition extractAppointmentsJSON (rawContent : jsstring) : result Json.t :=
  match candidate rawContent with
  | Some content =>
    match JSON_parse content with
    | inl v => Return v
    | inr _ =>
      match Regex.exec braceRe content with
      | Some (whole, _) => parseJSON whole
      | None => throwError unparseableMessage
      end
    end
  | None =>
    (* JSON.parse(undefined) throws, then undefined.match throws *)
    Throw (ErrorObject TypeError (js "Cannot read properties of undefined (reading 'match')"))
  end.

End Extractor.

(** ** Rate-limit detection in the page module *)

(** [err instanceof Error ? err.message : String(err ?? "")] *)
Definition messageOrString (err : thrown) : jsstring :=
  match err with
  | ErrorObject _ msg => msg
  | OtherValue printed => printed
  end.

Definition isRateLimitError (err : thrown) : bool :=
  let msg := messageOrString err in
  JsString.includes msg (js "429")
  || JsString.includes (JsString.toLowerCase msg) (js "too many requests").

(** ** The completion client *)

Abbreviation EnvLike := (gmap jsstring jsstring).

(** [env && env[key]], kept when truthy. *)
Definition envLookup (env : option EnvLike) (key : jsstring) : option jsstring :=
  match env with
  | Some m =>
    match m !! key with
    | Some (c :: v) => Some (c :: v)
    | _ => None
    end
  | None => None
  end.

(** [a || b] on values that are a non-empty string or [undefined]. *)
Definition orElse (a b : option jsstring) : option jsstring :=
  match a with Some v => Some v | None => b end.

Definition getEnvValue (key : jsstring) (viteEnv nodeEnv : option EnvLike) : option jsstring :=
  orElse (envLookup viteEnv key) (orElse (envLookup nodeEnv key) None).

Definition defaultUrl : jsstring :=
  Eval vm_compute in js "https://api.atlascloud.ai/v1/chat/completions".

Definition urlNames : list jsstring :=
  Eval vm_compute in
  [js "VITE_ATLAS_API_URL"; js "VITE_ATLASCLOUD_API_URL"; js "ATLAS_API_URL"; js "ATLASCLOUD_API_URL"].

Definition apiKeyNames : list jsstring :=
  Eval vm_compute in
  [js "VITE_ATLAS_API_KEY"; js "VITE_ATLASCLOUD_API_KEY"; js "ATLAS_API_KEY"; js "ATLASCLOUD_API_KEY"].

(** The chain [getEnvValue(n1, ..) || getEnvValue(n2, ..) || ...]. *)
Definition firstConfigured (names : list jsstring) (viteEnv nodeEnv : option EnvLike)
    : option jsstring :=
  fold_right (fun name rest => orElse (getEnvValue name viteEnv nodeEnv) rest) None names.

Definition resolveUrl (viteEnv nodeEnv : option EnvLike) : jsstring :=
  nullish (firstConfigured urlNames viteEnv nodeEnv) defaultUrl.

(** The resolved key; [""] when no name is configured. *)
Definition resolveApiKey (viteEnv nodeEnv : option EnvLike) : jsstring :=
  nullish (firstConfigured apiKeyNames viteEnv nodeEnv) [].

Definition missingKeyMessage : jsstring :=
  Eval vm_compute in js "مفتاح Atlas غير موجود. أضف VITE_ATLAS_API_KEY أو ATLAS_API_KEY.".

(** The instruction template.  Its double quotes are written as
    apostrophes here and put back by [requote]; the template holds no
    apostrophe of its own. *)
Definition requote (s : jsstring) : jsstring :=
  List.map (fun c => if c =? 39 then 34 else c) s.

Definition systemPrompt : jsstring :=
  Eval vm_compute in
  JsString.trim (requote (js "
أنت مساعد عربي لتحويل النصوص إلى JSON مواعيد. أعد كائناً واحداً بهذه الصيغة:
{
  'appointments': [
    {
      'type': 'medical|medication|personal_event|work|other',
      'title': 'عنوان قصير',
      'date': 'YYYY-MM-DD',
      'time': 'HH:MM',
      'end_time': 'HH:MM أو null',
      'location': 'اختياري أو null',
      'person': 'اختياري أو null',
      'actions_before': ['خطوة', '...'],
      'actions_after': ['خطوة', '...'],
      'tags': ['وسم1', 'وسم2'],
      'recurrence': { 'pattern': 'none|daily|weekly|monthly|yearly', 'every': 1, 'days_of_week': ['sat','sun','mon','tue','wed','thu','fri'] },
      'reminder_minutes_before': 30,
      'notes': 'اختياري أو null'
    }
  ]
}
شروط:
- إن لم تجد مواعيد أرجع {'appointments': []}.
- لا تضع حقولاً فارغة؛ استخدم null أو [] عند الحاجة.
- تأكد أن JSON صالح بالكامل دون نص زائد.
")).

(** [(userText || "").slice(0, 2000)] *)
Definition trimmedUserText (userText : jsstring) : jsstring :=
  JsString.slice0 2000 userText.

Record Request := {
  url : jsstring;
  method : jsstring;
  headers : list (jsstring * jsstring);
  body : Json.t   (* the payload handed to JSON.stringify *)
}.

Definition message (role content : jsstring) : Json.t :=
  Json.Obj [(js "role", Json.Str role); (js "content", Json.Str content)].

Definition payload (trimmed : jsstring) : Json.t :=
  Json.Obj
    [ (js "model", Json.Str (js "openai/gpt-oss-20b"));
      (js "messages",
       Json.Arr [message (js "system") systemPrompt; message (js "user") trimmed]);
      (js "max_tokens", Json.Num 256 0);
      (js "temperature", Json.Num 2 (-1));
      (js "top_p", Json.Num 7 (-1));
      (js "top_k", Json.Num 20 0);
      (js "repetition_penalty", Json.Num 102 (-2));
      (js "stream", Json.Bool false) ].

Definition buildRequest (url apiKey trimmed : jsstring) : Request :=
  {| url := url;
     method := js "POST";
     headers := [ (js "Content-Type", js "application/json");
                  (js "Authorization", js "Bearer " ++ apiKey) ];
     body := payload trimmed |}.

(** [messages[1].content] of a request body. *)
Definition userContent (req : Request) : option Json.t :=
  match Json.member (Some (body req)) (js "messages") with
  | Some (Json.Arr [_; m]) => Json.member (Some m) (js "content")
  | _ => None
  end.

(** What [fetch] gives back: a response, or a thrown network failure. *)
Inductive FetchOutcome :=
| Response (status : Z) (text : jsstring)
| NetworkFailure (e : thrown).

(** [res.ok] *)
Definition ok (status : Z) : bool := (200 <=? status)%Z && (status <=? 299)%Z.

Definition rateLimitPrefix : jsstring :=
  Eval vm_compute in js "يرجى الانتظار قليلًا ثم إعادة المحاولة (429): ".

Definition isRateLimitResponse (status : Z) (text : jsstring) : bool :=
  let lowered := JsString.toLowerCase text in
  (status =? 429)%Z
  || JsString.includes lowered (js "too many requests")
  || JsString.includes lowered (js "only request this after").

Definition rateLimitFailure (text : jsstring) : thrown :=
  ErrorObject Error_ (rateLimitPrefix ++ text).

Definition transportFailure (status : Z) (text : jsstring) : thrown :=
  ErrorObject Error_ (js "Atlas API error: " ++ JsString.ofZ status ++ js " " ++ text).

(** [a || b || null] on JSON values. *)
Definition firstTruthy (a b : option Json.t) : Json.t :=
  if Json.truthy a then nullish a Json.Null
  else if Json.truthy b then nullish b Json.Null
  else Json.Null.

Record AtlasReply := { raw : Json.t; assistant : Json.t }.

Section Client.

Variable JSON_parse : jsstring -> Json.t + jsstring.

(** The configuration and the network the call runs against. *)
Variable viteEnv nodeEnv : option EnvLike.
Variable fetch : Request -> FetchOutcome.

(** The requests issued, in order, and the result of the call. *)
Definition sendToAtlas (userText : jsstring) : list Request * result AtlasReply :=
  let url := resolveUrl viteEnv nodeEnv in
  let apiKey := resolveApiKey viteEnv nodeEnv in
  match apiKey with
  | [] => ([], throwError missingKeyMessage)
  | _ :: _ =>
    let trimmed := trimmedUserText userText in
    let req := buildRequest url apiKey trimmed in
    match fetch req with
    | NetworkFailure e => ([req], Throw e)
    | Response status text =>
      if negb (ok status) then
        if isRateLimitResponse status text
        then ([req], Throw (rateLimitFailure text))
        else ([req], Throw (transportFailure status text))
      else
        ([req],
         json <- parseJSON JSON_parse text ;;
         let choice := Json.first (Json.member (Some json) (js "choices")) in
         let assistantContent :=
           firstTruthy (Json.member (Json.member choice (js "message")) (js "content"))
                       (Json.member (Json.member choice (js "delta")) (js "content")) in
         Return {| raw := json; assistant := assistantContent |})
    end
  end.

(** The request the client builds for a text. *)
Definition requestFor (userText : jsstring) : Request :=
  buildRequest (resolveUrl viteEnv nodeEnv) (resolveApiKey viteEnv nodeEnv)
    (trimmedUserText userText).

End Client.

(** ** Reading an extracted item at the type [AtlasAppointment]

    [handleAiSubmit] passes each element of the extracted array to the
    normalizer at the type [AtlasAppointment] without a check.  [Decode.item]
    reads an object at that type; it is [None] for an object with a field
    of another type, which the typed embedding leaves out.
    [Decode.element] reads any element the way the normalizer meets it:
    reading a property of [null] throws, and a value that is not an
    object (a number, a string, a boolean, an array) has none of the
    fields, so that every read gives [undefined]. *)

Module Decode.

Definition string (v : option Json.t) : option (option jsstring) :=
  match v with
  | None | Some Json.Null => Some None
  | Some (Json.Str s) => Some (Some s)
  | _ => None
  end.

Definition number (v : option Json.t) : option (option Z) :=
  match v with
  | None | Some Json.Null => Some None
  | Some (Json.Num m e) => n ← Json.toZ m e; Some (Some n)
  | _ => None
  end.

Definition strings (v : option Json.t) : option (option (list jsstring)) :=
  match v with
  | None | Some Json.Null => Some None
  | Some (Json.Arr xs) =>
    l ← mapM (fun x => match x with Json.Str s => Some s | _ => None end) xs;
    Some (Some l)
  | _ => None
  end.

Definition recurrence (v : option Json.t) : option (option Atlas.Recurrence) :=
  match v with
  | None | Some Json.Null => Some None
  | Some (Json.Obj _) =>
    pattern ← string (Json.member v (js "pattern"));
    every ← number (Json.member v (js "every"));
    days ← strings (Json.member v (js "days_of_week"));
    Some (Some {| Atlas.pattern := pattern; Atlas.every := every;
                  Atlas.days_of_week := days |})
  | _ => None
  end.

Definition item (v : Json.t) : option Atlas.Appointment :=
  match v with
  | Json.Obj _ =>
    let f := Json.member (Some v) in
    type ← string (f (js "type"));
    title ← string (f (js "title"));
    date ← string (f (js "date"));
    time ← string (f (js "time"));
    end_time ← string (f (js "end_time"));
    location ← string (f (js "location"));
    person ← string (f (js "person"));
    actions_before ← strings (f (js "actions_before"));
    actions_after ← strings (f (js "actions_after"));
    tags ← strings (f (js "tags"));
    reminder ← number (f (js "reminder_minutes_before"));
    recurrence ← recurrence (f (js "recurrence"));
    notes ← string (f (js "notes"));
    Some {| Atlas.type := type; Atlas.title := title; Atlas.date := date;
            Atlas.time := time; Atlas.end_time := end_time;
            Atlas.location := location; Atlas.person := person;
            Atlas.actions_before := actions_before;
            Atlas.actions_after := actions_after; Atlas.tags := tags;
            Atlas.reminder_minutes_before := reminder;
            Atlas.recurrence := recurrence; Atlas.notes := notes |}
  | _ => None
  end.

(** The item all of whose fields are [undefined]. *)
Definition noFields : Atlas.Appointment :=
  {| Atlas.type := None; Atlas.title := None; Atlas.date := None;
     Atlas.time := None; Atlas.end_time := None; Atlas.location := None;
     Atlas.person := None; Atlas.actions_before := None;
     Atlas.actions_after := None; Atlas.tags := None;
     Atlas.reminder_minutes_before := None; Atlas.recurrence := None;
     Atlas.notes := None |}.

(** The first property the normalizer reads is [raw.date]. *)
Definition nullItemError : thrown :=
  ErrorObject TypeError (js "Cannot read properties of null (reading 'date')").

Definition element (v : Json.t) : option (result Atlas.Appointment) :=
  match v with
  | Json.Null => Some (Throw nullItemError)
  | Json.Obj _ =>
    match item v with
    | Some raw => Some (Return raw)
    | None => None
    end
  | _ => Some (Return noFields)
  end.

End Decode.

(** ** The orchestrator *)

(** The state of the page that [handleAiSubmit] reads and sets. *)
Record Ui := {
  aiText : jsstring;
  aiError : option jsstring;
  aiSuccess : option jsstring;
  errorModal : option (jsstring * jsstring);   (* title, message *)
  aiLoading : bool
}.

Definition emptyInputMessage : jsstring :=
  Eval vm_compute in js "اكتب تفاصيل الموعد أولاً.".
Definition noAppointmentsMessage : jsstring :=
  Eval vm_compute in js "لم يتم استخراج أي مواعيد.".
Definition waitInlineMessage : jsstring :=
  Eval vm_compute in js "الرجاء الانتظار ثم المحاولة مجددًا (429).".
Definition waitModalMessage : jsstring :=
  Eval vm_compute in js "تجاوزت الحد المسموح. الرجاء الانتظار ثم المحاولة.".
Definition unexpectedMessage : jsstring :=
  Eval vm_compute in js "حدث خطأ غير متوقع.".
Definition modalTitle : jsstring :=
  Eval vm_compute in js "تعذر إضافة الموعد آليًا".

(** [err instanceof Error ? err.message : "..."] *)
Definition messageOrUnexpected (err : thrown) : jsstring :=
  match err with
  | ErrorObject _ msg => msg
  | OtherValue _ => unexpectedMessage
  end.

(** [setAiError(null); setAiSuccess(null)] *)
Definition clearMessages (ui0 : Ui) : Ui :=
  {| aiText := aiText ui0; aiError := None; aiSuccess := None;
     errorModal := errorModal ui0; aiLoading := aiLoading ui0 |}.

(** What a run leaves behind: the page state, the requests sent, the
    drafts stored, and whether the handler itself called [fetch()] at the
    end of its [try] block.  (The store's [add] fetches the list on its
    own after each insert; that is the store's doing and is not recorded
    here.) *)
Record Run := {
  ui : Ui;
  requests : list Request;
  added : list Appointment.t;
  refetched : bool
}.

Section Orchestrator.

Variable JSON_parse : jsstring -> Json.t + jsstring.
Variable Date_parse : jsstring -> option Z.
Variable toISOString : Z -> jsstring.
Variable viteEnv nodeEnv : option EnvLike.
Variable fetch : Request -> FetchOutcome.

(** [clock i] is the [i]-th reading of [new Date()] during the run. *)
Variable clock : nat -> Z.

(** The store's [add]: given the drafts stored so far in the run, it
    stores one more or throws. *)
Variable add : list Appointment.t -> Appointment.t -> option thrown.

(** [Array.isArray(parsed?.appointments) ? parsed.appointments : []] *)
Definition appointmentsOf (parsed : Json.t) : list Json.t :=
  match Json.member (Some parsed) (js "appointments") with
  | Some (Json.Arr xs) => xs
  | _ => []
  end.

(** [appointmentsRaw.map(item => convertAtlasToAppointment(item))]: the
    drafts, or the exception of the first element that throws, which
    ends the [map].  It is [None] when an object with a field of another
    type is met before that. *)
Fixpoint convertAll (i : nat) (items : list Json.t)
    : option (result (list Appointment.t)) :=
  match items with
  | [] => Some (Return [])
  | v :: rest =>
    match Decode.element v with
    | None => None
    | Some (Throw e) => Some (Throw e)
    | Some (Return raw) =>
      match convertAll (S i) rest with
      | None => None
      | Some (Throw e) => Some (Throw e)
      | Some (Return drafts) =>
        Some (Return (convertAtlasToAppointment Date_parse toISOString (clock i) raw
                      :: drafts))
      end
    end
  end.

(** [for (const appt of toInsert) await add(appt)]: the drafts stored and
    the exception that stopped the loop, if one did. *)
Fixpoint addAll (stored : list Appointment.t) (toInsert : list Appointment.t)
    : list Appointment.t * option thrown :=
  match toInsert with
  | [] => (stored, None)
  | appt :: rest =>
    match add stored appt with
    | Some e => (stored, Some e)
    | None => addAll (stored ++ [appt]) rest
    end
  end.

(** [typeof content === "string" ? extractAppointmentsJSON(content) : content] *)
Definition parseContent (content : Json.t) : result Json.t :=
  match content with
  | Json.Str s => extractAppointmentsJSON JSON_parse s
  | _ => Return content
  end.

(** The body of the [try] block: the requests sent, the drafts stored,
    and the number of drafts on success or the exception thrown.  It is
    [None] when an extracted object has a field of another type than
    [AtlasAppointment] gives it. *)
Definition tryBlock (text : jsstring)
    : option (list Request * list Appointment.t * result nat) :=
  let '(reqs, sent) := sendToAtlas JSON_parse viteEnv nodeEnv fetch text in
  match sent with
  | Throw e => Some (reqs, [], Throw e)
  | Return res =>
    match parseContent (assistant res) with
    | Throw e => Some (reqs, [], Throw e)
    | Return parsed =>
      match appointmentsOf parsed with
      | [] => Some (reqs, [], throwError noAppointmentsMessage)
      | appointmentsRaw =>
        match convertAll 0 appointmentsRaw with
        | None => None
        | Some (Throw e) => Some (reqs, [], Throw e)
        | Some (Return toInsert) =>
          match addAll [] toInsert with
          | (stored, Some e) => Some (reqs, stored, Throw e)
          | (stored, None) => Some (reqs, stored, Return (List.length toInsert))
          end
        end
      end
    end
  end.

Definition successMessage (n : nat) : jsstring :=
  js "تمت إضافة " ++ JsString.ofZ (Z.of_nat n) ++ js " موعد/مواعيد.".

(** The end of the [try] block, the [catch] block and the [finally]
    block: the page state they leave. *)
Definition settle (ui1 : Ui) (outcome : result nat) : Ui :=
  match outcome with
  | Return n =>
    {| aiText := []; aiError := aiError ui1;
       aiSuccess := Some (successMessage n);
       errorModal := errorModal ui1; aiLoading := false |}
  | Throw err =>
    let inline :=
      if isRateLimitError err then waitInlineMessage else messageOrUnexpected err in
    let msg :=
      if isRateLimitError err then waitModalMessage else messageOrUnexpected err in
    {| aiText := aiText ui1; aiError := Some inline;
       aiSuccess := aiSuccess ui1;
       errorModal := Some (modalTitle, msg); aiLoading := false |}
  end.

Definition succeeded (outcome : result nat) : bool :=
  match outcome with Return _ => true | Throw _ => false end.

Definition handleAiSubmit (ui0 : Ui) : option Run :=
  let ui1 := clearMessages ui0 in
  match JsString.trim (aiText ui0) with
  | [] =>
    Some {| ui := {| aiText := aiText ui1; aiError := Some emptyInputMessage;
                     aiSuccess := aiSuccess ui1; errorModal := errorModal ui1;
                     aiLoading := aiLoading ui1 |};
            requests := []; added := []; refetched := false |}
  | text =>
    '(reqs, stored, outcome) ← tryBlock text;
    Some {| ui := settle ui1 outcome; requests := reqs; added := stored;
            refetched := succeeded outcome |}
  end.

End Orchestrator.

(** ** A reference platform

    The theorems below hold for every JSON reader, date parser, date
    printer, clock, network and store.  The examples run them on this
    reference platform: a reader of the JSON grammar (ECMA-404), and the
    ISO date-time format [YYYY-MM-DDTHH:MM] read and printed in UTC. *)

Module Reference.

Definition isJsonSpace (c : N) : bool :=
  (c =? 32) || (c =? 9) || (c =? 10) || (c =? 13).

Fixpoint skipSpace (s : jsstring) : jsstring :=
  match s with
  | c :: s' => if isJsonSpace c then skipSpace s' else s
  | [] => []
  end.

Definition isDigit (c : N) : bool := (48 <=? c) && (c <=? 57).

Definition hexValue (c : N) : option N :=
  if isDigit c then Some (c - 48)
  else if (97 <=? c) && (c <=? 102) then Some (c - 87)
  else if (65 <=? c) && (c <=? 70) then Some (c - 55)
  else None.

(** The text after an opening quote, up to the closing one. *)
Fixpoint stringBody (s : jsstring) (acc : list N) : option (jsstring * jsstring) :=
  match s with
  | [] => None
  | c :: s1 =>
    if c =? 34 then Some (rev acc, s1)
    else if c =? 92 then
      match s1 with
      | [] => None
      | e :: s2 =>
        if (e =? 34) || (e =? 92) || (e =? 47) then stringBody s2 (e :: acc)
        else if e =? 98 then stringBody s2 (8 :: acc)
        else if e =? 102 then stringBody s2 (12 :: acc)
        else if e =? 110 then stringBody s2 (10 :: acc)
        else if e =? 114 then stringBody s2 (13 :: acc)
        else if e =? 116 then stringBody s2 (9 :: acc)
        else if e =? 117 then
          match s2 with
          | h1 :: h2 :: h3 :: h4 :: s3 =>
            match hexValue h1, hexValue h2, hexValue h3, hexValue h4 with
            | Some a, Some b, Some c', Some d =>
              stringBody s3 ((a * 4096 + b * 256 + c' * 16 + d) :: acc)
            | _, _, _, _ => None
            end
          | _ => None
          end
        else None
      end
    else if c <? 32 then None
    else stringBody s1 (c :: acc)
  end.

(** The leading decimal digits and the text after them. *)
Fixpoint digits (s : jsstring) : list N * jsstring :=
  match s with
  | c :: s' =>
    if isDigit c then let '(ds, rest) := digits s' in ((c - 48) :: ds, rest)
    else ([], s)
  | [] => ([], [])
  end.

Definition digitsValue (ds : list N) : Z :=
  fold_left (fun acc d => (acc * 10 + Z.of_N d)%Z) ds 0%Z.

Definition number (s : jsstring) : option (Json.t * jsstring) :=
  let '(negative, s1) :=
    match s with
    | c :: r => if c =? 45 then (true, r) else (false, s)
    | [] => (false, s)
    end in
  let '(ip, s2) := digits s1 in
  match ip with
  | [] => None
  | d :: more =>
    if (d =? 0) && negb (bool_decide (more = [])) then None
    else
      let frac :=
        match s2 with
        | c :: r =>
          if c =? 46 then
            let '(fp, s3) := digits r in
            match fp with [] => None | _ => Some (fp, s3) end
          else Some ([], s2)
        | [] => Some ([], s2)
        end in
      '(fp, s3) ← frac;
      let expo :=
        match s3 with
        | c :: r =>
          if (c =? 101) || (c =? 69) then
            let '(neg, r1) :=
              match r with
              | g :: r' =>
                if g =? 45 then (true, r')
                else if g =? 43 then (false, r') else (false, r)
              | [] => (false, r)
              end in
            let '(ep, s4) := digits r1 in
            match ep with
            | [] => None
            | _ => Some ((if neg then - digitsValue ep else digitsValue ep)%Z, s4)
            end
          else Some (0%Z, s3)
        | [] => Some (0%Z, s3)
        end in
      '(ex, s4) ← expo;
      let m := digitsValue (ip ++ fp) in
      Some (Json.Num (if negative then - m else m)%Z (ex - Z.of_nat (List.length fp))%Z, s4)
  end.

Definition keyword (k : jsstring) (v : Json.t) (s : jsstring) : option (Json.t * jsstring) :=
  if JsString.startsWith s k then Some (v, skipn (List.length k) s) else None.

Fixpoint value (fuel : nat) (s : jsstring) : option (Json.t * jsstring) :=
  match fuel with
  | O => None
  | S f =>
    match skipSpace s with
    | [] => None
    | c :: s1 =>
      if c =? 123 then
        match skipSpace s1 with
        | d :: s2 => if d =? 125 then Some (Json.Obj [], s2) else members f s1 []
        | [] => None
        end
      else if c =? 91 then
        match skipSpace s1 with
        | d :: s2 => if d =? 93 then Some (Json.Arr [], s2) else elements f s1 []
        | [] => None
        end
      else if c =? 34 then
        '(str, s2) ← stringBody s1 []; Some (Json.Str str, s2)
      else if c =? 116 then keyword (js "true") (Json.Bool true) (c :: s1)
      else if c =? 102 then keyword (js "false") (Json.Bool false) (c :: s1)
      else if c =? 110 then keyword (js "null") Json.Null (c :: s1)
      else number (c :: s1)
    end
  end
with elements (fuel : nat) (s : jsstring) (acc : list Json.t) : option (Json.t * jsstring) :=
  match fuel with
  | O => None
  | S f =>
    '(v, s1) ← value f s;
    match skipSpace s1 with
    | c :: s2 =>
      if c =? 44 then elements f s2 (v :: acc)
      else if c =? 93 then Some (Json.Arr (rev (v :: acc)), s2)
      else None
    | [] => None
    end
  end
with members (fuel : nat) (s : jsstring) (acc : list (jsstring * Json.t))
    : option (Json.t * jsstring) :=
  match fuel with
  | O => None
  | S f =>
    match skipSpace s with
    | q :: s1 =>
      if q =? 34 then
        '(name, s2) ← stringBody s1 [];
        match skipSpace s2 with
        | c :: s3 =>
          if c =? 58 then
            '(v, s4) ← value f s3;
            match skipSpace s4 with
            | d :: s5 =>
              if d =? 44 then members f s5 ((name, v) :: acc)
              else if d =? 125 then Some (Json.Obj (rev ((name, v) :: acc)), s5)
              else None
            | [] => None
            end
          else None
        | [] => None
        end
      else None
    | [] => None
    end
  end.

(** Between two nested calls that read no code unit there is one that
    reads one, so twice the length of the text bounds the nesting. *)
Definition readJSON (s : jsstring) : option Json.t :=
  match value (2 * List.length s + 2) s with
  | Some (v, rest) => match skipSpace rest with [] => Some v | _ => None end
  | None => None
  end.

Definition JSON_parse (s : jsstring) : Json.t + jsstring :=
  match readJSON s with
  | Some v => inl v
  | None => inr (js "Unexpected token in JSON")
  end.

(** *** Dates *)

Fixpoint readDigits (n : nat) (s : jsstring) (acc : Z) : option (Z * jsstring) :=
  match n with
  | O => Some (acc, s)
  | S n' =>
    match s with
    | c :: s' =>
      if isDigit c then readDigits n' s' (acc * 10 + Z.of_N (c - 48))%Z else None
    | [] => None
    end
  end.

Definition expect (c : N) (s : jsstring) : option jsstring :=
  match s with
  | d :: s' => if c =? d then Some s' else None
  | [] => None
  end.

Definition isLeap (y : Z) : bool :=
  ((y mod 4 =? 0) && negb (y mod 100 =? 0) || (y mod 400 =? 0))%Z.

Definition daysInMonth (y m : Z) : Z :=
  (if m =? 2 then (if isLeap y then 29 else 28)
   else if (m =? 4) || (m =? 6) || (m =? 9) || (m =? 11) then 30 else 31)%Z.

(** Days from 1970-01-01 to the given civil date, and back. *)
Definition daysFromCivil (y m d : Z) : Z :=
  (let y' := if m <=? 2 then y - 1 else y in
   let era := y' / 400 in
   let yoe := y' - era * 400 in
   let doy := (153 * (if 2 <? m then m - 3 else m + 9) + 2) / 5 + d - 1 in
   let doe := yoe * 365 + yoe / 4 - yoe / 100 + doy in
   era * 146097 + doe - 719468)%Z.

Definition civilFromDays (z : Z) : Z * Z * Z :=
  (let z := z + 719468 in
   let era := z / 146097 in
   let doe := z - era * 146097 in
   let yoe := (doe - doe / 1460 + doe / 36524 - doe / 146096) / 365 in
   let doy := doe - (365 * yoe + yoe / 4 - yoe / 100) in
   let mp := (5 * doy + 2) / 153 in
   let d := doy - (153 * mp + 2) / 5 + 1 in
   let m := if mp <? 10 then mp + 3 else mp - 9 in
   (yoe + era * 400 + (if m <=? 2 then 1 else 0), m, d))%Z.

(** [new Date("YYYY-MM-DDTHH:MM").getTime()] in a UTC time zone; any
    other text is an invalid date. *)
Definition Date_parse (s : jsstring) : option Z :=
  '(y, s) ← readDigits 4 s 0%Z;
  s ← expect 45 s;
  '(mo, s) ← readDigits 2 s 0%Z;
  s ← expect 45 s;
  '(d, s) ← readDigits 2 s 0%Z;
  s ← expect 84 s;
  '(h, s) ← readDigits 2 s 0%Z;
  s ← expect 58 s;
  '(mi, s) ← readDigits 2 s 0%Z;
  match s with
  | [] =>
    if ((1 <=? mo) && (mo <=? 12) && (1 <=? d) && (d <=? daysInMonth y mo)
        && (h <=? 23) && (mi <=? 59))%Z
    then Some (((daysFromCivil y mo d * 24 + h) * 60 + mi) * 60000)%Z
    else None
  | _ :: _ => None
  end.

Definition pad (width : nat) (n : Z) : jsstring :=
  let ds := JsString.ofZ n in
  repeat 48 (width - List.length ds) ++ ds.

(** [new Date(t).toISOString()] for a year from 0 to 9999. *)
Definition toISOString (t : Z) : jsstring :=
  (let days := t / 86400000 in
   let ms := t mod 86400000 in
   let '(y, m, d) := civilFromDays days in
   pad 4 y ++ js "-" ++ pad 2 m ++ js "-" ++ pad 2 d ++ js "T"
     ++ pad 2 (ms / 3600000) ++ js ":" ++ pad 2 (ms / 60000 mod 60) ++ js ":"
     ++ pad 2 (ms / 1000 mod 60) ++ js "." ++ pad 3 (ms mod 1000) ++ js "Z")%Z.

(** A clock that stands at 2025-05-10T08:15:30.250Z. *)
Definition clock (_ : nat) : Z := 1746864930250%Z.

End Reference.

(** ** The reference platform in a time zone

    A platform reads a date-time text without an offset as local time,
    and [toISOString] prints in UTC.  [Zoned] is the reference platform
    in a zone that stands [offset] minutes east of UTC. *)

Module Zoned.

Definition Date_parse (offset : Z) (s : jsstring) : option Z :=
  t ← Reference.Date_parse s; Some (t - offset * 60000)%Z.

(** The calendar date of an instant in the zone, as [YYYY-MM-DD]: the
    day that is "today" there at that instant. *)
Definition localDate (offset : Z) (t : Z) : jsstring :=
  let '(y, m, d) := Reference.civilFromDays ((t + offset * 60000) / 86400000) in
  Reference.pad 4 y ++ js "-" ++ Reference.pad 2 m ++ js "-" ++ Reference.pad 2 d.

(** Pacific daylight time. *)
Definition losAngeles : Z := (-420)%Z.

End Zoned.

(** * The specification's notions *)

(** ** Medical classification *)

(** The classification in words: the case-normalized text of title, notes
    and location holds one of the keywords, or the case-normalized category
    holds "medical". *)
Definition classifiedMedical (raw : Atlas.Appointment) : Prop :=
  (exists k, In k hospitalKeywords /\ JsString.includes (hospitalText raw) k = true)
  \/ JsString.includes (JsString.toLowerCase (nullish (Atlas.type raw) [])) (js "medical") = true.

(** ** The composed description, in the words of the specification

    Eight sub-parts in a fixed order.  Each is the line it contributes, or
    nothing when its source data is empty. *)

Module DescriptionSpec.

Definition separator : jsstring := js " | ".

(** (1) the notes, when not empty *)
Definition notes (raw : Atlas.Appointment) : option jsstring :=
  match Atlas.notes raw with
  | Some (c :: s) => Some (c :: s)
  | _ => None
  end.

(** (2) "with: person", when a person is named *)
Definition person (raw : Atlas.Appointment) : option jsstring :=
  match Atlas.person raw with
  | Some (c :: s) => Some (js "مع: " ++ c :: s)
  | _ => None
  end.

(** (3) "before:" and the actions before, when there is one *)
Definition before (raw : Atlas.Appointment) : option jsstring :=
  match Atlas.actions_before raw with
  | Some (a :: l) => Some (js "قبل: " ++ JsString.join (js " | ") (a :: l))
  | _ => None
  end.

(** (4) "after:" and the actions after, when there is one *)
Definition after (raw : Atlas.Appointment) : option jsstring :=
  match Atlas.actions_after raw with
  | Some (a :: l) => Some (js "بعد: " ++ JsString.join (js " | ") (a :: l))
  | _ => None
  end.

(** (5) the recurrence summary, when a pattern is given and is not "none" *)
Definition recurrence (raw : Atlas.Appointment) : option jsstring :=
  match Atlas.recurrence raw with
  | Some r =>
    match Atlas.pattern r with
    | Some (c :: pat) =>
      if bool_decide (c :: pat = js "none") then None
      else Some (recurrenceLine (c :: pat) r)
    | _ => None
    end
  | None => None
  end.

(** (6) "tags:" and the tags, when there is one *)
Definition tags (raw : Atlas.Appointment) : option jsstring :=
  match Atlas.tags raw with
  | Some (a :: l) => Some (js "وسوم: " ++ JsString.join (js ", ") (a :: l))
  | _ => None
  end.

(** (7) for a medical item: a suggestion for before when no action before
    was given, one for after when no action after was given, and the
    fixed reminder suggestion *)
Definition medical (raw : Atlas.Appointment) : list jsstring :=
  if isHospitalAppointment raw then
    (if truthy_length (Atlas.actions_before raw) then []
     else [js "اقتراح قبل الموعد: تحضير التحاليل أو الملفات الضرورية"])
    ++ (if truthy_length (Atlas.actions_after raw) then []
        else [js "اقتراح بعد الموعد: تدوين الملاحظات والتعليمات الطبية"])
    ++ [js "تنبيه مقترح: قبل 15 دقيقة على الأقل"]
  else [].

(** (8) "reminder before: N minutes", when a reminder value (raw, or the
    medical default) is present: the sub-part as the specification states
    it *)
Definition reminderAsStated (raw : Atlas.Appointment) : option jsstring :=
  match reminderOf raw (isHospitalAppointment raw) with
  | Some n => Some (js "تذكير قبل: " ++ JsString.ofZ n ++ js " دقيقة")
  | None => None
  end.

(** (8), amended: the reminder value is present and is not zero *)
Definition reminder (raw : Atlas.Appointment) : option jsstring :=
  match reminderOf raw (isHospitalAppointment raw) with
  | Some n => if (n =? 0)%Z then None else reminderAsStated raw
  | None => None
  end.

(** The sub-parts (1) to (7) that contribute, in order. *)
Definition leadingParts (raw : Atlas.Appointment) : list jsstring :=
  option_list (notes raw) ++ option_list (person raw)
    ++ option_list (before raw) ++ option_list (after raw)
    ++ option_list (recurrence raw) ++ option_list (tags raw)
    ++ medical raw.

(** The description of a list of contributing sub-parts: the sub-parts
    joined, or nothing at all. *)
Definition joined (parts : list jsstring) : option jsstring :=
  match parts with
  | [] => None
  | ps => Some (JsString.join separator ps)
  end.

(** All sub-parts that contribute, and the description, as stated ... *)
Definition subPartsAsStated (raw : Atlas.Appointment) : list jsstring :=
  leadingParts raw ++ option_list (reminderAsStated raw).

Definition descriptionAsStated (raw : Atlas.Appointment) : option jsstring :=
  joined (subPartsAsStated raw).

(** ... and as amended. *)
Definition subParts (raw : Atlas.Appointment) : list jsstring :=
  leadingParts raw ++ option_list (reminder raw).

Definition description (raw : Atlas.Appointment) : option jsstring :=
  joined (subParts raw).

End DescriptionSpec.

(** * Example inputs *)

(** The scenario item of the specification: a periodic check-up at the
    family clinic. *)
Definition checkup : Atlas.Appointment :=
  {| Atlas.type := Some (js "medical");
     Atlas.title := Some (js "فحص دوري");
     Atlas.date := Some (js "2025-05-12");
     Atlas.time := Some (js "16:30");
     Atlas.end_time := None;
     Atlas.location := Some (js "عيادة الأسرة");
     Atlas.person := None;
     Atlas.actions_before := None;
     Atlas.actions_after := None;
     Atlas.tags := None;
     Atlas.reminder_minutes_before := None;
     Atlas.recurrence := None;
     Atlas.notes := None |}.

(** The scenario item: nothing but a recurrence, weekly, every 2, on
    Saturday and Monday. *)
Definition fortnightly : Atlas.Appointment :=
  {| Atlas.type := None; Atlas.title := None; Atlas.date := None;
     Atlas.time := None; Atlas.end_time := None; Atlas.location := None;
     Atlas.person := None; Atlas.actions_before := None;
     Atlas.actions_after := None; Atlas.tags := None;
     Atlas.reminder_minutes_before := None;
     Atlas.recurrence :=
       Some {| Atlas.pattern := Some (js "weekly"); Atlas.every := Some 2%Z;
               Atlas.days_of_week := Some [js "sat"; js "mon"] |};
     Atlas.notes := None |}.

(** An item with its raw reminder set to [n] minutes. *)
Definition withReminder (n : Z) (raw : Atlas.Appointment) : Atlas.Appointment :=
  {| Atlas.type := Atlas.type raw; Atlas.title := Atlas.title raw;
     Atlas.date := Atlas.date raw; Atlas.time := Atlas.time raw;
     Atlas.end_time := Atlas.end_time raw; Atlas.location := Atlas.location raw;
     Atlas.person := Atlas.person raw;
     Atlas.actions_before := Atlas.actions_before raw;
     Atlas.actions_after := Atlas.actions_after raw; Atlas.tags := Atlas.tags raw;
     Atlas.reminder_minutes_before := Some n;
     Atlas.recurrence := Atlas.recurrence raw; Atlas.notes := Atlas.notes raw |}.

Abbreviation referenceConvert :=
  (convertAtlasToAppointment Reference.Date_parse Reference.toISOString (Reference.clock 0)).

(** Half past five in the afternoon of 2025-05-10 in Los Angeles, which
    is 2025-05-11T00:30:00.000Z. *)
Definition eveningInLosAngeles : Z := 1746923400000%Z.

(** A reply cut short by the token limit: an object that is opened and
    never closed. *)
Definition truncatedReply : jsstring :=
  Eval vm_compute in requote (js "{'appointments': [{'title': 'x'}").

(** Only the third name of the credential chain is configured. *)
Definition exampleEnv : option EnvLike :=
  Some {[ js "ATLAS_API_KEY" := js "sk-example" ]}.

Definition exampleUi (text : jsstring) : Ui :=
  {| aiText := text; aiError := None; aiSuccess := None; errorModal := None;
     aiLoading := false |}.

(** A network that answers every request the same way, and a store that
    accepts every draft. *)
Definition answering (status : Z) (text : jsstring) : Request -> FetchOutcome :=
  fun _ => Response status text.
Definition storeAll : list Appointment.t -> Appointment.t -> option thrown :=
  fun _ _ => None.

Abbreviation referenceSend fetch :=
  (sendToAtlas Reference.JSON_parse exampleEnv None fetch).
Abbreviation referenceSubmit fetch :=
  (handleAiSubmit Reference.JSON_parse Reference.Date_parse Reference.toISOString
     exampleEnv None fetch Reference.clock storeAll).

Definition doctorTomorrow : jsstring := Eval vm_compute in js "  موعد الطبيب غدا  ".

(** A completion whose content wraps an empty appointments array in a
    fenced block after a word of prose. *)
Definition fencedEmptyReply : jsstring :=
  Eval vm_compute in
  requote (js "{'choices':[{'message':{'content':'Sure! ```json\n{\'appointments\': []}\n```'}}]}").

(** A completion whose content is the check-up of the specification's
    scenario, as the one element of the appointments array. *)
Definition checkupReply : jsstring :=
  Eval vm_compute in
  requote (js "{'choices':[{'message':{'content':'{\'appointments\':[{\'type\':\'medical\',\'title\':\'فحص دوري\',\'date\':\'2025-05-12\',\'time\':\'16:30\',\'location\':\'عيادة الأسرة\'}]}'}}]}").

(** The runs on a blank text, on a 429 answer, on plain 500 answers, and
    on 500 answers whose body names a rate limit. *)
Definition blankText : jsstring := Eval vm_compute in js "   ".
Definition tooManyBody : jsstring := Eval vm_compute in js "too many requests".
Definition plainBody : jsstring := Eval vm_compute in js "internal error".
Definition markerBody : jsstring := Eval vm_compute in js "Too Many Requests".
Definition quotaBody : jsstring := Eval vm_compute in js "quota exceeded, code 429".

(** A text of 2001 letters. *)
Definition longText : jsstring := repeat 97 2001.

Definition shownError (run : option Run) : option jsstring :=
  run ≫= (fun r => aiError (ui r)).
Definition shownModal (run : option Run) : option (jsstring * jsstring) :=
  run ≫= (fun r => errorModal (ui r)).

(** * The rest of the page: reply shapes, settings, forms, reminders *)

(** ** Shapes of assistant replies *)

(** A text that holds no code unit [c]. *)
Definition lacks (c : N) (text : jsstring) : Prop := Forall (fun d => d <> c) text.

Definition backtick : N := 96.
Definition openBrace : N := 123.
Definition closeBrace : N := 125.
Definition fenceMark : jsstring := [backtick; backtick; backtick].

(** The language tag of a fence: none, or "json" in any letter case. *)
Definition fenceTag (tag : jsstring) : Prop :=
  tag = []
  \/ Forall2 (fun d c => (Regex.canonicalize d =? Regex.canonicalize c) = true) tag (js "json").

(** A reply that wraps [body] in a code fence: prose, the opening mark, a
    language tag, white space, the body, the closing mark, more text. *)
Definition fenced (pre tag ws body post : jsstring) : jsstring :=
  pre ++ fenceMark ++ tag ++ ws ++ body ++ fenceMark ++ post.

(** An object in prose: text, an opening brace, [mid], a closing brace,
    more text. *)
Definition embedded (pre mid tail : jsstring) : jsstring :=
  pre ++ openBrace :: mid ++ closeBrace :: tail.

(** A fenced reply in parts: prose, an upper-case tag, a line break, the
    body after its opening brace, and text after the fence. *)
Definition fencePre : jsstring := Eval vm_compute in js "Sure! ".
Definition fenceTagUpper : jsstring := Eval vm_compute in js "JSON".
Definition fenceSpace : jsstring := [10; 32].
Definition fenceBody : jsstring := Eval vm_compute in requote (js "'appointments': []}") ++ [10].
Definition fencePost : jsstring := Eval vm_compute in js " Anything else?".

(** An object between two sentences, and a reply of prose only. *)
Definition objectPre : jsstring := Eval vm_compute in js "Here you go: ".
Definition objectMid : jsstring := Eval vm_compute in requote (js "'appointments': []").
Definition objectTail : jsstring := Eval vm_compute in js " Hope this helps.".
Definition proseReply : jsstring := Eval vm_compute in js "I could not find any appointment.".

Section Drafts.
Variable Date_parse : jsstring -> option Z.
Variable toISOString : Z -> jsstring.
Variable clock : nat -> Z.

(** The drafts of a reply: each raw item normalized at its own reading
    of the clock, in the order of the array. *)
Definition draftsOf (raws : list Atlas.Appointment) : list Appointment.t :=
  imap (fun j raw => convertAtlasToAppointment Date_parse toISOString (clock j) raw) raws.
End Drafts.

(** A completion whose content holds two appointments, one with no
    choices at all, and a store that takes one draft and then fails. *)
Definition twoReply : jsstring :=
  Eval vm_compute in
  requote (js "{'choices':[{'message':{'content':'{\'appointments\':[{\'type\':\'work\',\'title\':\'standup\',\'date\':\'2025-05-12\',\'time\':\'10:00\'},{\'type\':\'personal\',\'title\':\'gym\',\'date\':\'2025-05-13\',\'time\':\'18:00\',\'reminder_minutes_before\':30}]}'}}]}").


Definition noChoicesReply : jsstring :=
  Eval vm_compute in requote (js "{'choices':[]}").

Definition storeFailure : thrown :=
  ErrorObject Error_ (js "new row violates row-level security policy").

Definition storeOne : list Appointment.t -> Appointment.t -> option thrown :=
  fun stored _ => match stored with [] => None | _ => Some storeFailure end.

Definition standup : Atlas.Appointment :=
  {| Atlas.type := Some (js "work"); Atlas.title := Some (js "standup");
     Atlas.date := Some (js "2025-05-12"); Atlas.time := Some (js "10:00");
     Atlas.end_time := None; Atlas.location := None; Atlas.person := None;
     Atlas.actions_before := None; Atlas.actions_after := None; Atlas.tags := None;
     Atlas.reminder_minutes_before := None; Atlas.recurrence := None;
     Atlas.notes := None |}.

Definition gym : Atlas.Appointment :=
  {| Atlas.type := Some (js "personal"); Atlas.title := Some (js "gym");
     Atlas.date := Some (js "2025-05-13"); Atlas.time := Some (js "18:00");
     Atlas.end_time := None; Atlas.location := None; Atlas.person := None;
     Atlas.actions_before := None; Atlas.actions_after := None; Atlas.tags := None;
     Atlas.reminder_minutes_before := Some 30%Z; Atlas.recurrence := None;
     Atlas.notes := None |}.

(** ** Numbers typed into a field *)

Definition isDecimalDigit (c : N) : bool := (48 <=? c) && (c <=? 57).

Fixpoint leadingDigits (s : jsstring) : list N :=
  match s with
  | c :: s' => if isDecimalDigit c then c :: leadingDigits s' else []
  | [] => []
  end.

Definition digitsValue (digits : list N) : Z :=
  fold_left (fun acc c => (acc * 10 + Z.of_N (c - 48))%Z) digits 0%Z.

(** [parseInt(s, 10)]: leading white space is dropped, then a sign is
    read, then the longest run of decimal digits; [None] stands for [NaN],
    the result when there is no digit.  The value is the mathematical
    one, which the platform rounds to a double: the same number below
    2^53. *)
Definition parseInt10 (s : jsstring) : option Z :=
  let trimmed := JsString.trimStart s in
  let sign :=
    match trimmed with
    | c :: _ => if c =? 45 then (-1)%Z else 1%Z
    | [] => 1%Z
    end in
  let unsigned :=
    match trimmed with
    | c :: rest => if (c =? 43) || (c =? 45) then rest else trimmed
    | [] => []
    end in
  match leadingDigits unsigned with
  | [] => None
  | digits => Some (sign * digitsValue digits)%Z
  end.

(** The code units of a decimal numeral of the standard library. *)
Definition unitsOf (d : Decimal.uint) : jsstring :=
  List.map N_of_ascii (list_ascii_of_string (NilEmpty.string_of_uint d)).
(** ** The settings overlay *)

Module Settings.
Record t := {
  defaultPriority : Priority;
  reminderWindowMinutes : Z;
  tags : list jsstring
}.
End Settings.

Definition defaultSettings : Settings.t :=
  {| Settings.defaultPriority := medium; Settings.reminderWindowMinutes := 15;
     Settings.tags := [] |}.

(** [{ ...s, tags }] and [{ ...s, reminderWindowMinutes }] *)
Definition withTags (s : Settings.t) (tags : list jsstring) : Settings.t :=
  {| Settings.defaultPriority := Settings.defaultPriority s;
     Settings.reminderWindowMinutes := Settings.reminderWindowMinutes s;
     Settings.tags := tags |}.

Definition withWindow (s : Settings.t) (minutes : Z) : Settings.t :=
  {| Settings.defaultPriority := Settings.defaultPriority s;
     Settings.reminderWindowMinutes := minutes;
     Settings.tags := Settings.tags s |}.

(** The [onChange] handler of the reminder-window field:
    [Math.min(180, Math.max(5, v))], and nothing on [NaN]. *)
Definition onReminderWindowChange (value : jsstring) (s : Settings.t) : Settings.t :=
  match parseInt10 value with
  | None => s
  | Some v => withWindow s (Z.min 180 (Z.max 5 v))
  end.

(** The state the tag handlers read and set: the settings, the text of
    the new-tag field, and the texts of the tag fields being edited. *)
Record TagState := {
  settings : Settings.t;
  newTag : jsstring;
  tagEdits : gmap jsstring jsstring
}.

Definition addTag (st : TagState) : TagState :=
  let name := JsString.trim (newTag st) in
  match name with
  | [] => st
  | _ :: _ =>
    {| settings :=
         if bool_decide (name ∈ Settings.tags (settings st)) then settings st
         else withTags (settings st) (Settings.tags (settings st) ++ [name]);
       newTag := [];
       tagEdits := tagEdits st |}
  end.

Definition updateTag (oldName value : jsstring) (st : TagState) : TagState :=
  let name := JsString.trim value in
  match name with
  | [] =>
    {| settings := settings st; newTag := newTag st;
       tagEdits := <[oldName := oldName]> (tagEdits st) |}
  | _ :: _ =>
    {| settings :=
         withTags (settings st)
           (List.map (fun t => if bool_decide (t = oldName) then name else t)
              (Settings.tags (settings st)));
       newTag := newTag st;
       tagEdits := tagEdits st |}
  end.

Definition removeTag (name : jsstring) (st : TagState) : TagState :=
  {| settings :=
       withTags (settings st)
         (List.filter (fun t => negb (bool_decide (t = name))) (Settings.tags (settings st)));
     newTag := newTag st;
     tagEdits := delete name (tagEdits st) |}.

(** The overlay with three tags, and a field that holds a fourth. *)
Definition threeTags : TagState :=
  {| settings := withTags defaultSettings [js "work"; js "home"; js "clinic"];
     newTag := js "  family ";
     tagEdits := ∅ |}.

(** ** The manual form and the edit form *)

Module FormModel.
Record t := {
  title : jsstring;
  date : jsstring;
  time : jsstring;
  endTime : jsstring;
  location : jsstring;
  description : jsstring;
  tag : jsstring;
  reminderMinutes : jsstring;
  priority : Priority;
  status : Status
}.
End FormModel.

Definition getManualTemplate (s : Settings.t) : FormModel.t :=
  {| FormModel.title := [];
     FormModel.date := [];
     FormModel.time := [];
     FormModel.endTime := [];
     FormModel.location := [];
     FormModel.description := [];
     FormModel.tag := nullish (head (Settings.tags s)) [];
     FormModel.reminderMinutes := JsString.ofZ (Settings.reminderWindowMinutes s);
     FormModel.priority := Settings.defaultPriority s;
     FormModel.status := scheduled |}.

(** A stored appointment: the identifier the database gave it, and its
    other fields. *)
Module Item.
Record t := { id : jsstring; fields : Appointment.t }.
End Item.

(** [s.slice(from, to)] for [0 <= from <= to]. *)
Definition slice (from to : nat) (s : jsstring) : jsstring :=
  firstn (to - from) (skipn from s).

(** [err instanceof Error ? err.message : fallback] *)
Definition messageOr (fallback : jsstring) (err : thrown) : jsstring :=
  match err with
  | ErrorObject _ msg => msg
  | OtherValue _ => fallback
  end.

(** The calls a handler makes on the store, in order. *)
Inductive StoreCall :=
| Add (draft : Appointment.t)
| Update (id : jsstring) (patch : Appointment.t)
| Fetch.

Module ManualUi.
Record t := {
  manual : FormModel.t;
  manualError : option jsstring;
  manualLoading : bool;
  errorModal : option (jsstring * jsstring)   (* title, message *)
}.
End ManualUi.

Module EditUi.
Record t := {
  editTarget : option Item.t;
  editForm : FormModel.t;
  editError : option jsstring;
  editLoading : bool;
  errorModal : option (jsstring * jsstring)
}.
End EditUi.

Definition titleRequiredMessage : jsstring := Eval vm_compute in js "أدخل عنوان الموعد.".
Definition manualFallback : jsstring := Eval vm_compute in js "تعذر حفظ الموعد.".
Definition manualModalTitle : jsstring := Eval vm_compute in js "حدث خطأ أثناء إضافة الموعد".
Definition editFallback : jsstring := Eval vm_compute in js "تعذر تعديل الموعد.".
Definition editModalTitle : jsstring := Eval vm_compute in js "حدث خطأ أثناء تعديل الموعد".
Definition modalFallback : jsstring := Eval vm_compute in js "خطأ غير متوقع. حاول مجددًا.".

(** [text ? parseInt(text, 10) : null].  The outer [None] stands for
    [NaN], which the type of the stored field leaves out. *)
Definition reminderOfField (text : jsstring) : option (option Z) :=
  match text with
  | [] => Some None
  | _ :: _ =>
    match parseInt10 text with
    | Some n => Some (Some n)
    | None => None
    end
  end.

(** The object literal handed to [add] and to [update]. *)
Definition draftOfForm (form : FormModel.t) (start_at : jsstring) (end_at : option jsstring)
    : option Appointment.t :=
  reminder ← reminderOfField (FormModel.reminderMinutes form);
  Some {| Appointment.title := JsString.trim (FormModel.title form);
          Appointment.description := or_undefined (JsString.trim (FormModel.description form));
          Appointment.tag := or_undefined (JsString.trim (FormModel.tag form));
          Appointment.start_at := start_at;
          Appointment.end_at := end_at;
          Appointment.priority := FormModel.priority form;
          Appointment.status := FormModel.status form;
          Appointment.location := or_undefined (JsString.trim (FormModel.location form));
          Appointment.reminder_minutes_before := reminder |}.

Section Forms.

Variable Date_parse : jsstring -> option Z.
Variable toISOString : Z -> jsstring.

(** The [RangeError] that [toISOString] throws on an invalid date. *)
Variable invalidTime : thrown.

(** [new Date(s).toISOString()] *)
Definition isoOf (s : jsstring) : result jsstring :=
  match Date_parse s with
  | Some t => Return (toISOString t)
  | None => Throw invalidTime
  end.

(** [endTime ? new Date(`${date}T${endTime}`).toISOString() : undefined] *)
Definition endOf (date endTime : jsstring) : result (option jsstring) :=
  match endTime with
  | [] => Return None
  | _ :: _ => iso <- isoOf (date ++ js "T" ++ endTime) ;; Return (Some iso)
  end.

(** The date, the time and the end time of an appointment, as the form
    shows them. *)
Definition toDateParts (a : Appointment.t) : result (jsstring * jsstring * jsstring) :=
  iso <- isoOf (Appointment.start_at a) ;;
  endTime <-
    (if truthy_string (Appointment.end_at a)
     then e <- isoOf (nullish (Appointment.end_at a) []) ;; Return (slice 11 16 e)
     else Return []) ;;
  Return (slice 0 10 iso, slice 11 16 iso, endTime).

(** The form that the edit button of an appointment fills in. *)
Definition editFormOf (a : Item.t) : result FormModel.t :=
  parts <- toDateParts (Item.fields a) ;;
  let '(date, time, endTime) := parts in
  let f := Item.fields a in
  Return {| FormModel.title := Appointment.title f;
            FormModel.date := date;
            FormModel.time := time;
            FormModel.endTime := endTime;
            FormModel.location := nullish (Appointment.location f) [];
            FormModel.description := nullish (Appointment.description f) [];
            FormModel.tag := nullish (Appointment.tag f) [];
            FormModel.reminderMinutes :=
              if truthy_number (Appointment.reminder_minutes_before f)
              then JsString.ofZ (nullish (Appointment.reminder_minutes_before f) 0%Z)
              else [];
            FormModel.priority := Appointment.priority f;
            FormModel.status := Appointment.status f |}.

(** [a || b] on strings *)
Definition orString (a b : jsstring) : jsstring :=
  match a with [] => b | _ :: _ => a end.

Section Manual.

(** The store's [add]: it stores the draft or throws. *)
Variable add : Appointment.t -> option thrown.

(** The time value of [new Date()] at the call, and the settings. *)
Variable now : Z.
Variable current : Settings.t.

Definition manualFailed (st : ManualUi.t) (err : thrown) : ManualUi.t :=
  {| ManualUi.manual := ManualUi.manual st;
     ManualUi.manualError := Some (messageOr manualFallback err);
     ManualUi.manualLoading := false;
     ManualUi.errorModal := Some (manualModalTitle, messageOr modalFallback err) |}.

(** The state the handler leaves and the calls it made on the store;
    [None] when the reminder field reads as [NaN]. *)
Definition handleManualSubmit (st : ManualUi.t) : option (ManualUi.t * list StoreCall) :=
  let form := ManualUi.manual st in
  match JsString.trim (FormModel.title form) with
  | [] =>
    Some ({| ManualUi.manual := form;
             ManualUi.manualError := Some titleRequiredMessage;
             ManualUi.manualLoading := ManualUi.manualLoading st;
             ManualUi.errorModal := ManualUi.errorModal st |}, [])
  | _ :: _ =>
    let date := orString (FormModel.date form) (slice 0 10 (toISOString now)) in
    let time := orString (FormModel.time form) (js "09:00") in
    let start_at :=
      match Date_parse (date ++ js "T" ++ time) with
      | None => toISOString now
      | Some t => toISOString t
      end in
    match endOf date (FormModel.endTime form) with
    | Throw err => Some (manualFailed st err, [])
    | Return end_at =>
      draft ← draftOfForm form start_at end_at;
      match add draft with
      | Some err => Some (manualFailed st err, [Add draft])
      | None =>
        Some ({| ManualUi.manual := getManualTemplate current;
                 ManualUi.manualError := None;
                 ManualUi.manualLoading := false;
                 ManualUi.errorModal := ManualUi.errorModal st |},
              [Add draft; Fetch])
      end
    end
  end.

End Manual.

Section Edit.

(** The store's [update]. *)
Variable update : jsstring -> Appointment.t -> option thrown.

Definition editFailed (st : EditUi.t) (err : thrown) : EditUi.t :=
  {| EditUi.editTarget := EditUi.editTarget st;
     EditUi.editForm := EditUi.editForm st;
     EditUi.editError := Some (messageOr editFallback err);
     EditUi.editLoading := false;
     EditUi.errorModal := Some (editModalTitle, messageOr modalFallback err) |}.

(** The body of the [try] block up to the call of [update]: the start and
    the end of the patch, or the exception thrown. *)
Definition editTimes (target : Item.t) (form : FormModel.t)
    : result (jsstring * option jsstring) :=
  base <- toDateParts (Item.fields target) ;;
  let '(baseDate, baseTime, _) := base in
  let date := orString (FormModel.date form) baseDate in
  let time := orString (FormModel.time form) baseTime in
  let start_at :=
    match Date_parse (date ++ js "T" ++ time) with
    | None => Appointment.start_at (Item.fields target)
    | Some t => toISOString t
    end in
  end_at <- endOf date (FormModel.endTime form) ;;
  Return (start_at, end_at).

Definition handleEditSubmit (st : EditUi.t) : option (EditUi.t * list StoreCall) :=
  match EditUi.editTarget st with
  | None => Some (st, [])
  | Some target =>
    let form := EditUi.editForm st in
    match JsString.trim (FormModel.title form) with
    | [] =>
      Some ({| EditUi.editTarget := Some target;
               EditUi.editForm := form;
               EditUi.editError := Some titleRequiredMessage;
               EditUi.editLoading := EditUi.editLoading st;
               EditUi.errorModal := EditUi.errorModal st |}, [])
    | _ :: _ =>
      match editTimes target form with
      | Throw err => Some (editFailed st err, [])
      | Return (start_at, end_at) =>
        patch ← draftOfForm form start_at end_at;
        match update (Item.id target) patch with
        | Some err => Some (editFailed st err, [Update (Item.id target) patch])
        | None =>
          Some ({| EditUi.editTarget := None;
                   EditUi.editForm := form;
                   EditUi.editError := None;
                   EditUi.editLoading := false;
                   EditUi.errorModal := EditUi.errorModal st |},
                [Update (Item.id target) patch; Fetch])
        end
      end
    end
  end.

End Edit.

End Forms.

(** The [onChange] handler of the title field of a form. *)
Definition onTitleChange (value : jsstring) (form : FormModel.t) : FormModel.t :=
  {| FormModel.title := value;
     FormModel.date := FormModel.date form;
     FormModel.time := FormModel.time form;
     FormModel.endTime := FormModel.endTime form;
     FormModel.location := FormModel.location form;
     FormModel.description := FormModel.description form;
     FormModel.tag := FormModel.tag form;
     FormModel.reminderMinutes := FormModel.reminderMinutes form;
     FormModel.priority := FormModel.priority form;
     FormModel.status := FormModel.status form |}.

(** ** Reminders *)

(** One element of the mapped array of the reminder timer: the
    appointment, its distance from now in milliseconds ([None] for [NaN],
    the distance of an unreadable start), and its window in minutes. *)
Record Upcoming := {
  appt : Item.t;
  diff : option Z;
  windowMinutes : Z
}.

Definition isScheduled (a : Item.t) : bool :=
  match Appointment.status (Item.fields a) with
  | scheduled => true
  | _ => false
  end.

(** [a.reminder_minutes_before ?? settings.reminderWindowMinutes] *)
Definition windowOf (current : Settings.t) (a : Item.t) : Z :=
  nullish (Appointment.reminder_minutes_before (Item.fields a))
    (Settings.reminderWindowMinutes current).

(** [diff > 0 && diff <= windowMinutes * 60 * 1000]; both comparisons fail
    on [NaN]. *)
Definition inWindow (u : Upcoming) : bool :=
  match diff u with
  | Some d => (0 <? d)%Z && (d <=? windowMinutes u * 60 * 1000)%Z
  | None => false
  end.

(** The distance the comparator reads; every element that reaches the
    sort has one. *)
Definition diffOf (u : Upcoming) : Z := nullish (diff u) 0%Z.

(** [list.sort((a, b) => a.diff - b.diff)]: the sort is stable, so an
    element goes before the elements of the same distance that came
    after it. *)
Fixpoint insertByDiff (u : Upcoming) (sorted : list Upcoming) : list Upcoming :=
  match sorted with
  | [] => [u]
  | x :: rest =>
    if (diffOf u <=? diffOf x)%Z then u :: x :: rest else x :: insertByDiff u rest
  end.

Definition sortByDiff (l : list Upcoming) : list Upcoming :=
  fold_right insertByDiff [] l.

(** [Math.max(1, Math.round(diff / 60000))] for a distance above zero:
    [Math.round] takes a half to the next integer.  The quotient is the
    mathematical one, which the platform rounds to a double: the same
    minute for every distance between two dates in a window below 10^11
    minutes. *)
Definition minutesOf (d : Z) : Z := Z.max 1 ((d + 30000) / 60000).

Record ReminderState := {
  nextReminder : option Item.t;
  minutesToReminder : option Z
}.

Inductive ToneName := soft | bright | digital | calm | alert.

(** What the notification effect does: [playTone(tone)] and
    [new Notification(title, { body, tag })]. *)
Inductive Signal :=
| Played (tone : ToneName)
| Notified (title body tag : jsstring).

Section Reminders.

Variable Date_parse : jsstring -> option Z.

Definition upcomingOf (now : Z) (current : Settings.t) (a : Item.t) : Upcoming :=
  {| appt := a;
     diff := t ← Date_parse (Appointment.start_at (Item.fields a)); Some (t - now)%Z;
     windowMinutes := windowOf current a |}.

(** An appointment that the timer may pick: it is scheduled, its start is
    readable and lies ahead, within its window. *)
Definition due (now : Z) (current : Settings.t) (a : Item.t) (t : Z) : Prop :=
  isScheduled a = true
  /\ Date_parse (Appointment.start_at (Item.fields a)) = Some t
  /\ (0 < t - now <= windowOf current a * 60 * 1000)%Z.

(** The element [upcoming] of one run of the timer. *)
Definition upcoming (now : Z) (current : Settings.t) (items : list Item.t)
    : option Upcoming :=
  head (sortByDiff
          (List.filter inWindow
             (List.map (upcomingOf now current) (List.filter isScheduled items)))).

(** One run of the timer: [setNextReminder] and [setMinutesToReminder]. *)
Definition tick (now : Z) (current : Settings.t) (items : list Item.t) : ReminderState :=
  match upcoming now current items with
  | Some u =>
    {| nextReminder := Some (appt u); minutesToReminder := Some (minutesOf (diffOf u)) |}
  | None => {| nextReminder := None; minutesToReminder := None |}
  end.

End Reminders.

(** The effect on [items]: the identifiers of appointments that are no
    longer scheduled are forgotten. *)
Definition prune (items : list Item.t) (notified : gset jsstring) : gset jsstring :=
  let future : gset jsstring := list_to_set (List.map Item.id (List.filter isScheduled items)) in
  filter (fun id => id ∈ future) notified.

Definition notificationTitle : jsstring := Eval vm_compute in js "تذكير بالموعد".

(** The notification effect: the set of notified identifiers it leaves
    and the signals it gives.  [granted] says that the platform has
    notifications and that the permission is "granted". *)
Definition notify (current : Settings.t) (tone : ToneName) (granted : bool)
    (r : ReminderState) (notified : gset jsstring) : gset jsstring * list Signal :=
  match nextReminder r, minutesToReminder r with
  | Some a, Some minutes =>
    if (Settings.reminderWindowMinutes current <? minutes)%Z then (notified, [])
    else if bool_decide (Item.id a ∈ notified) then (notified, [])
    else
      ({[ Item.id a ]} ∪ notified,
       Played tone ::
       (if granted
        then [Notified notificationTitle
                (Appointment.title (Item.fields a) ++ js " بعد " ++ JsString.ofZ minutes
                 ++ js " دقيقة")
                (js "appointment-" ++ Item.id a)]
        else []))
  | _, _ => (notified, [])
  end.

(** The forms and the list of the examples.  The handlers read nothing
    of an exception but its message; the reference platform gives the
    one of its [RangeError]. *)
Definition referenceInvalidTime : thrown := ErrorObject Error_ (js "Invalid time value").

Definition dentistForm : FormModel.t :=
  {| FormModel.title := js "  Dentist ";
     FormModel.date := js "2025-05-12";
     FormModel.time := js "16:30";
     FormModel.endTime := [];
     FormModel.location := [];
     FormModel.description := [];
     FormModel.tag := js "clinic";
     FormModel.reminderMinutes := js "30";
     FormModel.priority := high;
     FormModel.status := scheduled |}.

Definition withEndTime (endTime : jsstring) (form : FormModel.t) : FormModel.t :=
  {| FormModel.title := FormModel.title form;
     FormModel.date := FormModel.date form;
     FormModel.time := FormModel.time form;
     FormModel.endTime := endTime;
     FormModel.location := FormModel.location form;
     FormModel.description := FormModel.description form;
     FormModel.tag := FormModel.tag form;
     FormModel.reminderMinutes := FormModel.reminderMinutes form;
     FormModel.priority := FormModel.priority form;
     FormModel.status := FormModel.status form |}.

Definition manualUi (form : FormModel.t) : ManualUi.t :=
  {| ManualUi.manual := form; ManualUi.manualError := None;
     ManualUi.manualLoading := false; ManualUi.errorModal := None |}.

Definition acceptAll : Appointment.t -> option thrown := fun _ => None.
Definition updateAll : jsstring -> Appointment.t -> option thrown := fun _ _ => None.

(** A stored check-up with a reminder lead of zero, and one without a
    lead of its own. *)
Definition storedCheckup : Item.t :=
  {| Item.id := js "a1";
     Item.fields :=
       {| Appointment.title := js "Checkup ";
          Appointment.description := None;
          Appointment.tag := Some (js "clinic");
          Appointment.start_at := js "2025-05-12T16:30";
          Appointment.end_at := None;
          Appointment.priority := high;
          Appointment.status := scheduled;
          Appointment.location := None;
          Appointment.reminder_minutes_before := Some 0%Z |} |}.

Definition storedMeeting : Item.t :=
  {| Item.id := js "a2";
     Item.fields :=
       {| Appointment.title := js "Meeting";
          Appointment.description := None;
          Appointment.tag := None;
          Appointment.start_at := js "2025-05-12T16:30";
          Appointment.end_at := None;
          Appointment.priority := medium;
          Appointment.status := scheduled;
          Appointment.location := None;
          Appointment.reminder_minutes_before := None |} |}.

(** The form that the edit button fills in for the check-up. *)
Definition checkupForm : FormModel.t :=
  {| FormModel.title := js "Checkup ";
     FormModel.date := js "2025-05-12";
     FormModel.time := js "16:30";
     FormModel.endTime := [];
     FormModel.location := [];
     FormModel.description := [];
     FormModel.tag := js "clinic";
     FormModel.reminderMinutes := [];
     FormModel.priority := high;
     FormModel.status := scheduled |}.

Definition editUi (a : Item.t) (form : FormModel.t) : EditUi.t :=
  {| EditUi.editTarget := Some a; EditUi.editForm := form; EditUi.editError := None;
     EditUi.editLoading := false; EditUi.errorModal := None |}.

(** Ten minutes before the start of the stored appointments. *)
Definition tenMinutesBefore : Z :=
  Eval vm_compute in
  (nullish (Reference.Date_parse (js "2025-05-12T16:30")) 0 - 600000)%Z.

(** * Properties *)

(** ** Strings *)

Lemma startsWith_iff (s k : jsstring) :
  JsString.startsWith s k = true <-> exists r, s = k ++ r.
Proof.
  revert s. induction k as [|a k IH]; intros s; simpl.
  - split; [intros _; exists s; reflexivity | reflexivity].
  - destruct s as [|b s].
    + split; [discriminate | intros (r & Hr); discriminate].
    + rewrite andb_true_iff, N.eqb_eq, IH. split.
      * intros (-> & r & ->). exists r. reflexivity.
      * intros (r & [= -> ->]). split; [reflexivity | exists r; reflexivity].
Qed.

(** [s.includes(k)] holds exactly when [k] is a run of [s]. *)
Lemma includes_iff (s k : jsstring) :
  JsString.includes s k = true <-> exists p r, s = p ++ k ++ r.
Proof.
  induction s as [|c s IH]; cbn [JsString.includes]; rewrite orb_true_iff, startsWith_iff.
  - split.
    + intros [(r & Hr)|H]; [exists [], r; exact Hr | discriminate].
    + intros (p & r & Hs). left. destruct p; [exists r; exact Hs | discriminate].
  - rewrite IH. split.
    + intros [(r & Hr)|(p & r & ->)]; [exists [], r; exact Hr | exists (c :: p), r; reflexivity].
    + intros (p & r & Hs). destruct p as [|d p].
      * left. exists r. exact Hs.
      * right. injection Hs as _ ->. exists p, r. reflexivity.
Qed.

Lemma toLowerCase_app (a b : jsstring) :
  JsString.toLowerCase (a ++ b) = JsString.toLowerCase a ++ JsString.toLowerCase b.
Proof. apply flat_map_app. Qed.

(** Containment survives case normalization of both texts. *)
Lemma includes_toLowerCase (s k : jsstring) :
  JsString.includes s k = true ->
  JsString.includes (JsString.toLowerCase s) (JsString.toLowerCase k) = true.
Proof.
  rewrite !includes_iff. intros (p & r & ->).
  exists (JsString.toLowerCase p), (JsString.toLowerCase r).
  rewrite !toLowerCase_app. reflexivity.
Qed.

Lemma join_nil_inv (sep : jsstring) (parts : list jsstring) :
  Forall (fun p => p <> []) parts -> JsString.join sep parts = [] -> parts = [].
Proof.
  intros Hne Hj. destruct parts as [|p ps]; [reflexivity|].
  inversion Hne as [|? ? Hp _]; subst.
  destruct p as [|c p]; [congruence|].
  destruct ps; simpl in Hj; discriminate.
Qed.

(** ** Medical classification *)

Lemma classifiedMedical_iff (raw : Atlas.Appointment) :
  classifiedMedical raw <-> isHospitalAppointment raw = true.
Proof.
  unfold classifiedMedical, isHospitalAppointment.
  rewrite orb_true_iff, existsb_exists. reflexivity.
Qed.

(** A category that holds "medical" as written is classified medical. *)
Lemma category_medical_classified (raw : Atlas.Appointment) (ty : jsstring) :
  Atlas.type raw = Some ty ->
  JsString.includes ty (js "medical") = true ->
  classifiedMedical raw.
Proof.
  intros Hty Hin. right. rewrite Hty. simpl nullish.
  apply includes_toLowerCase in Hin. exact Hin.
Qed.

Lemma push_if_app (c : bool) (s : jsstring) (parts : list jsstring) :
  push_if c s parts = parts ++ (if c then [s] else []).
Proof. destruct c; simpl; [reflexivity | symmetry; apply app_nil_r]. Qed.

Lemma partsBeforeHospital_spec (raw : Atlas.Appointment) :
  partsBeforeHospital raw
  = option_list (DescriptionSpec.notes raw) ++ option_list (DescriptionSpec.person raw)
      ++ option_list (DescriptionSpec.before raw) ++ option_list (DescriptionSpec.after raw)
      ++ option_list (DescriptionSpec.recurrence raw) ++ option_list (DescriptionSpec.tags raw).
Proof.
  unfold partsBeforeHospital. rewrite !push_if_app.
  assert (Hrec : forall parts : list jsstring,
             match recurrenceShown raw with
             | Some (pat, r) => parts ++ [recurrenceLine pat r]
             | None => parts
             end = parts ++ option_list (DescriptionSpec.recurrence raw)).
  { intros parts. unfold recurrenceShown, DescriptionSpec.recurrence.
    destruct (Atlas.recurrence raw) as [r|]; [|symmetry; apply app_nil_r].
    destruct (Atlas.pattern r) as [[|c pat]|]; try (symmetry; apply app_nil_r).
    cbn [truthy_string andb].
    destruct (bool_decide (c :: pat = js "none")); [symmetry; apply app_nil_r | reflexivity]. }
  rewrite Hrec, app_nil_l, <- !app_assoc.
  f_equal; [|f_equal; [|f_equal; [|f_equal; [|f_equal]]]].
  - unfold DescriptionSpec.notes. destruct (Atlas.notes raw) as [[|? ?]|]; reflexivity.
  - unfold DescriptionSpec.person. destruct (Atlas.person raw) as [[|? ?]|]; reflexivity.
  - unfold DescriptionSpec.before. destruct (Atlas.actions_before raw) as [[|? ?]|]; reflexivity.
  - unfold DescriptionSpec.after. destruct (Atlas.actions_after raw) as [[|? ?]|]; reflexivity.
  - unfold DescriptionSpec.tags. destruct (Atlas.tags raw) as [[|? ?]|]; reflexivity.
Qed.

Lemma partsBeforeReminder_spec (raw : Atlas.Appointment) :
  partsBeforeReminder raw = partsBeforeHospital raw ++ DescriptionSpec.medical raw.
Proof.
  unfold partsBeforeReminder, pushHospital, DescriptionSpec.medical.
  destruct (isHospitalAppointment raw); [|symmetry; apply app_nil_r].
  rewrite !push_if_app, <- !app_assoc.
  destruct (truthy_length (Atlas.actions_before raw)),
           (truthy_length (Atlas.actions_after raw)); reflexivity.
Qed.

(** The pushes of the code build the sub-parts of the specification, in
    its order. *)
Lemma parts_refine_subParts (raw : Atlas.Appointment) :
  descriptionParts raw = DescriptionSpec.subParts raw.
Proof.
  unfold descriptionParts, pushReminder, DescriptionSpec.subParts, DescriptionSpec.leadingParts.
  rewrite push_if_app, partsBeforeReminder_spec, partsBeforeHospital_spec, <- !app_assoc.
  do 7 f_equal.
  unfold DescriptionSpec.reminder, DescriptionSpec.reminderAsStated.
  destruct (reminderOf raw (isHospitalAppointment raw)) as [n|]; [|reflexivity].
  cbn [truthy_number nullish]. destruct (n =? 0)%Z; reflexivity.
Qed.

Lemma option_list_nonempty (o : option jsstring) :
  (forall p, o = Some p -> p <> []) -> Forall (fun p => p <> []) (option_list o).
Proof.
  intros H. destruct o as [p|]; simpl; [|constructor].
  constructor; [apply H; reflexivity | constructor].
Qed.

(** No sub-part is an empty line. *)
Lemma subParts_nonempty (raw : Atlas.Appointment) :
  Forall (fun p => p <> []) (DescriptionSpec.subParts raw).
Proof.
  unfold DescriptionSpec.subParts, DescriptionSpec.leadingParts.
  repeat (apply Forall_app; split); try apply option_list_nonempty.
  - intros p. unfold DescriptionSpec.notes.
    destruct (Atlas.notes raw) as [[|? ?]|]; intros [= <-]; discriminate.
  - intros p. unfold DescriptionSpec.person.
    destruct (Atlas.person raw) as [[|? ?]|]; intros [= <-]; discriminate.
  - intros p. unfold DescriptionSpec.before.
    destruct (Atlas.actions_before raw) as [[|? ?]|]; intros [= <-]; discriminate.
  - intros p. unfold DescriptionSpec.after.
    destruct (Atlas.actions_after raw) as [[|? ?]|]; intros [= <-]; discriminate.
  - intros p. unfold DescriptionSpec.recurrence, recurrenceLine.
    destruct (Atlas.recurrence raw) as [r|]; [|discriminate].
    destruct (Atlas.pattern r) as [[|? ?]|]; try discriminate.
    destruct (bool_decide _); intros [= <-]; discriminate.
  - intros p. unfold DescriptionSpec.tags.
    destruct (Atlas.tags raw) as [[|? ?]|]; intros [= <-]; discriminate.
  - unfold DescriptionSpec.medical.
    destruct (isHospitalAppointment raw); [|constructor].
    destruct (truthy_length (Atlas.actions_before raw)),
             (truthy_length (Atlas.actions_after raw));
      repeat constructor; discriminate.
  - intros p. unfold DescriptionSpec.reminder, DescriptionSpec.reminderAsStated.
    destruct (reminderOf _ _) as [n|]; [|discriminate].
    destruct (n =? 0)%Z; intros [= <-]; discriminate.
Qed.

Section NormalizerProperties.

Variable Date_parse : jsstring -> option Z.
Variable toISOString : Z -> jsstring.

Local Abbreviation convert := (convertAtlasToAppointment Date_parse toISOString).

(** C1: an item classified medical gets priority "high" whatever its
    category would map to, and a reminder lead of 120 minutes when the
    raw reminder value is absent. *)
Theorem medical_priority_and_reminder (now : Z) (raw : Atlas.Appointment) :
  classifiedMedical raw ->
  Appointment.priority (convert now raw) = high
  /\ (Atlas.reminder_minutes_before raw = None ->
      Appointment.reminder_minutes_before (convert now raw) = Some 120%Z).
Proof.
  intros H. apply classifiedMedical_iff in H.
  unfold convertAtlasToAppointment, reminderOf. simpl.
  rewrite H. split; [reflexivity|].
  intros ->. reflexivity.
Qed.

(** The start timestamp is the printing of a valid instant: the one
    composed from the date (when missing, the first ten characters of the
    ISO print of the current instant) and the start time ("09:00" when
    missing) if that parses, the current instant if it does not.  The
    end timestamp is present exactly when a non-empty raw
    end time composes with the same date into a valid instant, and is
    then that instant; otherwise it is absent. *)
Theorem start_valid_end_only_if_valid (now : Z) (raw : Atlas.Appointment) :
  let d := convert now raw in
  let today := JsString.slice0 10 (toISOString now) in
  let datePart := nullish (Atlas.date raw) today in
  let timePart := nullish (Atlas.time raw) (js "09:00") in
  Appointment.start_at d
    = toISOString (nullish (Date_parse (datePart ++ js "T" ++ timePart)) now)
  /\ (forall s,
        Appointment.end_at d = Some s <->
        exists e t, Atlas.end_time raw = Some e /\ e <> []
                    /\ Date_parse (datePart ++ js "T" ++ e) = Some t
                    /\ s = toISOString t).
Proof.
  cbv zeta. unfold convertAtlasToAppointment. cbn [Appointment.start_at Appointment.end_at].
  split.
  - destruct (Date_parse _); reflexivity.
  - intros s. destruct (Atlas.end_time raw) as [[|c e]|]; cbn [truthy_string nullish].
    + split; [discriminate|]. intros (e & t & He & Hne & _). congruence.
    + destruct (Date_parse _) as [t|] eqn:Hp.
      * split.
        -- intros [= <-]. exists (c :: e), t. repeat split; congruence.
        -- intros (e' & t' & [= <-] & _ & Hp' & ->). congruence.
      * split; [discriminate|].
        intros (e' & t' & [= <-] & _ & Hp' & _). congruence.
    + split; [discriminate|]. intros (e & t & He & _). discriminate.
Qed.

(** C9, as amended: the reminder of the draft is the raw value unchanged
    when one is present, else 120 for a medical item, else absent; it is
    non-negative whenever the raw value, if present, is. *)
Theorem reminder_nonnegative_if_raw_is (now : Z) (raw : Atlas.Appointment) (m : Z) :
  (forall r, Atlas.reminder_minutes_before raw = Some r -> (0 <= r)%Z) ->
  Appointment.reminder_minutes_before (convert now raw) = Some m ->
  (0 <= m)%Z
  /\ (Atlas.reminder_minutes_before raw = Some m
      \/ Atlas.reminder_minutes_before raw = None /\ m = 120%Z
         /\ isHospitalAppointment raw = true).
Proof.
  intros Hraw. unfold convertAtlasToAppointment, reminderOf.
  cbn [Appointment.reminder_minutes_before].
  destruct (Atlas.reminder_minutes_before raw) as [r|].
  - intros [= <-]. split; [apply Hraw; reflexivity | left; reflexivity].
  - destruct (isHospitalAppointment raw); [|discriminate].
    intros [= <-]. split; [lia | right; auto].
Qed.

(** C10: a raw reminder of 0 is kept as 0 (the 120-minute default is for
    an absent value only), and the last push adds no line: the parts are
    those the medical block left. *)
Theorem zero_reminder_kept_and_not_described (now : Z) (raw : Atlas.Appointment) :
  Atlas.reminder_minutes_before raw = Some 0%Z ->
  Appointment.reminder_minutes_before (convert now raw) = Some 0%Z
  /\ descriptionParts raw = partsBeforeReminder raw
  /\ Appointment.description (convert now raw)
     = or_undefined (JsString.join (js " | ") (partsBeforeReminder raw)).
Proof.
  intros H0.
  assert (Hparts : descriptionParts raw = partsBeforeReminder raw).
  { unfold descriptionParts, reminderOf. rewrite H0. reflexivity. }
  unfold convertAtlasToAppointment, reminderOf.
  cbn [Appointment.reminder_minutes_before Appointment.description].
  rewrite Hparts, H0. auto.
Qed.

Lemma description_refines_spec (now : Z) (raw : Atlas.Appointment) :
  Appointment.description (convert now raw) = DescriptionSpec.description raw.
Proof.
  unfold convertAtlasToAppointment, DescriptionSpec.description, DescriptionSpec.joined.
  cbn [Appointment.description]. rewrite parts_refine_subParts.
  pose proof (subParts_nonempty raw) as Hne.
  destruct (DescriptionSpec.subParts raw) as [|p ps] eqn:Hps; [reflexivity|].
  unfold or_undefined, DescriptionSpec.separator.
  destruct (JsString.join (js " | ") (p :: ps)) eqn:Hj; [|reflexivity].
  apply join_nil_inv in Hj; [discriminate | exact Hne].
Qed.

(** C5, as amended: the description is built from the eight sub-parts in
    their fixed order, each contributing only when its source data is not
    empty, joined with " | "; the last one, the "reminder before" line,
    contributes when a reminder value is present and is not zero.  So the
    description is the one the specification states whenever the raw
    reminder is not 0.  It is absent, and never the empty string, when no
    sub-part contributes.  For the item whose only field is the recurrence
    weekly / every 2 / sat, mon, it is the recurrence line. *)
Theorem description_composition (now : Z) (raw : Atlas.Appointment) :
  descriptionParts raw = DescriptionSpec.subParts raw
  /\ Appointment.description (convert now raw) = DescriptionSpec.description raw
  /\ (Atlas.reminder_minutes_before raw <> Some 0%Z ->
      Appointment.description (convert now raw) = DescriptionSpec.descriptionAsStated raw)
  /\ (DescriptionSpec.subParts raw = [] <->
      Appointment.description (convert now raw) = None)
  /\ Appointment.description (convert now raw) <> Some []
  /\ Appointment.description (convert now fortnightly)
     = Some (js "تكرار: weekly كل 2 (sat,mon)").
Proof.
  split; [apply parts_refine_subParts|].
  split; [apply description_refines_spec|].
  rewrite !description_refines_spec.
  unfold DescriptionSpec.description, DescriptionSpec.joined.
  pose proof (subParts_nonempty raw) as Hne.
  split; [|split; [|split]].
  - intros Hnz. unfold DescriptionSpec.descriptionAsStated, DescriptionSpec.joined.
    replace (DescriptionSpec.subPartsAsStated raw) with (DescriptionSpec.subParts raw);
      [reflexivity|].
    unfold DescriptionSpec.subParts, DescriptionSpec.subPartsAsStated,
      DescriptionSpec.reminder.
    destruct (reminderOf raw (isHospitalAppointment raw)) as [n|] eqn:Hrem;
      [|unfold DescriptionSpec.reminderAsStated; rewrite Hrem; reflexivity].
    destruct (Z.eqb_spec n 0) as [->|_]; [exfalso | reflexivity].
    unfold reminderOf in Hrem.
    destruct (Atlas.reminder_minutes_before raw); [congruence|].
    destruct (isHospitalAppointment raw); discriminate.
  - destruct (DescriptionSpec.subParts raw); split; congruence.
  - destruct (DescriptionSpec.subParts raw) as [|p ps]; [discriminate|].
    intros Hj.
    assert (Hj' : JsString.join DescriptionSpec.separator (p :: ps) = []) by congruence.
    apply join_nil_inv in Hj'; [discriminate | exact Hne].
  - vm_compute. reflexivity.
Qed.

End NormalizerProperties.

Lemma medical_priority_and_reminder_witness :
  classifiedMedical checkup
  /\ Appointment.priority
       (convertAtlasToAppointment Reference.Date_parse Reference.toISOString
          (Reference.clock 0) checkup) = high
  /\ Appointment.reminder_minutes_before
       (convertAtlasToAppointment Reference.Date_parse Reference.toISOString
          (Reference.clock 0) checkup) = Some 120%Z.
Proof.
  assert (Hc : classifiedMedical checkup).
  { apply classifiedMedical_iff. vm_compute. reflexivity. }
  split; [exact Hc|].
  destruct (medical_priority_and_reminder Reference.Date_parse Reference.toISOString
              (Reference.clock 0) checkup Hc) as [Hp Hr].
  split; [exact Hp | apply Hr; reflexivity].
Defined.

(** ** The normalizer on concrete items *)

Lemma reminder_nonnegative_if_raw_is_witness :
  (forall r, Atlas.reminder_minutes_before (withReminder 30 checkup) = Some r -> (0 <= r)%Z)
  /\ Appointment.reminder_minutes_before (referenceConvert (withReminder 30 checkup)) = Some 30%Z
  /\ (0 <= 30)%Z.
Proof.
  assert (Hraw : forall r,
             Atlas.reminder_minutes_before (withReminder 30 checkup) = Some r -> (0 <= r)%Z).
  { simpl. intros r [= <-]. lia. }
  split; [exact Hraw|]. split; [reflexivity|].
  exact (proj1 (reminder_nonnegative_if_raw_is Reference.Date_parse Reference.toISOString
                  (Reference.clock 0) (withReminder 30 checkup) 30%Z Hraw eq_refl)).
Defined.

(** C9, as stated, fails: a raw reminder of -5 minutes reaches the draft
    unchanged. *)
Lemma negative_reminder_reaches_draft :
  Appointment.reminder_minutes_before (referenceConvert (withReminder (-5) checkup))
    = Some (-5)%Z
  /\ ~ (0 <= -5)%Z.
Proof. split; [reflexivity | lia]. Qed.

Lemma zero_reminder_kept_and_not_described_witness :
  Atlas.reminder_minutes_before (withReminder 0 checkup) = Some 0%Z
  /\ Appointment.reminder_minutes_before (referenceConvert (withReminder 0 checkup)) = Some 0%Z
  /\ descriptionParts (withReminder 0 checkup) = partsBeforeReminder (withReminder 0 checkup).
Proof.
  split; [reflexivity|].
  destruct (zero_reminder_kept_and_not_described Reference.Date_parse Reference.toISOString
              (Reference.clock 0) (withReminder 0 checkup) eq_refl) as (Hr & Hp & _).
  split; [exact Hr | exact Hp].
Defined.

Lemma description_composition_witness :
  Atlas.reminder_minutes_before fortnightly <> Some 0%Z
  /\ Appointment.description (referenceConvert fortnightly)
     = DescriptionSpec.descriptionAsStated fortnightly
  /\ Appointment.description (referenceConvert fortnightly)
     = Some (js "تكرار: weekly كل 2 (sat,mon)").
Proof.
  assert (Hnz : Atlas.reminder_minutes_before fortnightly <> Some 0%Z) by discriminate.
  destruct (description_composition Reference.Date_parse Reference.toISOString
              (Reference.clock 0) fortnightly) as (_ & _ & Hstated & _ & _ & Hline).
  split; [exact Hnz|]. split; [exact (Hstated Hnz) | exact Hline].
Defined.

(** C5, as stated, fails: with a raw reminder of 0 the reminder value is
    present, the specification's description ends with the "reminder
    before" line, and the code's description has no such line. *)
Lemma zero_reminder_present_but_no_line :
  Appointment.reminder_minutes_before (referenceConvert (withReminder 0 fortnightly))
    = Some 0%Z
  /\ DescriptionSpec.descriptionAsStated (withReminder 0 fortnightly)
     = Some (js "تكرار: weekly كل 2 (sat,mon) | تذكير قبل: 0 دقيقة")
  /\ Appointment.description (referenceConvert (withReminder 0 fortnightly))
     = Some (js "تكرار: weekly كل 2 (sat,mon)")
  /\ Appointment.description (referenceConvert (withReminder 0 fortnightly))
     <> DescriptionSpec.descriptionAsStated (withReminder 0 fortnightly).
Proof.
  split; [reflexivity|]. split; [vm_compute; reflexivity|].
  split; [vm_compute; reflexivity|]. vm_compute. discriminate.
Qed.

(** ** The completion client *)

Section ConfigurationProperties.

Variable viteEnv nodeEnv : option EnvLike.

Local Abbreviation configured := (fun name => getEnvValue name viteEnv nodeEnv).

Lemma firstConfigured_none (names : list jsstring) :
  (forall n, In n names -> configured n = None) ->
  firstConfigured names viteEnv nodeEnv = None.
Proof.
  induction names as [|name names IH]; intros H; [reflexivity|].
  simpl. rewrite (H name (or_introl eq_refl)). simpl.
  apply IH. intros n Hn. apply H. right. exact Hn.
Qed.

(** The first name of the list that is configured gives the value. *)
Lemma firstConfigured_first (names before after : list jsstring) (name v : jsstring) :
  names = before ++ name :: after ->
  (forall n, In n before -> configured n = None) ->
  configured name = Some v ->
  firstConfigured names viteEnv nodeEnv = Some v.
Proof.
  intros -> Hbefore Hname.
  induction before as [|b before IH]; simpl.
  - rewrite Hname. reflexivity.
  - rewrite (Hbefore b (or_introl eq_refl)). simpl.
    apply IH. intros n Hn. apply Hbefore. right. exact Hn.
Qed.

(** A configured value is never the empty string. *)
Lemma getEnvValue_nonempty (name v : jsstring) : configured name = Some v -> v <> [].
Proof.
  unfold getEnvValue, orElse, envLookup.
  destruct viteEnv as [m|].
  - destruct (m !! name) as [[|c w]|].
    + destruct nodeEnv as [m'|]; [|discriminate].
      destruct (m' !! name) as [[|c' w']|]; intros [= <-]; discriminate.
    + intros [= <-]. discriminate.
    + destruct nodeEnv as [m'|]; [|discriminate].
      destruct (m' !! name) as [[|c' w']|]; intros [= <-]; discriminate.
  - destruct nodeEnv as [m'|]; [|discriminate].
    destruct (m' !! name) as [[|c' w']|]; intros [= <-]; discriminate.
Qed.

End ConfigurationProperties.

Section ClientProperties.

Variable JSON_parse : jsstring -> Json.t + jsstring.
Variable viteEnv nodeEnv : option EnvLike.
Variable fetch : Request -> FetchOutcome.

Local Abbreviation send := (sendToAtlas JSON_parse viteEnv nodeEnv fetch).
Local Abbreviation configured := (fun name => getEnvValue name viteEnv nodeEnv).
Local Abbreviation requestOf := (requestFor viteEnv nodeEnv).

Lemma sendToAtlas_no_key (userText : jsstring) :
  resolveApiKey viteEnv nodeEnv = [] ->
  send userText = ([], throwError missingKeyMessage).
Proof. unfold sendToAtlas. intros ->. reflexivity. Qed.

Lemma sendToAtlas_requests (userText : jsstring) :
  resolveApiKey viteEnv nodeEnv <> [] ->
  fst (send userText) = [requestOf userText].
Proof.
  unfold sendToAtlas, requestFor. intros Hkey.
  destruct (resolveApiKey viteEnv nodeEnv) as [|c key]; [congruence|].
  destruct (fetch _) as [status text|e]; [|reflexivity].
  destruct (negb (ok status)); [destruct (isRateLimitResponse status text)|]; reflexivity.
Qed.

Lemma sendToAtlas_not_ok (userText : jsstring) (status : Z) (text : jsstring) :
  resolveApiKey viteEnv nodeEnv <> [] ->
  fetch (requestOf userText) = Response status text ->
  ok status = false ->
  send userText
  = ([requestOf userText],
     Throw (if isRateLimitResponse status text then rateLimitFailure text
            else transportFailure status text)).
Proof.
  unfold sendToAtlas, requestFor. intros Hkey Hfetch Hok.
  destruct (resolveApiKey viteEnv nodeEnv) as [|c key]; [congruence|].
  rewrite Hfetch, Hok. simpl.
  destruct (isRateLimitResponse status text); reflexivity.
Qed.

(** C7: the credential is the value of the first configured name among
    the four, in the order VITE_ATLAS_API_KEY, VITE_ATLASCLOUD_API_KEY,
    ATLAS_API_KEY, ATLASCLOUD_API_KEY; when none is configured the call
    throws the configuration error and issues no request.  The endpoint
    is resolved through the four URL names in the same order of tiers and
    is the fixed default when none is configured; every request goes to
    the resolved endpoint with the resolved credential.  With a
    credential configured the call issues exactly one request, to the
    default endpoint when no URL is configured, and does not raise the
    configuration error itself: its outcome is that of the network. *)
Theorem configuration_resolution (userText : jsstring) :
  (apiKeyNames = [js "VITE_ATLAS_API_KEY"; js "VITE_ATLASCLOUD_API_KEY";
                  js "ATLAS_API_KEY"; js "ATLASCLOUD_API_KEY"]
   /\ urlNames = [js "VITE_ATLAS_API_URL"; js "VITE_ATLASCLOUD_API_URL";
                  js "ATLAS_API_URL"; js "ATLASCLOUD_API_URL"])
  /\ (forall before name after v,
        apiKeyNames = before ++ name :: after ->
        (forall n, In n before -> configured n = None) ->
        configured name = Some v ->
        resolveApiKey viteEnv nodeEnv = v /\ v <> [])
  /\ ((forall n, In n apiKeyNames -> configured n = None) ->
      send userText = ([], throwError missingKeyMessage))
  /\ (forall before name after v,
        urlNames = before ++ name :: after ->
        (forall n, In n before -> configured n = None) ->
        configured name = Some v ->
        resolveUrl viteEnv nodeEnv = v)
  /\ ((forall n, In n urlNames -> configured n = None) ->
      resolveUrl viteEnv nodeEnv = defaultUrl)
  /\ (forall req, In req (fst (send userText)) ->
        url req = resolveUrl viteEnv nodeEnv
        /\ In (js "Authorization", js "Bearer " ++ resolveApiKey viteEnv nodeEnv)
             (headers req)
        /\ resolveApiKey viteEnv nodeEnv <> [])
  /\ (forall before name after v,
        apiKeyNames = before ++ name :: after ->
        (forall n, In n before -> configured n = None) ->
        configured name = Some v ->
        fst (send userText) = [requestOf userText]
        /\ url (requestOf userText) = resolveUrl viteEnv nodeEnv
        /\ ((forall n, In n urlNames -> configured n = None) ->
            url (requestOf userText) = defaultUrl)
        /\ (snd (send userText) = throwError missingKeyMessage ->
            fetch (requestOf userText)
            = NetworkFailure (ErrorObject Error_ missingKeyMessage))).
Proof.
  split; [split; reflexivity|].
  split; [|split; [|split; [|split; [|split]]]].
  - intros before name after v Hsplit Hbefore Hname.
    unfold resolveApiKey.
    rewrite (firstConfigured_first _ _ _ _ _ _ _ Hsplit Hbefore Hname).
    split; [reflexivity | exact (getEnvValue_nonempty _ _ _ _ Hname)].
  - intros Hnone. apply sendToAtlas_no_key.
    unfold resolveApiKey. rewrite (firstConfigured_none _ _ _ Hnone). reflexivity.
  - intros before name after v Hsplit Hbefore Hname.
    unfold resolveUrl.
    rewrite (firstConfigured_first _ _ _ _ _ _ _ Hsplit Hbefore Hname). reflexivity.
  - intros Hnone. unfold resolveUrl.
    rewrite (firstConfigured_none _ _ _ Hnone). reflexivity.
  - intros req Hin.
    destruct (resolveApiKey viteEnv nodeEnv) as [|c key] eqn:Hkey.
    + rewrite (sendToAtlas_no_key userText Hkey) in Hin. destruct Hin.
    + assert (Hne : resolveApiKey viteEnv nodeEnv <> []) by congruence.
      rewrite (sendToAtlas_requests userText Hne) in Hin.
      destruct Hin as [<-|[]]. unfold requestFor, buildRequest. rewrite Hkey.
      cbn [url headers]. split; [reflexivity|]. split; [|discriminate].
      right. left. reflexivity.
  - intros before name after v Hsplit Hbefore Hname.
    assert (Hkey : resolveApiKey viteEnv nodeEnv = v).
    { unfold resolveApiKey.
      rewrite (firstConfigured_first _ _ _ _ _ _ _ Hsplit Hbefore Hname). reflexivity. }
    assert (Hne : resolveApiKey viteEnv nodeEnv <> []).
    { rewrite Hkey. exact (getEnvValue_nonempty _ _ _ _ Hname). }
    split; [exact (sendToAtlas_requests userText Hne)|].
    split; [reflexivity|].
    split.
    { intros Hnone. unfold requestFor, buildRequest. cbn [url]. unfold resolveUrl.
      rewrite (firstConfigured_none _ _ _ Hnone). reflexivity. }
    unfold sendToAtlas, requestFor.
    destruct (resolveApiKey viteEnv nodeEnv) as [|c key]; [congruence|].
    destruct (fetch _) as [status text|e]; cbn [snd].
    + destruct (negb (ok status)).
      * destruct (isRateLimitResponse status text); cbn [snd]; intros H;
          unfold throwError, rateLimitFailure, transportFailure in H; discriminate H.
      * cbn [snd]. unfold parseJSON. destruct (JSON_parse text); cbn [bind];
          intros H; discriminate H.
    + unfold throwError. intros [= ->]. reflexivity.
Qed.

(** C8: the user text put into the request is the first 2000 code units
    of the input: unchanged when the input has at most 2000, cut to
    exactly its first 2000 otherwise.  The cut is a total function (it
    raises nothing), and whenever a request is issued its user message
    holds exactly the cut text. *)
Theorem user_text_truncated (userText : jsstring) :
  trimmedUserText userText = firstn 2000 userText
  /\ (JsString.length userText <= 2000 -> trimmedUserText userText = userText)%nat
  /\ (2000 < JsString.length userText ->
      JsString.length (trimmedUserText userText) = 2000
      /\ exists rest, rest <> [] /\ userText = trimmedUserText userText ++ rest)%nat
  /\ (forall req, In req (fst (send userText)) ->
        userContent req = Some (Json.Str (trimmedUserText userText)))
  /\ (resolveApiKey viteEnv nodeEnv <> [] -> exists req, fst (send userText) = [req]).
Proof.
  unfold trimmedUserText, JsString.slice0, JsString.length.
  split; [reflexivity|]. split; [|split; [|split]].
  - intros Hlen. apply firstn_all2. exact Hlen.
  - intros Hlen. split.
    + rewrite length_firstn. lia.
    + exists (skipn 2000 userText). split.
      * intros Hnil. apply (f_equal (@List.length N)) in Hnil.
        rewrite length_skipn in Hnil. simpl in Hnil. lia.
      * symmetry. apply firstn_skipn.
  - intros req Hin.
    destruct (resolveApiKey viteEnv nodeEnv) as [|c key] eqn:Hkey.
    + rewrite (sendToAtlas_no_key userText Hkey) in Hin. destruct Hin.
    + assert (Hne : resolveApiKey viteEnv nodeEnv <> []) by congruence.
      rewrite (sendToAtlas_requests userText Hne) in Hin.
      destruct Hin as [<-|[]]. reflexivity.
  - intros Hne. exists (requestOf userText). apply sendToAtlas_requests. exact Hne.
Qed.

End ClientProperties.

(** ** The response extractor *)

Section ExtractorProperties.

Variable JSON_parse : jsstring -> Json.t + jsstring.

Local Abbreviation extract := (extractAppointmentsJSON JSON_parse).

(** Without a brace-delimited span in an unreadable candidate, the
    extractor throws its own error. *)
Lemma no_brace_span_throws_unparseable (rawContent content msg : jsstring) :
  candidate rawContent = Some content ->
  JSON_parse content = inr msg ->
  Regex.exec braceRe content = None ->
  extract rawContent = throwError unparseableMessage.
Proof.
  intros Hc Hp Hb. unfold extractAppointmentsJSON. rewrite Hc, Hp, Hb. reflexivity.
Qed.

(** C2 fails on the code: when the candidate is unreadable and its
    brace-delimited span is unreadable too, what leaves the extractor is
    the [SyntaxError] of the second [JSON.parse], with the platform's
    message, and not the unparseable-response error. *)
Theorem unreadable_brace_span_throws_syntax_error
    (rawContent content whole : jsstring) (group : option jsstring) (msg1 msg2 : jsstring) :
  candidate rawContent = Some content ->
  JSON_parse content = inr msg1 ->
  Regex.exec braceRe content = Some (whole, group) ->
  JSON_parse whole = inr msg2 ->
  extract rawContent = Throw (ErrorObject SyntaxError msg2)
  /\ extract rawContent <> throwError unparseableMessage.
Proof.
  intros Hc Hp Hb Hw.
  assert (He : extract rawContent = Throw (ErrorObject SyntaxError msg2)).
  { unfold extractAppointmentsJSON, parseJSON. rewrite Hc, Hp, Hb, Hw. reflexivity. }
  split; [exact He|]. rewrite He. unfold throwError. congruence.
Qed.

End ExtractorProperties.

Lemma unreadable_brace_span_throws_syntax_error_witness :
  candidate truncatedReply = Some truncatedReply
  /\ Reference.JSON_parse truncatedReply = inr (js "Unexpected token in JSON")
  /\ Regex.exec braceRe truncatedReply = Some (truncatedReply, None)
  /\ extractAppointmentsJSON Reference.JSON_parse truncatedReply
     = Throw (ErrorObject SyntaxError (js "Unexpected token in JSON"))
  /\ extractAppointmentsJSON Reference.JSON_parse truncatedReply
     <> throwError unparseableMessage.
Proof.
  assert (Hc : candidate truncatedReply = Some truncatedReply) by (vm_compute; reflexivity).
  assert (Hp : Reference.JSON_parse truncatedReply = inr (js "Unexpected token in JSON"))
    by (vm_compute; reflexivity).
  assert (Hb : Regex.exec braceRe truncatedReply = Some (truncatedReply, None))
    by (vm_compute; reflexivity).
  split; [exact Hc|]. split; [exact Hp|]. split; [exact Hb|].
  exact (unreadable_brace_span_throws_syntax_error Reference.JSON_parse
           truncatedReply truncatedReply truncatedReply None _ _ Hc Hp Hb Hp).
Defined.

(** ** Rate-limit detection *)

Lemma isRateLimitResponse_iff (status : Z) (text : jsstring) :
  isRateLimitResponse status text = true <->
  status = 429%Z
  \/ JsString.includes (JsString.toLowerCase text) (js "too many requests") = true
  \/ JsString.includes (JsString.toLowerCase text) (js "only request this after") = true.
Proof.
  unfold isRateLimitResponse. cbv zeta.
  rewrite !orb_true_iff, Z.eqb_eq. tauto.
Qed.

(** The message of a rate-limit failure names 429, whatever the body. *)
Lemma isRateLimitError_rateLimitFailure (text : jsstring) :
  isRateLimitError (rateLimitFailure text) = true.
Proof.
  unfold isRateLimitError, rateLimitFailure, messageOrString, rateLimitPrefix.
  cbv zeta. change (js "429") with [52; 50; 57].
  apply orb_true_iff. left. simpl. reflexivity.
Qed.

(** The message of a transport failure with status 500 is taken for a
    rate limit only through its body. *)
Lemma isRateLimitError_transportFailure_500 (text : jsstring) :
  JsString.includes text (js "429") = false ->
  JsString.includes (JsString.toLowerCase text) (js "too many requests") = false ->
  isRateLimitError (transportFailure 500 text) = false.
Proof.
  intros H429 Hmany.
  unfold isRateLimitError, transportFailure, messageOrString. cbv zeta.
  change (JsString.ofZ 500) with [53; 48; 48].
  change (js "Atlas API error: ")
    with [65; 116; 108; 97; 115; 32; 65; 80; 73; 32; 101; 114; 114; 111; 114; 58; 32].
  change (js " ") with [32].
  change (js "429") with [52; 50; 57] in *.
  change (js "too many requests")
    with [116; 111; 111; 32; 109; 97; 110; 121; 32; 114; 101; 113; 117; 101; 115; 116; 115] in *.
  unfold JsString.toLowerCase in *.
  simpl. rewrite H429, Hmany. reflexivity.
Qed.

(** ** The orchestrator *)

Section OrchestratorProperties.

Variable JSON_parse : jsstring -> Json.t + jsstring.
Variable Date_parse : jsstring -> option Z.
Variable toISOString : Z -> jsstring.
Variable viteEnv nodeEnv : option EnvLike.
Variable fetch : Request -> FetchOutcome.
Variable clock : nat -> Z.
Variable add : list Appointment.t -> Appointment.t -> option thrown.

Local Abbreviation send := (sendToAtlas JSON_parse viteEnv nodeEnv fetch).
Local Abbreviation try :=
  (tryBlock JSON_parse Date_parse toISOString viteEnv nodeEnv fetch clock add).
Local Abbreviation submit :=
  (handleAiSubmit JSON_parse Date_parse toISOString viteEnv nodeEnv fetch clock add).

Lemma handleAiSubmit_blank (ui0 : Ui) :
  JsString.trim (aiText ui0) = [] ->
  submit ui0
  = Some {| ui := {| aiText := aiText ui0; aiError := Some emptyInputMessage;
                     aiSuccess := None; errorModal := errorModal ui0;
                     aiLoading := aiLoading ui0 |};
            requests := []; added := []; refetched := false |}.
Proof. unfold handleAiSubmit. intros ->. reflexivity. Qed.

Lemma handleAiSubmit_settles (ui0 : Ui) reqs stored outcome :
  JsString.trim (aiText ui0) <> [] ->
  try (JsString.trim (aiText ui0)) = Some (reqs, stored, outcome) ->
  submit ui0
  = Some {| ui := settle (clearMessages ui0) outcome; requests := reqs;
            added := stored; refetched := succeeded outcome |}.
Proof.
  unfold handleAiSubmit. intros Hne Htry.
  destruct (JsString.trim (aiText ui0)) as [|c text]; [congruence|].
  cbv zeta. rewrite Htry. reflexivity.
Qed.

Lemma tryBlock_client_throws (text : jsstring) reqs e :
  send text = (reqs, Throw e) -> try text = Some (reqs, [], Throw e).
Proof. unfold tryBlock. intros ->. reflexivity. Qed.

Lemma tryBlock_no_appointments (text : jsstring) reqs res parsed :
  send text = (reqs, Return res) ->
  parseContent JSON_parse (assistant res) = Return parsed ->
  appointmentsOf parsed = [] ->
  try text = Some (reqs, [], throwError noAppointmentsMessage).
Proof. unfold tryBlock. intros -> -> ->. reflexivity. Qed.

(** C4, as amended: a non-success response is a rate-limit failure
    carrying the body exactly when its status is 429 or its body holds,
    in any letter case, "too many requests" or "only request this
    after", and else a transport failure carrying status and body.  The
    orchestrator answers a rate-limit failure with the wait-and-retry
    messages; it answers a 500 response with the transport failure's own
    message when the body holds neither a rate-limit marker nor "429". *)
Theorem failure_classification (ui0 : Ui) (status : Z) (text : jsstring) :
  JsString.trim (aiText ui0) <> [] ->
  resolveApiKey viteEnv nodeEnv <> [] ->
  fetch (requestFor viteEnv nodeEnv (JsString.trim (aiText ui0))) = Response status text ->
  ok status = false ->
  let rateLimited := isRateLimitResponse status text in
  let failure := if rateLimited then rateLimitFailure text else transportFailure status text in
  (rateLimited = true <->
     status = 429%Z
     \/ JsString.includes (JsString.toLowerCase text) (js "too many requests") = true
     \/ JsString.includes (JsString.toLowerCase text) (js "only request this after") = true)
  /\ snd (send (JsString.trim (aiText ui0))) = Throw failure
  /\ rateLimitFailure text = ErrorObject Error_ (rateLimitPrefix ++ text)
  /\ transportFailure status text
     = ErrorObject Error_ (js "Atlas API error: " ++ JsString.ofZ status ++ js " " ++ text)
  /\ (forall status' text', rateLimitFailure text <> transportFailure status' text')
  /\ (rateLimited = true ->
      exists run, submit ui0 = Some run
        /\ aiError (ui run) = Some waitInlineMessage
        /\ errorModal (ui run) = Some (modalTitle, waitModalMessage)
        /\ added run = [])
  /\ (status = 500%Z -> rateLimited = false -> JsString.includes text (js "429") = false ->
      exists run, submit ui0 = Some run
        /\ aiError (ui run) = Some (js "Atlas API error: 500 " ++ text)
        /\ errorModal (ui run) = Some (modalTitle, js "Atlas API error: 500 " ++ text)
        /\ aiError (ui run) <> Some waitInlineMessage
        /\ added run = []).
Proof.
  intros Hne Hkey Hfetch Hok. cbv zeta.
  pose proof (sendToAtlas_not_ok JSON_parse _ _ _ _ _ _ Hkey Hfetch Hok) as Hsend.
  pose proof (tryBlock_client_throws _ _ _ Hsend) as Htry.
  pose proof (handleAiSubmit_settles _ _ _ _ Hne Htry) as Hrun.
  split; [apply isRateLimitResponse_iff|].
  split; [rewrite Hsend; reflexivity|].
  split; [reflexivity|]. split; [reflexivity|].
  split; [intros status' text'; discriminate|]. split.
  - intros Hrl. rewrite Hrl in Hrun. eexists. split; [exact Hrun|].
    cbn [ui settle added]. rewrite isRateLimitError_rateLimitFailure. auto.
  - intros -> Hrl H429. rewrite Hrl in Hrun. eexists. split; [exact Hrun|].
    cbn [ui settle added].
    assert (Hmany : JsString.includes (JsString.toLowerCase text) (js "too many requests")
                    = false).
    { unfold isRateLimitResponse in Hrl. cbv zeta in Hrl.
      apply orb_false_iff in Hrl as [Hrl _]. apply orb_false_iff in Hrl as [_ Hrl].
      exact Hrl. }
    rewrite (isRateLimitError_transportFailure_500 text H429 Hmany).
    cbn [aiError errorModal]. unfold transportFailure, messageOrUnexpected.
    change (JsString.ofZ 500) with [53; 48; 48].
    repeat split. discriminate.
Qed.

(** C6, as amended: blank input is refused with the validation message
    and no request is issued.  When the extracted value has no
    "appointments" member, or an empty one, an [Error] with the fixed "no
    appointments" message is thrown inside the [try] block and caught by
    the handler: the run ends normally, nothing is stored, and the message
    is shown as the inline error and in the error modal, the way the
    failure classes are shown.  The message is none of theirs, and is not
    taken for a rate limit. *)
Theorem blank_input_and_no_appointments (ui0 : Ui) :
  (JsString.trim (aiText ui0) = [] ->
   exists run, submit ui0 = Some run
     /\ aiError (ui run) = Some emptyInputMessage
     /\ requests run = [] /\ added run = [])
  /\ (forall reqs res parsed,
        JsString.trim (aiText ui0) <> [] ->
        send (JsString.trim (aiText ui0)) = (reqs, Return res) ->
        parseContent JSON_parse (assistant res) = Return parsed ->
        Json.member (Some parsed) (js "appointments") = None
        \/ Json.member (Some parsed) (js "appointments") = Some (Json.Arr []) ->
        try (JsString.trim (aiText ui0))
          = Some (reqs, [], Throw (ErrorObject Error_ noAppointmentsMessage))
        /\ exists run, submit ui0 = Some run
          /\ aiError (ui run) = Some noAppointmentsMessage
          /\ errorModal (ui run) = Some (modalTitle, noAppointmentsMessage)
          /\ aiSuccess (ui run) = None
          /\ aiLoading (ui run) = false
          /\ added run = [] /\ requests run = reqs)
  /\ (isRateLimitError (ErrorObject Error_ noAppointmentsMessage) = false
      /\ noAppointmentsMessage <> waitInlineMessage
      /\ noAppointmentsMessage <> unparseableMessage
      /\ noAppointmentsMessage <> missingKeyMessage
      /\ noAppointmentsMessage <> emptyInputMessage
      /\ (forall text, ErrorObject Error_ noAppointmentsMessage <> rateLimitFailure text)
      /\ (forall status text,
            ErrorObject Error_ noAppointmentsMessage <> transportFailure status text)).
Proof.
  split; [|split].
  - intros Hblank. eexists. split; [apply handleAiSubmit_blank; exact Hblank|].
    cbn. auto.
  - intros reqs res parsed Hne Hsend Hparse Habsent.
    assert (Hnone : appointmentsOf parsed = []).
    { unfold appointmentsOf. destruct Habsent as [-> | ->]; reflexivity. }
    pose proof (tryBlock_no_appointments _ _ _ _ Hsend Hparse Hnone) as Htry.
    split; [exact Htry|].
    eexists. split; [apply (handleAiSubmit_settles _ _ _ _ Hne Htry)|].
    cbn. auto 10.
  - split; [vm_compute; reflexivity|].
    repeat split; discriminate.
Qed.

End OrchestratorProperties.

(** ** Runs on the reference platform *)

Lemma configuration_resolution_witness :
  resolveApiKey exampleEnv None = js "sk-example"
  /\ resolveUrl exampleEnv None = defaultUrl
  /\ sendToAtlas Reference.JSON_parse None None (answering 200 fencedEmptyReply) doctorTomorrow
     = ([], throwError missingKeyMessage)
  /\ fst (sendToAtlas Reference.JSON_parse exampleEnv None (answering 200 fencedEmptyReply)
            doctorTomorrow)
     = [requestFor exampleEnv None doctorTomorrow]
  /\ url (requestFor exampleEnv None doctorTomorrow) = defaultUrl.
Proof.
  destruct (configuration_resolution Reference.JSON_parse exampleEnv None
              (answering 200 fencedEmptyReply) doctorTomorrow)
    as (_ & Hkey & _ & _ & Hurl & _ & Hsend).
  destruct (configuration_resolution Reference.JSON_parse None None
              (answering 200 fencedEmptyReply) doctorTomorrow)
    as (_ & _ & Hnone & _).
  assert (Hunset : forall n, In n urlNames -> getEnvValue n exampleEnv None = None).
  { intros n [<-|[<-|[<-|[<-|[]]]]]; vm_compute; reflexivity. }
  destruct (Hsend [js "VITE_ATLAS_API_KEY"; js "VITE_ATLASCLOUD_API_KEY"]
              (js "ATLAS_API_KEY") [js "ATLASCLOUD_API_KEY"] (js "sk-example"))
    as (Hreqs & _ & Hdefault & _).
  { reflexivity. }
  { intros n [<-|[<-|[]]]; vm_compute; reflexivity. }
  { vm_compute. reflexivity. }
  split; [|split; [|split; [|split]]].
  - apply (Hkey [js "VITE_ATLAS_API_KEY"; js "VITE_ATLASCLOUD_API_KEY"]
             (js "ATLAS_API_KEY") [js "ATLASCLOUD_API_KEY"] (js "sk-example")).
    + reflexivity.
    + intros n [<-|[<-|[]]]; vm_compute; reflexivity.
    + vm_compute. reflexivity.
  - apply Hurl. exact Hunset.
  - apply Hnone. intros n _. reflexivity.
  - exact Hreqs.
  - apply Hdefault. exact Hunset.
Defined.

Lemma user_text_truncated_witness :
  (JsString.length doctorTomorrow <= 2000)%nat
  /\ trimmedUserText doctorTomorrow = doctorTomorrow
  /\ (2000 < JsString.length longText)%nat
  /\ JsString.length (trimmedUserText longText) = 2000%nat.
Proof.
  assert (Hshort : (JsString.length doctorTomorrow <= 2000)%nat) by (vm_compute; lia).
  assert (Hlong : (2000 < JsString.length longText)%nat).
  { unfold JsString.length, longText. rewrite repeat_length. lia. }
  destruct (user_text_truncated Reference.JSON_parse exampleEnv None
              (answering 200 fencedEmptyReply) doctorTomorrow) as (_ & Hkeep & _).
  destruct (user_text_truncated Reference.JSON_parse exampleEnv None
              (answering 200 fencedEmptyReply) longText) as (_ & _ & Hcut & _).
  split; [exact Hshort|]. split; [exact (Hkeep Hshort)|].
  split; [exact Hlong|]. exact (proj1 (Hcut Hlong)).
Defined.

Lemma failure_classification_witness :
  (* a 429 answer *)
  (snd (referenceSend (answering 429 tooManyBody) (JsString.trim doctorTomorrow))
     = Throw (rateLimitFailure tooManyBody)
   /\ shownError (referenceSubmit (answering 429 tooManyBody) (exampleUi doctorTomorrow))
      = Some waitInlineMessage)
  (* a plain 500 answer *)
  /\ (snd (referenceSend (answering 500 plainBody) (JsString.trim doctorTomorrow))
      = Throw (transportFailure 500 plainBody)
     /\ shownError (referenceSubmit (answering 500 plainBody) (exampleUi doctorTomorrow))
        = Some (js "Atlas API error: 500 internal error")).
Proof.
  assert (Hne : JsString.trim (aiText (exampleUi doctorTomorrow)) <> [])
    by (vm_compute; discriminate).
  assert (Hkey : resolveApiKey exampleEnv None <> []) by (vm_compute; discriminate).
  split.
  - destruct (failure_classification Reference.JSON_parse Reference.Date_parse
                Reference.toISOString exampleEnv None (answering 429 tooManyBody)
                Reference.clock storeAll (exampleUi doctorTomorrow) 429%Z tooManyBody
                Hne Hkey eq_refl eq_refl) as (_ & Hsend & _ & _ & _ & Hwait & _).
    split; [exact Hsend|].
    destruct (Hwait eq_refl) as (run & Hrun & Herr & _).
    unfold shownError. rewrite Hrun. exact Herr.
  - destruct (failure_classification Reference.JSON_parse Reference.Date_parse
                Reference.toISOString exampleEnv None (answering 500 plainBody)
                Reference.clock storeAll (exampleUi doctorTomorrow) 500%Z plainBody
                Hne Hkey eq_refl eq_refl) as (_ & Hsend & _ & _ & _ & _ & Hplain).
    split; [exact Hsend|].
    destruct (Hplain eq_refl eq_refl eq_refl) as (run & Hrun & Herr & _).
    unfold shownError. rewrite Hrun. exact Herr.
Defined.

(** C4, as stated, fails: a 500 answer yields the wait-and-retry outcome
    and not its own message when its body holds a rate-limit marker (the
    client then raises a rate-limit failure) and when its body holds "429"
    (the client raises a transport failure, whose message the orchestrator
    takes for a rate limit). *)
Lemma server_error_answered_with_wait_and_retry :
  (snd (referenceSend (answering 500 markerBody) (JsString.trim doctorTomorrow))
     = Throw (rateLimitFailure markerBody)
   /\ shownError (referenceSubmit (answering 500 markerBody) (exampleUi doctorTomorrow))
      = Some waitInlineMessage)
  /\ (snd (referenceSend (answering 500 quotaBody) (JsString.trim doctorTomorrow))
      = Throw (transportFailure 500 quotaBody)
     /\ shownError (referenceSubmit (answering 500 quotaBody) (exampleUi doctorTomorrow))
        = Some waitInlineMessage
     /\ Some waitInlineMessage
        <> Some (messageOrUnexpected (transportFailure 500 quotaBody))).
Proof.
  split; [split|split; [|split]]; try (vm_compute; reflexivity).
  vm_compute. discriminate.
Qed.

Lemma blank_input_and_no_appointments_witness :
  (JsString.trim blankText = []
   /\ shownError (referenceSubmit (answering 200 fencedEmptyReply) (exampleUi blankText))
      = Some emptyInputMessage)
  /\ (JsString.trim doctorTomorrow <> []
     /\ shownError (referenceSubmit (answering 200 fencedEmptyReply) (exampleUi doctorTomorrow))
        = Some noAppointmentsMessage).
Proof.
  split.
  - assert (Hblank : JsString.trim (aiText (exampleUi blankText)) = []) by reflexivity.
    split; [exact Hblank|].
    destruct (blank_input_and_no_appointments Reference.JSON_parse Reference.Date_parse
                Reference.toISOString exampleEnv None (answering 200 fencedEmptyReply)
                Reference.clock storeAll (exampleUi blankText)) as (Hrefuse & _).
    destruct (Hrefuse Hblank) as (run & Hrun & Herr & _).
    unfold shownError. rewrite Hrun. exact Herr.
  - assert (Hne : JsString.trim (aiText (exampleUi doctorTomorrow)) <> [])
      by (vm_compute; discriminate).
    split; [exact Hne|].
    destruct (blank_input_and_no_appointments Reference.JSON_parse Reference.Date_parse
                Reference.toISOString exampleEnv None (answering 200 fencedEmptyReply)
                Reference.clock storeAll (exampleUi doctorTomorrow)) as (_ & Hnone & _).
    destruct (referenceSend (answering 200 fencedEmptyReply)
                (JsString.trim (aiText (exampleUi doctorTomorrow)))) as [reqs sent] eqn:Hsend.
    assert (Hsent : exists res, sent = Return res
                      /\ parseContent Reference.JSON_parse (assistant res)
                         = Return (Json.Obj [(js "appointments", Json.Arr [])])).
    { vm_compute in Hsend. injection Hsend as _ <-. eexists. split; [reflexivity|].
      vm_compute. reflexivity. }
    destruct Hsent as (res & -> & Hparse).
    destruct (Hnone reqs res _ Hne eq_refl Hparse (or_intror eq_refl))
      as (_ & run & Hrun & Herr & _).
    unfold shownError. rewrite Hrun. exact Herr.
Defined.

(** C6, as stated, fails: on a reply with an empty appointments array the
    [try] block ends in a thrown [Error], and the page shows it in the
    error modal under the title it gives a transport failure. *)
Lemma no_appointments_thrown_and_shown_as_failure :
  tryBlock Reference.JSON_parse Reference.Date_parse Reference.toISOString
    exampleEnv None (answering 200 fencedEmptyReply) Reference.clock storeAll
    (JsString.trim doctorTomorrow)
  = Some ([requestFor exampleEnv None (JsString.trim doctorTomorrow)], [],
          Throw (ErrorObject Error_ noAppointmentsMessage))
  /\ shownModal (referenceSubmit (answering 200 fencedEmptyReply) (exampleUi doctorTomorrow))
     = Some (modalTitle, noAppointmentsMessage)
  /\ shownModal (referenceSubmit (answering 500 plainBody) (exampleUi doctorTomorrow))
     = Some (modalTitle, js "Atlas API error: 500 internal error").
Proof.
  split; [vm_compute; reflexivity|]. split; vm_compute; reflexivity.
Qed.

(** ** The scenarios of the specification, run end to end *)

(** The check-up is normalized to priority "high", a reminder of 120
    minutes, and a description that holds the three suggestion lines and
    the reminder line. *)
Example checkup_draft :
  Appointment.priority (referenceConvert checkup) = high
  /\ Appointment.reminder_minutes_before (referenceConvert checkup) = Some 120%Z
  /\ Appointment.start_at (referenceConvert checkup) = js "2025-05-12T16:30:00.000Z"
  /\ Appointment.description (referenceConvert checkup)
     = Some (JsString.join (js " | ")
               [js "اقتراح قبل الموعد: تحضير التحاليل أو الملفات الضرورية";
                js "اقتراح بعد الموعد: تدوين الملاحظات والتعليمات الطبية";
                js "تنبيه مقترح: قبل 15 دقيقة على الأقل";
                js "تذكير قبل: 120 دقيقة"]).
Proof.
  split; [vm_compute; reflexivity|]. split; [vm_compute; reflexivity|].
  split; vm_compute; reflexivity.
Qed.

(** A reply that holds the check-up is read, normalized and stored: one
    request, one draft, the success message, the text field cleared. *)
Example checkup_run :
  referenceSubmit (answering 200 checkupReply) (exampleUi doctorTomorrow)
  = Some {| ui := {| aiText := []; aiError := None;
                     aiSuccess := Some (js "تمت إضافة 1 موعد/مواعيد.");
                     errorModal := None; aiLoading := false |};
            requests := [requestFor exampleEnv None (JsString.trim doctorTomorrow)];
            added := [referenceConvert checkup];
            refetched := true |}.
Proof. vm_compute. reflexivity. Qed.

(** An unreadable date falls back to the current instant, an unreadable
    end time is left out, a missing date and time give today at 09:00. *)
Example unreadable_dates_fall_back :
  let raw :=
    {| Atlas.type := None; Atlas.title := None; Atlas.date := Some (js "next week");
       Atlas.time := None; Atlas.end_time := Some (js "late"); Atlas.location := None;
       Atlas.person := None; Atlas.actions_before := None; Atlas.actions_after := None;
       Atlas.tags := None; Atlas.reminder_minutes_before := None;
       Atlas.recurrence := None; Atlas.notes := None |} in
  Appointment.start_at (referenceConvert raw) = js "2025-05-10T08:15:30.250Z"
  /\ Appointment.end_at (referenceConvert raw) = None
  /\ Appointment.start_at (referenceConvert fortnightly) = js "2025-05-10T09:00:00.000Z".
Proof.
  cbv zeta. split; [vm_compute; reflexivity|]. split; vm_compute; reflexivity.
Qed.

(** * Further properties of the pipeline *)

(** ** The normalizer *)

Section NormalizerFurther.

Variable Date_parse : jsstring -> option Z.
Variable toISOString : Z -> jsstring.

Local Abbreviation convert := (convertAtlasToAppointment Date_parse toISOString).

(** X1: the priority of a draft, case by case.  It is "critical" only for
    an item that is not classified medical; a category that holds both
    "critical" and "medical" gives "high".  Outside the medical
    classification "high" comes from "medication" alone, since a category
    that holds "medical" is classified medical. *)
Theorem draft_priority_cases (now : Z) (raw : Atlas.Appointment) :
  let d := convert now raw in
  let holds k :=
    JsString.includes (JsString.toLowerCase (nullish (Atlas.type raw) [])) k in
  (Appointment.priority d = critical <->
     isHospitalAppointment raw = false /\ holds (js "critical") = true)
  /\ (Appointment.priority d = high <->
        isHospitalAppointment raw = true
        \/ holds (js "critical") = false /\ holds (js "medication") = true)
  /\ (Appointment.priority d = low <->
        isHospitalAppointment raw = false /\ holds (js "critical") = false
        /\ holds (js "medication") = false /\ holds (js "work") = false
        /\ holds (js "personal") = true)
  /\ (isHospitalAppointment raw = false -> holds (js "medical") = false).
Proof.
  cbv zeta. unfold convertAtlasToAppointment. cbn [Appointment.priority].
  unfold mapTypeToPriority. cbv zeta.
  set (t := JsString.toLowerCase (nullish (Atlas.type raw) [])).
  assert (Hmed : isHospitalAppointment raw = false -> JsString.includes t (js "medical") = false).
  { unfold isHospitalAppointment. cbv zeta. fold t. intros H.
    apply orb_false_iff in H as [_ H]. exact H. }
  destruct (isHospitalAppointment raw) eqn:Hh.
  - repeat split; try discriminate; try tauto; intros H; intuition discriminate.
  - rewrite (Hmed eq_refl). cbn [orb].
    destruct (JsString.includes t (js "critical")),
             (JsString.includes t (js "medication")),
             (JsString.includes t (js "work")),
             (JsString.includes t (js "personal"));
      repeat split; try discriminate; try tauto; intros H; intuition discriminate.
Qed.

(** X2: the title of a draft is never empty: it is the raw title when
    that is a non-empty string and the fixed placeholder otherwise.  The
    tag is the first raw tag, and the status is "scheduled". *)
Theorem draft_title_never_empty (now : Z) (raw : Atlas.Appointment) :
  let d := convert now raw in
  Appointment.title d <> []
  /\ (forall t, Atlas.title raw = Some t -> t <> [] -> Appointment.title d = t)
  /\ (Atlas.title raw = None \/ Atlas.title raw = Some [] ->
      Appointment.title d = js "موعد بدون عنوان")
  /\ Appointment.tag d = (Atlas.tags raw ≫= head)
  /\ Appointment.status d = scheduled.
Proof.
  cbv zeta. unfold convertAtlasToAppointment.
  cbn [Appointment.title Appointment.tag Appointment.status].
  split; [|split; [|split; [|split]]].
  - destruct (Atlas.title raw) as [[|c t]|]; discriminate.
  - intros t -> Hne. destruct t; [congruence | reflexivity].
  - intros [-> | ->]; reflexivity.
  - destruct (Atlas.tags raw) as [[|x l]|]; reflexivity.
  - reflexivity.
Qed.

(** A part of the array is a run of the joined text. *)
Lemma join_holds_part (sep p : jsstring) (parts : list jsstring) :
  In p parts -> JsString.includes (JsString.join sep parts) p = true.
Proof.
  intros Hin. apply includes_iff.
  induction parts as [|q parts IH]; [destruct Hin|].
  destruct Hin as [->|Hin].
  - destruct parts as [|q' parts].
    + exists [], []. simpl. symmetry. apply app_nil_r.
    + exists [], (sep ++ JsString.join sep (q' :: parts)). reflexivity.
  - destruct (IH Hin) as (a & b & Hj).
    destruct parts as [|q' parts]; [destruct Hin|].
    exists (q ++ sep ++ a), b.
    change (JsString.join sep (q :: q' :: parts))
      with (q ++ sep ++ JsString.join sep (q' :: parts)).
    rewrite Hj, <- !app_assoc. reflexivity.
Qed.

(** Every part pushed is a run of the description, which is then present. *)
Lemma part_occurs_in_description (now : Z) (raw : Atlas.Appointment) (p : jsstring) :
  In p (descriptionParts raw) ->
  exists desc, Appointment.description (convert now raw) = Some desc
               /\ JsString.includes desc p = true.
Proof.
  intros Hin. unfold convertAtlasToAppointment. cbn [Appointment.description].
  pose proof (subParts_nonempty raw) as Hne. rewrite <- parts_refine_subParts in Hne.
  destruct (JsString.join (js " | ") (descriptionParts raw)) as [|c desc] eqn:Hj.
  - apply join_nil_inv in Hj; [|exact Hne]. rewrite Hj in Hin. destruct Hin.
  - exists (c :: desc). split; [reflexivity|]. rewrite <- Hj.
    apply join_holds_part. exact Hin.
Qed.

(** X3: a medical item always has a description, and the description
    holds the fixed reminder suggestion, the suggestion for before when no
    action before was given, the suggestion for after when no action after
    was given, and the line of the 120-minute default when the raw
    reminder is absent. *)
Theorem medical_description_holds_suggestions (now : Z) (raw : Atlas.Appointment) :
  isHospitalAppointment raw = true ->
  exists desc,
    Appointment.description (convert now raw) = Some desc
    /\ JsString.includes desc (js "تنبيه مقترح: قبل 15 دقيقة على الأقل") = true
    /\ (truthy_length (Atlas.actions_before raw) = false ->
        JsString.includes desc
          (js "اقتراح قبل الموعد: تحضير التحاليل أو الملفات الضرورية") = true)
    /\ (truthy_length (Atlas.actions_after raw) = false ->
        JsString.includes desc
          (js "اقتراح بعد الموعد: تدوين الملاحظات والتعليمات الطبية") = true)
    /\ (Atlas.reminder_minutes_before raw = None ->
        JsString.includes desc (js "تذكير قبل: 120 دقيقة") = true).
Proof.
  intros Hh.
  assert (Hparts : descriptionParts raw
                   = pushReminder (reminderOf raw true) (pushHospital raw (partsBeforeHospital raw))).
  { unfold descriptionParts, partsBeforeReminder. rewrite Hh. reflexivity. }
  assert (Hfixed : In (js "تنبيه مقترح: قبل 15 دقيقة على الأقل") (descriptionParts raw)).
  { rewrite Hparts. unfold pushReminder, pushHospital. rewrite !push_if_app.
    apply in_or_app. left. apply in_or_app. right. left. reflexivity. }
  destruct (part_occurs_in_description now raw _ Hfixed) as (desc & Hdesc & Hin).
  exists desc. split; [exact Hdesc|]. split; [exact Hin|].
  assert (Hall : forall p, In p (descriptionParts raw) -> JsString.includes desc p = true).
  { intros p Hp. destruct (part_occurs_in_description now raw p Hp) as (desc' & Hdesc' & Hin').
    congruence. }
  split; [|split].
  - intros Hb. apply Hall. rewrite Hparts. unfold pushReminder, pushHospital.
    rewrite !push_if_app, Hb. cbn [negb].
    apply in_or_app. left. apply in_or_app. left. apply in_or_app. left.
    apply in_or_app. right. left. reflexivity.
  - intros Ha. apply Hall. rewrite Hparts. unfold pushReminder, pushHospital.
    rewrite !push_if_app, Ha. cbn [negb].
    apply in_or_app. left. apply in_or_app. left.
    apply in_or_app. right. left. reflexivity.
  - intros Hr. apply Hall. rewrite Hparts. unfold pushReminder, reminderOf.
    rewrite Hr, push_if_app. apply in_or_app. right. left. vm_compute. reflexivity.
Qed.

End NormalizerFurther.

Lemma medical_description_holds_suggestions_witness :
  isHospitalAppointment checkup = true
  /\ exists desc,
       Appointment.description (referenceConvert checkup) = Some desc
       /\ JsString.includes desc (js "تذكير قبل: 120 دقيقة") = true.
Proof.
  assert (Hh : isHospitalAppointment checkup = true) by (vm_compute; reflexivity).
  split; [exact Hh|].
  destruct (medical_description_holds_suggestions Reference.Date_parse Reference.toISOString
              (Reference.clock 0) checkup Hh) as (desc & Hdesc & _ & _ & _ & Hrem).
  exists desc. split; [exact Hdesc | apply Hrem; reflexivity].
Defined.

(** ** The patterns of the extractor *)

Section RegexFacts.
Context {R : Type}.
Implicit Types (k : @Regex.cont R) (s : jsstring) (pos : nat) (cap : option (nat * nat)).

Lemma run_star_unit_nil p pos cap k :
  Regex.run (Regex.Star (Regex.Unit p)) pos [] cap k = k pos [] cap.
Proof. reflexivity. Qed.

Lemma run_star_unit_cons p pos c s cap k :
  Regex.run (Regex.Star (Regex.Unit p)) pos (c :: s) cap k
  = if p c then
      match Regex.run (Regex.Star (Regex.Unit p)) (S pos) s cap k with
      | Some x => Some x
      | None => k pos (c :: s) cap
      end
    else k pos (c :: s) cap.
Proof.
  cbn [Regex.run List.length]. destruct (p c); [|reflexivity].
  rewrite (proj2 (Nat.ltb_lt pos (S pos)) (Nat.lt_succ_diag_r pos)). reflexivity.
Qed.

Lemma run_lazy_unit_nil p pos cap k :
  Regex.run (Regex.StarLazy (Regex.Unit p)) pos [] cap k = k pos [] cap.
Proof. cbn. destruct (k pos [] cap); reflexivity. Qed.

Lemma run_lazy_unit_cons p pos c s cap k :
  Regex.run (Regex.StarLazy (Regex.Unit p)) pos (c :: s) cap k
  = match k pos (c :: s) cap with
    | Some x => Some x
    | None => if p c then Regex.run (Regex.StarLazy (Regex.Unit p)) (S pos) s cap k else None
    end.
Proof.
  cbn [Regex.run List.length]. destruct (k pos (c :: s) cap); [reflexivity|].
  destruct (p c); [|reflexivity].
  rewrite (proj2 (Nat.ltb_lt pos (S pos)) (Nat.lt_succ_diag_r pos)). reflexivity.
Qed.

(** The greedy star stops where the class stops, when the rest of the
    pattern matches there. *)
Lemma run_star_stops p units rest pos cap k :
  Forall (fun c => p c = true) units ->
  match rest with c :: _ => p c = false | [] => True end ->
  is_Some (k (pos + List.length units)%nat rest cap) ->
  Regex.run (Regex.Star (Regex.Unit p)) pos (units ++ rest) cap k
  = k (pos + List.length units)%nat rest cap.
Proof.
  intros Hu Hrest Hk. revert pos Hk.
  induction Hu as [|c units Hc Hu IH]; intros pos Hk.
  - cbn [app List.length] in *. rewrite Nat.add_0_r in *.
    destruct rest as [|c rest]; [apply run_star_unit_nil|].
    rewrite run_star_unit_cons, Hrest. reflexivity.
  - cbn [app List.length] in *. rewrite run_star_unit_cons, Hc.
    replace (pos + S (List.length units))%nat with (S pos + List.length units)%nat in * by lia.
    rewrite (IH (S pos) Hk). destruct Hk as [x ->]. reflexivity.
Qed.

(** The lazy star stops at the first place where the rest of the pattern
    matches. *)
Lemma run_lazy_stops p units rest pos cap k :
  Forall (fun c => p c = true) units ->
  (forall a b, units = a ++ b -> b <> [] ->
     k (pos + List.length a)%nat (b ++ rest) cap = None) ->
  is_Some (k (pos + List.length units)%nat rest cap) ->
  Regex.run (Regex.StarLazy (Regex.Unit p)) pos (units ++ rest) cap k
  = k (pos + List.length units)%nat rest cap.
Proof.
  intros Hu. revert pos.
  induction Hu as [|c units Hc Hu IH]; intros pos Hfail Hk.
  - cbn [app List.length] in *. rewrite Nat.add_0_r in *.
    destruct Hk as [x Hx]. destruct rest as [|c rest].
    + rewrite run_lazy_unit_nil. reflexivity.
    + rewrite run_lazy_unit_cons, Hx. reflexivity.
  - cbn [app List.length] in *. rewrite run_lazy_unit_cons.
    pose proof (Hfail [] (c :: units) eq_refl ltac:(discriminate)) as H0.
    cbn [List.length app] in H0. rewrite Nat.add_0_r in H0. rewrite H0, Hc.
    replace (pos + S (List.length units))%nat with (S pos + List.length units)%nat in * by lia.
    apply IH; [|exact Hk].
    intros a b -> Hb.
    specialize (Hfail (c :: a) b eq_refl Hb). cbn [List.length] in Hfail.
    replace (S pos + List.length a)%nat with (pos + S (List.length a))%nat by lia.
    exact Hfail.
Qed.

(** The leftmost search passes the positions where the pattern fails. *)
Lemma search_skips (r : Regex.t) (skipped rest : jsstring) pos (k : nat -> @Regex.cont R) :
  (forall a b, skipped = a ++ b -> b <> [] ->
     Regex.run r (pos + List.length a)%nat (b ++ rest) None (k (pos + List.length a)%nat) = None) ->
  Regex.search r pos (skipped ++ rest) k
  = Regex.search r (pos + List.length skipped)%nat rest k.
Proof.
  revert pos. induction skipped as [|c skipped IH]; intros pos Hfail.
  - cbn [app List.length]. rewrite Nat.add_0_r. reflexivity.
  - cbn [app Regex.search List.length].
    pose proof (Hfail [] (c :: skipped) eq_refl ltac:(discriminate)) as H0.
    cbn [List.length app] in H0. rewrite Nat.add_0_r in H0. rewrite H0.
    replace (pos + S (List.length skipped))%nat with (S pos + List.length skipped)%nat by lia.
    apply IH. intros a b -> Hb.
    specialize (Hfail (c :: a) b eq_refl Hb). cbn [List.length] in Hfail.
    replace (S pos + List.length a)%nat with (pos + S (List.length a))%nat by lia.
    exact Hfail.
Qed.

Lemma search_none (r : Regex.t) (s : jsstring) pos (k : nat -> @Regex.cont R) :
  (forall a b, s = a ++ b ->
     Regex.run r (pos + List.length a)%nat b None (k (pos + List.length a)%nat) = None) ->
  Regex.search r pos s k = None.
Proof.
  revert pos. induction s as [|c s IH]; intros pos Hfail.
  - cbn [Regex.search]. pose proof (Hfail [] [] eq_refl) as H0.
    cbn [List.length] in H0. rewrite Nat.add_0_r in H0. rewrite H0. reflexivity.
  - cbn [Regex.search]. pose proof (Hfail [] (c :: s) eq_refl) as H0.
    cbn [List.length] in H0. rewrite Nat.add_0_r in H0. rewrite H0.
    apply IH. intros a b ->.
    specialize (Hfail (c :: a) b eq_refl). cbn [List.length] in Hfail.
    replace (S pos + List.length a)%nat with (pos + S (List.length a))%nat by lia.
    exact Hfail.
Qed.

End RegexFacts.

Lemma substring_middle (a b c : jsstring) :
  Regex.substring (a ++ b ++ c) (List.length a) (List.length a + List.length b) = b.
Proof.
  unfold Regex.substring. rewrite drop_app_length.
  replace (List.length a + List.length b - List.length a)%nat with (List.length b) by lia.
  apply take_app_length.
Qed.

Lemma canonicalize_backtick (c : N) :
  (Regex.canonicalize c =? Regex.canonicalize 96) = true <-> c = 96.
Proof.
  change (Regex.canonicalize 96) with 96. rewrite N.eqb_eq. unfold Regex.canonicalize.
  destruct (97 <=? c) eqn:H1, (c <=? 122) eqn:H2; cbn [andb];
    try apply N.leb_le in H1; try apply N.leb_le in H2;
    try apply N.leb_gt in H1; try apply N.leb_gt in H2; lia.
Qed.

(** A code unit that matches "j" under the [i] flag is "j" or "J". *)
Lemma canonicalize_j (c : N) :
  (Regex.canonicalize c =? Regex.canonicalize 106) = true -> c = 106 \/ c = 74.
Proof.
  change (Regex.canonicalize 106) with 74. rewrite N.eqb_eq. unfold Regex.canonicalize.
  destruct (97 <=? c) eqn:H1, (c <=? 122) eqn:H2; cbn [andb];
    try apply N.leb_le in H1; try apply N.leb_le in H2;
    try apply N.leb_gt in H1; try apply N.leb_gt in H2; lia.
Qed.

Section PatternFacts.
Context {R : Type}.
Implicit Types (k : @Regex.cont R) (s : jsstring) (pos : nat) (cap : option (nat * nat)).

Lemma run_Seq r1 r2 pos s cap k :
  Regex.run (Regex.Seq r1 r2) pos s cap k
  = Regex.run r1 pos s cap (fun pos' s' cap' => Regex.run r2 pos' s' cap' k).
Proof. reflexivity. Qed.

Lemma run_Opt r1 pos s cap k :
  Regex.run (Regex.Opt r1) pos s cap k
  = match Regex.run r1 pos s cap k with
    | Some x => Some x
    | None => k pos s cap
    end.
Proof. reflexivity. Qed.

Lemma run_Group r1 pos s cap k :
  Regex.run (Regex.Group r1) pos s cap k
  = Regex.run r1 pos s cap (fun pos' s' _ => k pos' s' (Some (pos, pos'))).
Proof. reflexivity. Qed.

Lemma run_Lit_i_cons l0 lit pos c s cap k :
  Regex.run (Regex.Lit_i (l0 :: lit)) pos (c :: s) cap k
  = if Regex.canonicalize c =? Regex.canonicalize l0
    then Regex.run (Regex.Lit_i lit) (S pos) s cap k else None.
Proof. reflexivity. Qed.

Lemma run_Lit_i_nil_input l0 lit pos cap k :
  Regex.run (Regex.Lit_i (l0 :: lit)) pos [] cap k = None.
Proof. reflexivity. Qed.

Lemma run_Lit_i_match lit units rest pos cap k :
  Forall2 (fun d c => (Regex.canonicalize d =? Regex.canonicalize c) = true) units lit ->
  Regex.run (Regex.Lit_i lit) pos (units ++ rest) cap k
  = k (pos + List.length units)%nat rest cap.
Proof.
  intros H. revert pos. induction H as [|d c units lit Hdc H IH]; intros pos.
  - cbn [app List.length]. rewrite Nat.add_0_r. reflexivity.
  - cbn [app List.length]. rewrite run_Lit_i_cons, Hdc, IH.
    f_equal. lia.
Qed.

Lemma run_fence_mark_fails pos s cap k :
  match s with c :: _ => c <> 96 | [] => True end ->
  Regex.run (Regex.Lit_i (js "```")) pos s cap k = None.
Proof.
  change (js "```") with [96; 96; 96]. destruct s as [|c s]; intros Hc.
  - apply run_Lit_i_nil_input.
  - rewrite run_Lit_i_cons.
    destruct (Regex.canonicalize c =? Regex.canonicalize 96) eqn:E; [|reflexivity].
    apply canonicalize_backtick in E. contradiction.
Qed.

Lemma run_fence_mark pos rest cap k :
  Regex.run (Regex.Lit_i (js "```")) pos (96 :: 96 :: 96 :: rest) cap k
  = k (pos + 3)%nat rest cap.
Proof.
  change (js "```") with [96; 96; 96].
  apply (run_Lit_i_match [96; 96; 96] [96; 96; 96] rest).
  repeat constructor.
Qed.

(** The group and the closing mark: the group holds the text up to the
    first closing mark. *)
Lemma run_fence_group (body post : jsstring) pos cap k :
  Forall (fun c => c <> 96) body ->
  is_Some (k (pos + List.length body + 3)%nat post (Some (pos, (pos + List.length body)%nat))) ->
  Regex.run (Regex.Seq (Regex.Group (Regex.StarLazy Regex.any)) (Regex.Lit_i (js "```")))
    pos (body ++ 96 :: 96 :: 96 :: post) cap k
  = k (pos + List.length body + 3)%nat post (Some (pos, (pos + List.length body)%nat)).
Proof.
  intros Hbody Hk. rewrite run_Seq, run_Group. unfold Regex.any.
  rewrite run_lazy_stops.
  - apply run_fence_mark.
  - apply Forall_forall. reflexivity.
  - intros a b -> Hb. apply run_fence_mark_fails.
    destruct b as [|c b]; [congruence|]. cbn [app].
    apply Forall_app in Hbody as [_ Hbody]. inversion Hbody; assumption.
  - rewrite run_fence_mark. exact Hk.
Qed.

(** White space, the group and the closing mark. *)
Lemma run_fence_space (ws body post : jsstring) pos cap k :
  Forall (fun c => JsString.isWhiteSpace c = true) ws ->
  Forall (fun c => c <> 96) body ->
  match body with c :: _ => JsString.isWhiteSpace c = false | [] => True end ->
  let start := (pos + List.length ws)%nat in
  is_Some (k (start + List.length body + 3)%nat post
             (Some (start, (start + List.length body)%nat))) ->
  Regex.run (Regex.Seq (Regex.Star Regex.space)
               (Regex.Seq (Regex.Group (Regex.StarLazy Regex.any)) (Regex.Lit_i (js "```"))))
    pos (ws ++ body ++ 96 :: 96 :: 96 :: post) cap k
  = k (start + List.length body + 3)%nat post (Some (start, (start + List.length body)%nat)).
Proof.
  intros Hws Hbody Hfirst start Hk. rewrite run_Seq. unfold Regex.space.
  rewrite run_star_stops.
  - apply run_fence_group; assumption.
  - exact Hws.
  - destruct body as [|c body]; [reflexivity | exact Hfirst].
  - rewrite run_fence_group; assumption.
Qed.
End PatternFacts.

Section FenceFacts.
Context {R : Type}.
Implicit Types (k : @Regex.cont R) (s : jsstring) (pos : nat) (cap : option (nat * nat)).

Lemma run_fence (tag ws body post : jsstring) pos cap k :
  fenceTag tag ->
  Forall (fun c => JsString.isWhiteSpace c = true) ws ->
  Forall (fun c => c <> 96) (123 :: body) ->
  let start := (pos + 3 + List.length tag + List.length ws)%nat in
  let stop := (start + S (List.length body))%nat in
  is_Some (k (stop + 3)%nat post (Some (start, stop))) ->
  Regex.run fenceRe pos (96 :: 96 :: 96 :: tag ++ ws ++ (123 :: body) ++ 96 :: 96 :: 96 :: post) cap k
  = k (stop + 3)%nat post (Some (start, stop)).
Proof.
  intros Htag Hws Hbody start stop Hk. unfold fenceRe.
  rewrite run_Seq, run_fence_mark, run_Seq, run_Opt.
  assert (Hfirst : JsString.isWhiteSpace 123 = false) by reflexivity.
  destruct Htag as [->|Htag].
  - (* no tag: "json" is not read, the text goes on with white space or the brace *)
    change ([] ++ ws ++ (123 :: body) ++ 96 :: 96 :: 96 :: post)
      with (ws ++ (123 :: body) ++ 96 :: 96 :: 96 :: post).
    assert (Hno : forall k', Regex.run (Regex.Lit_i (js "json")) (pos + 3)%nat
                     (ws ++ (123 :: body) ++ 96 :: 96 :: 96 :: post) cap k' = None).
    { intros k'. change (js "json") with [106; 115; 111; 110].
      destruct ws as [|w ws].
      - cbn [app]. rewrite run_Lit_i_cons. reflexivity.
      - cbn [app]. rewrite run_Lit_i_cons.
        destruct (Regex.canonicalize w =? Regex.canonicalize 106) eqn:E; [|reflexivity].
        apply canonicalize_j in E. inversion Hws as [|? ? Hw _]; subst.
        destruct E as [-> | ->]; discriminate Hw. }
    rewrite Hno. subst start stop. cbn [List.length] in *.
    rewrite Nat.add_0_r in *.
    apply (run_fence_space ws (123 :: body) post (pos + 3)%nat cap k); assumption.
  - rewrite (run_Lit_i_match _ _ _ _ _ _ Htag).
    assert (Hgo : Regex.run
                    (Regex.Seq (Regex.Star Regex.space)
                       (Regex.Seq (Regex.Group (Regex.StarLazy Regex.any))
                          (Regex.Lit_i (js "```"))))
                    (pos + 3 + List.length tag)%nat
                    (ws ++ (123 :: body) ++ 96 :: 96 :: 96 :: post) cap k
                  = k (stop + 3)%nat post (Some (start, stop))).
    { apply (run_fence_space ws (123 :: body) post); assumption. }
    rewrite Hgo. destruct Hk as [x Hx]. rewrite Hx. reflexivity.
Qed.

Lemma run_fence_fails pos s cap k :
  match s with c :: _ => c <> 96 | [] => True end ->
  Regex.run fenceRe pos s cap k = None.
Proof. intros H. unfold fenceRe. rewrite run_Seq. apply run_fence_mark_fails. exact H. Qed.
End FenceFacts.

(** A text without a backtick has no fence. *)
Lemma fence_absent (text : jsstring) :
  Forall (fun c => c <> 96) text -> Regex.exec fenceRe text = None.
Proof.
  intros H. unfold Regex.exec. apply search_none. intros a b ->.
  apply run_fence_fails. apply Forall_app in H as [_ H].
  destruct b; [exact I | inversion H; assumption].
Qed.

(** The first fence of a text, when the prose before it and the body hold
    no backtick and the body opens with a brace. *)
Lemma fence_found (pre tag ws body post : jsstring) :
  Forall (fun c => c <> 96) pre ->
  fenceTag tag ->
  Forall (fun c => JsString.isWhiteSpace c = true) ws ->
  Forall (fun c => c <> 96) (123 :: body) ->
  Regex.exec fenceRe
    (pre ++ 96 :: 96 :: 96 :: tag ++ ws ++ (123 :: body) ++ 96 :: 96 :: 96 :: post)
  = Some (96 :: 96 :: 96 :: tag ++ ws ++ (123 :: body) ++ [96; 96; 96], Some (123 :: body)).
Proof.
  intros Hpre Htag Hws Hbody. unfold Regex.exec.
  set (input := pre ++ 96 :: 96 :: 96 :: tag ++ ws ++ (123 :: body) ++ 96 :: 96 :: 96 :: post).
  unfold input at 1.
  rewrite search_skips.
  2:{ intros a b -> Hb. apply run_fence_fails. destruct b as [|c b]; [congruence|].
      cbn [app]. apply Forall_app in Hpre as [_ Hpre]. inversion Hpre; assumption. }
  cbn [Regex.search Nat.add].
  rewrite run_fence; [|assumption..|eexists; reflexivity].
  pose (fence := 96 :: 96 :: 96 :: tag ++ ws ++ (123 :: body) ++ [96; 96; 96]).
  pose (lead := pre ++ 96 :: 96 :: 96 :: tag ++ ws).
  pose (inner := 123 :: body).
  assert (Hfence : (List.length pre + 3 + List.length tag + List.length ws
                    + S (List.length body) + 3
                    = List.length pre + List.length fence)%nat).
  { unfold fence. cbn [List.length]. rewrite !length_app. cbn [List.length]. lia. }
  assert (Hlead : (List.length pre + 3 + List.length tag + List.length ws
                   = List.length lead)%nat).
  { unfold lead. rewrite !length_app. cbn [List.length]. rewrite length_app. lia. }
  f_equal. f_equal.
  - rewrite Hfence.
    replace input with (pre ++ fence ++ post).
    + apply substring_middle.
    + unfold input, fence. repeat (cbn [app]; rewrite <- ?app_assoc). reflexivity.
  - f_equal. rewrite Hlead.
    change (S (List.length body)) with (List.length inner).
    replace input with (lead ++ inner ++ 96 :: 96 :: 96 :: post).
    + apply substring_middle.
    + unfold input, lead, inner. repeat (cbn [app]; rewrite <- ?app_assoc). reflexivity.
Qed.

Section BraceFacts.
Context {R : Type}.
Implicit Types (k : @Regex.cont R) (s : jsstring) (pos : nat) (cap : option (nat * nat)).

(** The greedy star over every code unit fails when the rest of the
    pattern fails at every place of the text. *)
Lemma run_star_any_fails s pos cap k :
  (forall a b, s = a ++ b -> k (pos + List.length a)%nat b cap = None) ->
  Regex.run (Regex.Star Regex.any) pos s cap k = None.
Proof.
  unfold Regex.any. revert pos. induction s as [|c s IH]; intros pos Hfail.
  - rewrite run_star_unit_nil. specialize (Hfail [] [] eq_refl).
    cbn [List.length] in Hfail. rewrite Nat.add_0_r in Hfail. exact Hfail.
  - rewrite run_star_unit_cons. rewrite IH.
    + specialize (Hfail [] (c :: s) eq_refl).
      cbn [List.length] in Hfail. rewrite Nat.add_0_r in Hfail. exact Hfail.
    + intros a b ->. specialize (Hfail (c :: a) b eq_refl). cbn [List.length] in Hfail.
      replace (S pos + List.length a)%nat with (pos + S (List.length a))%nat by lia.
      exact Hfail.
Qed.

(** The greedy star over every code unit gives back code units down to
    the last place where the rest of the pattern matches. *)
Lemma run_star_any_last units rest pos cap k :
  (forall a b, rest = a ++ b -> a <> [] ->
     k (pos + List.length units + List.length a)%nat b cap = None) ->
  is_Some (k (pos + List.length units)%nat rest cap) ->
  Regex.run (Regex.Star Regex.any) pos (units ++ rest) cap k
  = k (pos + List.length units)%nat rest cap.
Proof.
  unfold Regex.any. revert pos. induction units as [|c units IH]; intros pos Hfail Hk.
  - cbn [app List.length] in *. rewrite Nat.add_0_r in *.
    destruct rest as [|c rest]; [apply run_star_unit_nil|].
    rewrite run_star_unit_cons.
    fold Regex.any. rewrite run_star_any_fails; [reflexivity|].
    intros a b ->. specialize (Hfail (c :: a) b eq_refl ltac:(discriminate)).
    cbn [List.length] in Hfail.
    replace (S pos + List.length a)%nat with (pos + S (List.length a))%nat by lia.
    exact Hfail.
  - cbn [app List.length] in *. rewrite run_star_unit_cons.
    replace (pos + S (List.length units))%nat with (S pos + List.length units)%nat in * by lia.
    rewrite (IH (S pos) Hfail Hk). destruct Hk as [x ->]. reflexivity.
Qed.

Lemma braceRe_eq :
  braceRe
  = Regex.Seq (Regex.Seq (Regex.Unit (N.eqb 123)) Regex.Eps)
      (Regex.Seq (Regex.Star Regex.any) (Regex.Seq (Regex.Unit (N.eqb 125)) Regex.Eps)).
Proof. reflexivity. Qed.

Lemma run_brace_cons c s pos cap k :
  Regex.run braceRe pos (c :: s) cap k
  = if 123 =? c
    then Regex.run (Regex.Star Regex.any) (S pos) s cap
           (fun pos' s' cap' =>
              Regex.run (Regex.Seq (Regex.Unit (N.eqb 125)) Regex.Eps) pos' s' cap' k)
    else None.
Proof. rewrite braceRe_eq. cbn [Regex.run]. destruct (123 =? c); reflexivity. Qed.

Lemma run_brace_nil pos cap k : Regex.run braceRe pos [] cap k = None.
Proof. reflexivity. Qed.

Lemma run_close_cons c s pos cap k :
  Regex.run (Regex.Seq (Regex.Unit (N.eqb 125)) Regex.Eps) pos (c :: s) cap k
  = if 125 =? c then k (S pos) s cap else None.
Proof. reflexivity. Qed.

Lemma run_close_fails s pos cap k :
  match s with c :: _ => c <> 125 | [] => True end ->
  Regex.run (Regex.Seq (Regex.Unit (N.eqb 125)) Regex.Eps) pos s cap k = None.
Proof.
  destruct s as [|c s]; [reflexivity|]. intros H. rewrite run_close_cons.
  destruct (125 =? c) eqn:E; [|reflexivity]. apply N.eqb_eq in E. congruence.
Qed.

Lemma run_brace (mid tail : jsstring) pos cap k :
  Forall (fun c => c <> 125) tail ->
  is_Some (k (pos + 1 + List.length mid + 1)%nat tail cap) ->
  Regex.run braceRe pos (123 :: mid ++ 125 :: tail) cap k
  = k (pos + 1 + List.length mid + 1)%nat tail cap.
Proof.
  intros Htail Hk. rewrite run_brace_cons. change (123 =? 123) with true. cbv iota.
  replace (pos + 1)%nat with (S pos) in * by lia.
  rewrite run_star_any_last.
  - rewrite run_close_cons. change (125 =? 125) with true. cbv iota.
    replace (S (S pos + List.length mid)) with (S pos + List.length mid + 1)%nat by lia.
    reflexivity.
  - intros a b Hab Ha. apply run_close_fails.
    destruct a as [|c0 a]; [congruence|]. cbn [app] in Hab. injection Hab as _ Ht.
    rewrite Ht in Htail. apply Forall_app in Htail as [_ Hb].
    destruct b; [exact I | inversion Hb; assumption].
  - rewrite run_close_cons. change (125 =? 125) with true. cbv iota.
    replace (S (S pos + List.length mid)) with (S pos + List.length mid + 1)%nat by lia.
    exact Hk.
Qed.

Lemma run_brace_fails_open pos s cap k :
  match s with c :: _ => c <> 123 | [] => True end ->
  Regex.run braceRe pos s cap k = None.
Proof.
  destruct s as [|c s]; [reflexivity|]. intros H. rewrite run_brace_cons.
  destruct (123 =? c) eqn:E; [|reflexivity]. apply N.eqb_eq in E. congruence.
Qed.

Lemma run_brace_fails_close pos s cap k :
  Forall (fun c => c <> 125) s ->
  Regex.run braceRe pos s cap k = None.
Proof.
  destruct s as [|c s]; [reflexivity|]. intros H. rewrite run_brace_cons.
  destruct (123 =? c); [|reflexivity].
  apply run_star_any_fails. intros a b ->. apply run_close_fails.
  inversion H as [|? ? _ H']; subst. apply Forall_app in H' as [_ Hb].
  destruct b; [exact I | inversion Hb; assumption].
Qed.
End BraceFacts.

(** The brace span of a text: from its first opening brace to its last
    closing brace. *)
Lemma brace_span_found (pre mid tail : jsstring) :
  Forall (fun c => c <> 123) pre ->
  Forall (fun c => c <> 125) tail ->
  Regex.exec braceRe (pre ++ 123 :: mid ++ 125 :: tail) = Some (123 :: mid ++ [125], None).
Proof.
  intros Hpre Htail. unfold Regex.exec.
  set (input := pre ++ 123 :: mid ++ 125 :: tail). unfold input at 1.
  rewrite search_skips.
  2:{ intros a b -> Hb. apply run_brace_fails_open. destruct b as [|c b]; [congruence|].
      cbn [app]. apply Forall_app in Hpre as [_ Hpre]. inversion Hpre; assumption. }
  destruct tail as [|t tail]; cbn [Regex.search Nat.add].
  all: rewrite run_brace; [|assumption|eexists; reflexivity].
  all: f_equal; f_equal.
  all: pose (span := 123 :: mid ++ [125]).
  all: assert (Hspan : (List.length pre + 1 + List.length mid + 1
                        = List.length pre + List.length span)%nat)
         by (unfold span; cbn [List.length]; rewrite length_app; cbn [List.length]; lia).
  all: rewrite Hspan.
  - replace input with (pre ++ span ++ []).
    + apply substring_middle.
    + unfold input, span. repeat (cbn [app]; rewrite <- ?app_assoc). reflexivity.
  - replace input with (pre ++ span ++ t :: tail).
    + apply substring_middle.
    + unfold input, span. repeat (cbn [app]; rewrite <- ?app_assoc). reflexivity.
Qed.

Lemma brace_span_absent (text : jsstring) :
  Forall (fun c => c <> 123) text \/ Forall (fun c => c <> 125) text ->
  Regex.exec braceRe text = None.
Proof.
  intros H. unfold Regex.exec. apply search_none. intros a b ->.
  destruct H as [H|H]; apply Forall_app in H as [_ H].
  - apply run_brace_fails_open. destruct b; [exact I | inversion H; assumption].
  - apply run_brace_fails_close. exact H.
Qed.

Lemma brace_span_absent_split (pre rest : jsstring) :
  lacks openBrace pre -> lacks closeBrace rest ->
  Regex.exec braceRe (pre ++ rest) = None.
Proof.
  unfold lacks, openBrace, closeBrace. intros Hpre Hrest.
  unfold Regex.exec. apply search_none. intros a b Hab.
  apply app_eq_app in Hab as [l [[-> ->]|[-> ->]]].
  - apply Forall_app in Hpre as [_ Hl]. destruct l as [|c l].
    + apply run_brace_fails_close. exact Hrest.
    + apply run_brace_fails_open. cbn [app]. inversion Hl; assumption.
  - apply run_brace_fails_close. apply Forall_app in Hrest as [_ Hb]. exact Hb.
Qed.

Section ExtractorFurther.

Variable JSON_parse : jsstring -> Json.t + jsstring.

Local Abbreviation extract := (extractAppointmentsJSON JSON_parse).

(** X4: a reply that wraps a JSON object in a code fence is read from the
    body of the fence: with no backtick in the prose before the fence and
    in the body, a tag that is empty or "json" in any letter case, and
    white space before the body, the candidate is the body, and when the
    JSON reader accepts the body its value is the result, whatever
    surrounds the fence. *)
Theorem fenced_object_is_extracted (pre tag ws body post : jsstring) (v : Json.t) :
  lacks backtick pre ->
  fenceTag tag ->
  Forall (fun c => JsString.isWhiteSpace c = true) ws ->
  lacks backtick body ->
  JSON_parse (openBrace :: body) = inl v ->
  candidate (fenced pre tag ws (openBrace :: body) post) = Some (openBrace :: body)
  /\ extract (fenced pre tag ws (openBrace :: body) post) = Return v.
Proof.
  intros Hpre Htag Hws Hbody Hv.
  assert (Hc : candidate (fenced pre tag ws (openBrace :: body) post)
               = Some (openBrace :: body)).
  { unfold candidate, fenced, fenceMark, backtick, openBrace.
    change ([96; 96; 96] ++ tag ++ ws ++ (123 :: body) ++ [96; 96; 96] ++ post)
      with (96 :: 96 :: 96 :: tag ++ ws ++ (123 :: body) ++ 96 :: 96 :: 96 :: post).
    rewrite fence_found; [reflexivity|assumption..|].
    constructor; [discriminate | exact Hbody]. }
  split; [exact Hc|].
  unfold extractAppointmentsJSON. rewrite Hc, Hv. reflexivity.
Qed.

(** X5: a reply without a backtick is its own candidate: the value the
    JSON reader gives for the whole text is the result. *)
Theorem plain_reply_is_parsed_whole (text : jsstring) (v : Json.t) :
  lacks backtick text ->
  JSON_parse text = inl v ->
  candidate text = Some text /\ extract text = Return v.
Proof.
  intros Htext Hv.
  assert (Hc : candidate text = Some text).
  { unfold candidate. rewrite fence_absent; [reflexivity | exact Htext]. }
  split; [exact Hc|]. unfold extractAppointmentsJSON. rewrite Hc, Hv. reflexivity.
Qed.

(** X6: when the JSON reader rejects a reply without a backtick, the
    extractor reads the span from the first opening brace to the last
    closing brace instead: the text around it is dropped, and the outcome
    is that of the JSON reader on the span. *)
Theorem object_in_prose_is_recovered (pre mid tail msg : jsstring) :
  lacks backtick (embedded pre mid tail) ->
  lacks openBrace pre ->
  lacks closeBrace tail ->
  JSON_parse (embedded pre mid tail) = inr msg ->
  extract (embedded pre mid tail) = parseJSON JSON_parse (embedded [] mid []).
Proof.
  intros Htext Hpre Htail Hmsg.
  unfold extractAppointmentsJSON, candidate.
  rewrite fence_absent by exact Htext. rewrite Hmsg.
  unfold embedded, openBrace, closeBrace. rewrite brace_span_found by assumption.
  reflexivity.
Qed.

(** X7: a reply without a backtick that the JSON reader rejects and that
    has no closing brace after its first opening brace (or no opening
    brace at all) ends in the extractor's own error, with the
    unparseable-response message. *)
Theorem reply_without_object_throws_unparseable (pre rest msg : jsstring) :
  lacks backtick (pre ++ rest) ->
  lacks openBrace pre ->
  lacks closeBrace rest ->
  JSON_parse (pre ++ rest) = inr msg ->
  extract (pre ++ rest) = Throw (ErrorObject Error_ unparseableMessage).
Proof.
  intros Htext Hpre Hrest Hmsg.
  unfold extractAppointmentsJSON, candidate.
  rewrite fence_absent by exact Htext. rewrite Hmsg.
  rewrite brace_span_absent_split by assumption. reflexivity.
Qed.

End ExtractorFurther.

Lemma fenced_object_is_extracted_witness :
  candidate (fenced fencePre fenceTagUpper fenceSpace (openBrace :: fenceBody) fencePost)
  = Some (openBrace :: fenceBody)
  /\ extractAppointmentsJSON Reference.JSON_parse
       (fenced fencePre fenceTagUpper fenceSpace (openBrace :: fenceBody) fencePost)
     = Return (Json.Obj [(js "appointments", Json.Arr [])]).
Proof.
  apply (fenced_object_is_extracted Reference.JSON_parse).
  - unfold lacks. repeat constructor; discriminate.
  - right. repeat constructor.
  - repeat constructor.
  - unfold lacks. repeat constructor; discriminate.
  - vm_compute. reflexivity.
Defined.

Lemma plain_reply_is_parsed_whole_witness :
  candidate (embedded [] objectMid []) = Some (embedded [] objectMid [])
  /\ extractAppointmentsJSON Reference.JSON_parse (embedded [] objectMid [])
     = Return (Json.Obj [(js "appointments", Json.Arr [])]).
Proof.
  apply (plain_reply_is_parsed_whole Reference.JSON_parse).
  - unfold lacks. repeat constructor; discriminate.
  - vm_compute. reflexivity.
Defined.

Lemma object_in_prose_is_recovered_witness :
  extractAppointmentsJSON Reference.JSON_parse (embedded objectPre objectMid objectTail)
  = Return (Json.Obj [(js "appointments", Json.Arr [])]).
Proof.
  rewrite (object_in_prose_is_recovered Reference.JSON_parse _ _ _
             (js "Unexpected token in JSON")).
  - vm_compute. reflexivity.
  - unfold lacks. repeat constructor; discriminate.
  - unfold lacks. repeat constructor; discriminate.
  - unfold lacks. repeat constructor; discriminate.
  - vm_compute. reflexivity.
Defined.

Lemma reply_without_object_throws_unparseable_witness :
  extractAppointmentsJSON Reference.JSON_parse (proseReply ++ [])
  = Throw (ErrorObject Error_ unparseableMessage).
Proof.
  apply (reply_without_object_throws_unparseable Reference.JSON_parse _ _
           (js "Unexpected token in JSON")).
  - unfold lacks. repeat constructor; discriminate.
  - unfold lacks. repeat constructor; discriminate.
  - constructor.
  - vm_compute. reflexivity.
Defined.

(** ** The runs of the handler *)

Section OrchestratorFurther.

Variable JSON_parse : jsstring -> Json.t + jsstring.
Variable Date_parse : jsstring -> option Z.
Variable toISOString : Z -> jsstring.
Variable viteEnv nodeEnv : option EnvLike.
Variable fetch : Request -> FetchOutcome.
Variable clock : nat -> Z.
Variable add : list Appointment.t -> Appointment.t -> option thrown.

Local Abbreviation send := (sendToAtlas JSON_parse viteEnv nodeEnv fetch).
Local Abbreviation try :=
  (tryBlock JSON_parse Date_parse toISOString viteEnv nodeEnv fetch clock add).
Local Abbreviation submit :=
  (handleAiSubmit JSON_parse Date_parse toISOString viteEnv nodeEnv fetch clock add).
Local Abbreviation storing := (addAll add).
Local Abbreviation converting := (convertAll Date_parse toISOString clock).

(** The loop over the drafts stores a prefix of them, all of them when no
    call of the store throws. *)
Lemma addAll_prefix (toInsert stored : list Appointment.t) :
  exists done rest,
    toInsert = done ++ rest
    /\ fst (storing stored toInsert) = stored ++ done
    /\ (snd (storing stored toInsert) = None -> rest = [])
    /\ (forall e, snd (storing stored toInsert) = Some e ->
          exists appt after, rest = appt :: after /\ add (stored ++ done) appt = Some e).
Proof.
  revert stored. induction toInsert as [|appt toInsert IH]; intros stored.
  - exists [], []. cbn. rewrite app_nil_r. repeat split; try discriminate.
  - cbn [addAll]. destruct (add stored appt) as [e|] eqn:Hadd.
    + exists [], (appt :: toInsert). cbn. rewrite app_nil_r.
      split; [reflexivity|]. split; [reflexivity|]. split; [discriminate|].
      intros e' [= <-]. exists appt, toInsert. split; [reflexivity | exact Hadd].
    + destruct (IH (stored ++ [appt])) as (done & rest & -> & Hfst & Hnone & Hsome).
      exists (appt :: done), rest. rewrite <- app_assoc in Hfst. cbn [app] in Hfst.
      split; [reflexivity|]. split; [exact Hfst|]. split; [exact Hnone|].
      intros e He. destruct (Hsome e He) as (a & after & -> & Ha).
      exists a, after. rewrite <- app_assoc in Ha. cbn [app] in Ha.
      split; [reflexivity | exact Ha].
Qed.

Lemma addAll_all (toInsert stored : list Appointment.t) :
  (forall before appt after, toInsert = before ++ appt :: after ->
     add (stored ++ before) appt = None) ->
  storing stored toInsert = (stored ++ toInsert, None).
Proof.
  revert stored. induction toInsert as [|appt toInsert IH]; intros stored Hadd.
  - cbn. rewrite app_nil_r. reflexivity.
  - cbn [addAll]. pose proof (Hadd [] appt toInsert eq_refl) as H0.
    rewrite app_nil_r in H0. rewrite H0.
    rewrite IH.
    + rewrite <- app_assoc. reflexivity.
    + intros before a after ->. rewrite <- app_assoc. cbn [app].
      apply (Hadd (appt :: before) a after). reflexivity.
Qed.

Lemma addAll_stops (before after : list Appointment.t) (appt : Appointment.t)
    (stored : list Appointment.t) (e : thrown) :
  (forall a b c, before = a ++ b :: c -> add (stored ++ a) b = None) ->
  add (stored ++ before) appt = Some e ->
  storing stored (before ++ appt :: after) = (stored ++ before, Some e).
Proof.
  revert stored. induction before as [|b before IH]; intros stored Hok Hfail.
  - cbn [app addAll]. rewrite app_nil_r in *. rewrite Hfail. reflexivity.
  - cbn [app addAll]. pose proof (Hok [] b before eq_refl) as H0.
    rewrite app_nil_r in H0. rewrite H0.
    rewrite IH.
    + rewrite <- app_assoc. reflexivity.
    + intros a x c ->. rewrite <- app_assoc. cbn [app]. apply (Hok (b :: a) x c). reflexivity.
    + rewrite <- app_assoc. exact Hfail.
Qed.

Lemma element_of_item (v : Json.t) (raw : Atlas.Appointment) :
  Decode.item v = Some raw -> Decode.element v = Some (Return raw).
Proof.
  destruct v; try discriminate. intros H. unfold Decode.element. rewrite H. reflexivity.
Qed.

Lemma convertAll_length (items : list Json.t) (i : nat) (drafts : list Appointment.t) :
  converting i items = Some (Return drafts) -> List.length drafts = List.length items.
Proof.
  revert i drafts. induction items as [|v items IH]; intros i drafts.
  - intros [= <-]. reflexivity.
  - cbn [convertAll]. destruct (Decode.element v) as [[raw|e]|]; try discriminate.
    destruct (converting (S i) items) as [[ds|e]|] eqn:Hds; try discriminate.
    intros [= <-]. cbn. f_equal. exact (IH _ _ Hds).
Qed.

(** Each extracted item is normalized at its own reading of the clock, in
    the order of the array. *)
Lemma convertAll_of_items (items : list Json.t) (raws : list Atlas.Appointment) (i : nat) :
  mapM Decode.item items = Some raws ->
  converting i items
  = Some (Return (imap (fun j raw =>
                          convertAtlasToAppointment Date_parse toISOString (clock (i + j)) raw)
                    raws)).
Proof.
  revert raws i. induction items as [|v items IH]; intros raws i.
  - intros [= <-]. reflexivity.
  - cbn [mapM convertAll]. destruct (Decode.item v) as [raw|] eqn:Hv; [|discriminate].
    rewrite (element_of_item _ _ Hv).
    cbn. destruct (mapM Decode.item items) as [rs|] eqn:Hrs; [|discriminate].
    cbn. intros [= <-]. rewrite (IH rs (S i) eq_refl). cbn [imap].
    rewrite Nat.add_0_r. do 3 f_equal. apply imap_ext. intros j x _.
    cbn. f_equal. f_equal. lia.
Qed.


Local Abbreviation draftsOf := (draftsOf Date_parse toISOString clock).

Lemma tryBlock_converts (text : jsstring) reqs res parsed item items raws :
  send text = (reqs, Return res) ->
  parseContent JSON_parse (assistant res) = Return parsed ->
  appointmentsOf parsed = item :: items ->
  mapM Decode.item (item :: items) = Some raws ->
  try text
  = Some (match storing [] (draftsOf raws) with
          | (stored, Some e) => (reqs, stored, Throw e)
          | (stored, None) => (reqs, stored, Return (List.length (draftsOf raws)))
          end).
Proof.
  intros Hsend Hparse Hitems Hraws. unfold tryBlock. rewrite Hsend, Hparse, Hitems.
  rewrite (convertAll_of_items _ _ 0 Hraws). cbn [Nat.add].
  fold (draftsOf raws). destruct (storing [] (draftsOf raws)) as [stored [e|]]; reflexivity.
Qed.

(** X8: a reply whose items are all stored.  When every element of the
    extracted array is an object with fields of the declared types, there
    is at least one, and the store accepts every draft: every draft is
    stored, in the order of the array and each normalized at its own
    reading of the clock; the success message counts them, the text is
    cleared, the error modal is left as it was, and the handler calls
    its [fetch()]. *)
Theorem accepted_reply_is_stored_in_order (ui0 : Ui) reqs res parsed item items raws :
  JsString.trim (aiText ui0) <> [] ->
  send (JsString.trim (aiText ui0)) = (reqs, Return res) ->
  parseContent JSON_parse (assistant res) = Return parsed ->
  appointmentsOf parsed = item :: items ->
  mapM Decode.item (item :: items) = Some raws ->
  (forall before appt after, draftsOf raws = before ++ appt :: after ->
     add before appt = None) ->
  submit ui0
  = Some {| ui := {| aiText := []; aiError := None;
                     aiSuccess := Some (successMessage (S (List.length items)));
                     errorModal := errorModal ui0; aiLoading := false |};
            requests := reqs; added := draftsOf raws; refetched := true |}.
Proof.
  intros Hne Hsend Hparse Hitems Hraws Hadd.
  pose proof (tryBlock_converts _ _ _ _ _ _ _ Hsend Hparse Hitems Hraws) as Htry.
  rewrite (addAll_all (draftsOf raws) []) in Htry by exact Hadd.
  cbn [app] in Htry.
  rewrite (handleAiSubmit_settles _ _ _ _ _ _ _ _ _ _ _ _ Hne Htry).
  cbn [settle clearMessages succeeded aiText aiError aiSuccess errorModal aiLoading].
  assert (Hlen : List.length (draftsOf raws) = S (List.length items)).
  { unfold draftsOf. rewrite length_imap.
    apply length_mapM in Hraws. rewrite <- Hraws. reflexivity. }
  rewrite Hlen. reflexivity.
Qed.

(** X9: a store failure in the middle of a reply.  The drafts before the
    failing one stay stored and no later one is, the failure is shown,
    the text is kept and the list is not fetched again by the handler. *)
Theorem store_failure_keeps_earlier_drafts (ui0 : Ui) reqs res parsed item items raws
    before appt after e :
  JsString.trim (aiText ui0) <> [] ->
  send (JsString.trim (aiText ui0)) = (reqs, Return res) ->
  parseContent JSON_parse (assistant res) = Return parsed ->
  appointmentsOf parsed = item :: items ->
  mapM Decode.item (item :: items) = Some raws ->
  draftsOf raws = before ++ appt :: after ->
  (forall a b c, before = a ++ b :: c -> add a b = None) ->
  add before appt = Some e ->
  exists run,
    submit ui0 = Some run
    /\ added run = before
    /\ requests run = reqs
    /\ refetched run = false
    /\ aiText (ui run) = aiText ui0
    /\ aiSuccess (ui run) = None
    /\ aiError (ui run)
       = Some (if isRateLimitError e then waitInlineMessage else messageOrUnexpected e)
    /\ errorModal (ui run)
       = Some (modalTitle,
               if isRateLimitError e then waitModalMessage else messageOrUnexpected e).
Proof.
  intros Hne Hsend Hparse Hitems Hraws Hdrafts Hok Hfail.
  pose proof (tryBlock_converts _ _ _ _ _ _ _ Hsend Hparse Hitems Hraws) as Htry.
  rewrite Hdrafts in Htry at 1.
  rewrite (addAll_stops before after appt [] e) in Htry by assumption.
  cbn [app] in Htry.
  eexists. split; [apply (handleAiSubmit_settles _ _ _ _ _ _ _ _ _ _ _ _ Hne Htry)|].
  cbn [settle clearMessages succeeded ui requests added refetched
       aiText aiError aiSuccess errorModal aiLoading].
  split; [reflexivity|]. split; [reflexivity|]. split; [reflexivity|].
  split; [reflexivity|]. split; [reflexivity|]. split; reflexivity.
Qed.

Lemma tryBlock_shape (text : jsstring) reqs stored outcome :
  try text = Some (reqs, stored, outcome) ->
  (List.length reqs <= 1)%nat
  /\ (reqs = [] -> stored = [])
  /\ (succeeded outcome = true -> stored <> [] /\ List.length reqs = 1%nat).
Proof.
  unfold tryBlock.
  destruct (resolveApiKey viteEnv nodeEnv) as [|c key] eqn:Hkey.
  - rewrite (sendToAtlas_no_key _ _ _ _ _ Hkey). intros [= <- <- <-].
    cbn. split; [lia|]. split; [reflexivity | discriminate].
  - assert (Hk : resolveApiKey viteEnv nodeEnv <> []) by (rewrite Hkey; discriminate).
    pose proof (sendToAtlas_requests JSON_parse viteEnv nodeEnv fetch text Hk) as Hreqs.
    destruct (send text) as [reqs0 sent]. cbn [fst] in Hreqs. subst reqs0.
    destruct sent as [res|e].
    2:{ intros [= <- <- <-]. cbn. split; [lia|]. split; [reflexivity | discriminate]. }
    destruct (parseContent JSON_parse (assistant res)) as [parsed|e].
    2:{ intros [= <- <- <-]. cbn. split; [lia|]. split; [reflexivity | discriminate]. }
    destruct (appointmentsOf parsed) as [|item items] eqn:Hitems.
    { intros [= <- <- <-]. cbn. split; [lia|]. split; [reflexivity | discriminate]. }
    destruct (converting 0 (item :: items)) as [[toInsert|e]|] eqn:Hconv; [| |discriminate].
    2:{ intros [= <- <- <-]. cbn. split; [lia|]. split; [discriminate | discriminate]. }
    pose proof (convertAll_length _ _ _ Hconv) as Hlen.
    destruct (addAll_prefix toInsert []) as (finished & rest & Hsplit & Hfst & Hnone & _).
    destruct (storing [] toInsert) as [stored0 [e|]]; intros [= <- <- <-]; cbn.
    + split; [lia|]. split; [discriminate | discriminate].
    + split; [lia|]. split; [discriminate|]. intros _. split; [|reflexivity].
      cbn [fst snd app] in *. rewrite (Hnone eq_refl), app_nil_r in Hsplit.
      subst. destruct finished; [discriminate Hlen | discriminate].
Qed.

Lemma convertAll_some (items : list Json.t) (i : nat) :
  Forall (fun v => is_Some (Decode.element v)) items -> is_Some (converting i items).
Proof.
  intros Hall. revert i. induction Hall as [|v items [r Hv] _ IH]; intros i.
  - eexists. reflexivity.
  - cbn [convertAll]. rewrite Hv. destruct r as [raw|e]; [|eexists; reflexivity].
    destruct (IH (S i)) as [[drafts|e] ->]; eexists; reflexivity.
Qed.

(** X10: what every run of the handler leaves.  The handler ends in a
    run whenever every object of the extracted array has fields of the
    declared types (an element that is [null] or not an object is
    covered: the first throws, the second reads as an item without
    fields).  In every run at most one request is sent, and nothing is
    stored without one.  Exactly one of the error and the success message
    is shown.  The handler calls its own [fetch()] exactly on success;
    then one request was sent, at least one draft is stored, the text is
    cleared and the error modal is untouched.  Without success the text
    is kept as typed. *)
Theorem run_invariants (ui0 : Ui) :
  ((forall reqs res parsed,
      send (JsString.trim (aiText ui0)) = (reqs, Return res) ->
      parseContent JSON_parse (assistant res) = Return parsed ->
      Forall (fun v => is_Some (Decode.element v)) (appointmentsOf parsed)) ->
   is_Some (submit ui0))
  /\ (forall run, submit ui0 = Some run ->
      (List.length (requests run) <= 1)%nat
      /\ (requests run = [] -> added run = [])
      /\ (is_Some (aiError (ui run)) <-> aiSuccess (ui run) = None)
      /\ (refetched run = true <-> is_Some (aiSuccess (ui run)))
      /\ (refetched run = true ->
          List.length (requests run) = 1%nat /\ added run <> []
          /\ aiText (ui run) = [] /\ errorModal (ui run) = errorModal ui0)
      /\ (refetched run = false -> aiText (ui run) = aiText ui0)).
Proof.
  split.
  { intros Htyped. unfold handleAiSubmit. cbv zeta.
    destruct (JsString.trim (aiText ui0)) as [|c text] eqn:Htrim; [eexists; reflexivity|].
    assert (Htry : is_Some (try (c :: text))).
    { unfold tryBlock. destruct (send (c :: text)) as [reqs [res|e]] eqn:Hsend;
        [|eexists; reflexivity].
      destruct (parseContent JSON_parse (assistant res)) as [parsed|e] eqn:Hparse;
        [|eexists; reflexivity].
      pose proof (Htyped reqs res parsed eq_refl Hparse) as Hall.
      destruct (appointmentsOf parsed) as [|item items]; [eexists; reflexivity|].
      destruct (convertAll_some (item :: items) 0 Hall) as [[toInsert|e] ->];
        [|eexists; reflexivity].
      destruct (storing [] toInsert) as [stored [e|]]; eexists; reflexivity. }
    destruct Htry as [[[reqs stored] outcome] ->]. eexists. reflexivity. }
  intros run.
  destruct (JsString.trim (aiText ui0)) as [|c text] eqn:Htrim.
  - rewrite (handleAiSubmit_blank _ _ _ _ _ _ _ _ _ Htrim). intros [= <-].
    cbn [ui requests added refetched aiText aiError aiSuccess errorModal List.length].
    split; [lia|]. split; [reflexivity|].
    split; [split; [reflexivity | intros _; eexists; reflexivity]|].
    split; [split; [discriminate | intros [x Hx]; discriminate Hx]|].
    split; [discriminate | reflexivity].
  - assert (Hne : JsString.trim (aiText ui0) <> []) by (rewrite Htrim; discriminate).
    destruct (try (JsString.trim (aiText ui0))) as [[[reqs stored] outcome]|] eqn:Htry.
    2:{ unfold handleAiSubmit. rewrite Htrim. rewrite Htrim in Htry. cbv zeta.
        rewrite Htry. discriminate. }
    rewrite (handleAiSubmit_settles _ _ _ _ _ _ _ _ _ _ _ _ Hne Htry). intros [= <-].
    destruct (tryBlock_shape _ _ _ _ Htry) as (Hreqs & Hempty & Hdone).
    cbn [ui requests added refetched].
    split; [exact Hreqs|]. split; [exact Hempty|].
    destruct outcome as [n|e];
      cbn [settle clearMessages succeeded aiText aiError aiSuccess errorModal] in *.
    + split; [split; [intros [x Hx]; discriminate Hx | discriminate]|].
      split; [split; [intros _; eexists; reflexivity | reflexivity]|].
      split; [|discriminate]. intros _. destruct (Hdone eq_refl) as [Hs Hl].
      split; [exact Hl|]. split; [exact Hs|]. split; reflexivity.
    + split; [split; [reflexivity | intros _; eexists; reflexivity]|].
      split; [split; [discriminate | intros [x Hx]; discriminate Hx]|].
      split; [discriminate | reflexivity].
Qed.


(** X11: a success response without content.  When the completion's first
    choice has no truthy [message.content] and no truthy [delta.content]
    (no choices at all, a [null] or an empty string), the content is
    [null], nothing is extracted, and the run ends with the "no
    appointments" message after its one request. *)
Theorem reply_without_content_reports_no_appointments
    (ui0 : Ui) (status : Z) (body : jsstring) (json : Json.t) :
  let text := JsString.trim (aiText ui0) in
  let choice := Json.first (Json.member (Some json) (js "choices")) in
  text <> [] ->
  resolveApiKey viteEnv nodeEnv <> [] ->
  fetch (requestFor viteEnv nodeEnv text) = Response status body ->
  ok status = true ->
  JSON_parse body = inl json ->
  Json.truthy (Json.member (Json.member choice (js "message")) (js "content")) = false ->
  Json.truthy (Json.member (Json.member choice (js "delta")) (js "content")) = false ->
  send text = ([requestFor viteEnv nodeEnv text],
               Return {| raw := json; assistant := Json.Null |})
  /\ submit ui0
     = Some {| ui := {| aiText := aiText ui0; aiError := Some noAppointmentsMessage;
                        aiSuccess := None;
                        errorModal := Some (modalTitle, noAppointmentsMessage);
                        aiLoading := false |};
               requests := [requestFor viteEnv nodeEnv text];
               added := []; refetched := false |}.
Proof.
  intros text choice Hne Hkey Hfetch Hok Hjson Hmessage Hdelta.
  assert (Hsend : send text = ([requestFor viteEnv nodeEnv text],
                               Return {| raw := json; assistant := Json.Null |})).
  { unfold sendToAtlas, requestFor in *.
    destruct (resolveApiKey viteEnv nodeEnv) as [|c key]; [congruence|].
    rewrite Hfetch, Hok. cbn [negb]. unfold parseJSON. rewrite Hjson.
    cbn [bind]. fold choice. unfold firstTruthy. rewrite Hmessage, Hdelta. reflexivity. }
  split; [exact Hsend|].
  assert (Htry : try text
                 = Some ([requestFor viteEnv nodeEnv text], [],
                         throwError noAppointmentsMessage)).
  { eapply tryBlock_no_appointments; [exact Hsend| |]; reflexivity. }
  rewrite (handleAiSubmit_settles _ _ _ _ _ _ _ _ _ _ _ _ Hne Htry).
  unfold throwError.
  cbn [settle clearMessages succeeded aiText aiError aiSuccess errorModal aiLoading].
  assert (Hrate : isRateLimitError (ErrorObject Error_ noAppointmentsMessage) = false)
    by (vm_compute; reflexivity).
  rewrite Hrate. reflexivity.
Qed.

End OrchestratorFurther.

Lemma accepted_reply_is_stored_in_order_witness :
  handleAiSubmit Reference.JSON_parse Reference.Date_parse Reference.toISOString
    exampleEnv None (answering 200 twoReply) Reference.clock storeAll
    (exampleUi doctorTomorrow)
  = Some {| ui := {| aiText := []; aiError := None;
                     aiSuccess := Some (successMessage 2);
                     errorModal := None; aiLoading := false |};
            requests := [requestFor exampleEnv None (JsString.trim doctorTomorrow)];
            added := draftsOf Reference.Date_parse Reference.toISOString Reference.clock
                       [standup; gym];
            refetched := true |}.
Proof.
  etransitivity.
  - eapply (accepted_reply_is_stored_in_order Reference.JSON_parse Reference.Date_parse
              Reference.toISOString exampleEnv None (answering 200 twoReply) Reference.clock
              storeAll (exampleUi doctorTomorrow)).
    + vm_compute. discriminate.
    + vm_compute. reflexivity.
    + vm_compute. reflexivity.
    + vm_compute. reflexivity.
    + vm_compute. reflexivity.
    + reflexivity.
  - vm_compute. reflexivity.
Defined.

Lemma store_failure_keeps_earlier_drafts_witness :
  exists run,
    handleAiSubmit Reference.JSON_parse Reference.Date_parse Reference.toISOString
      exampleEnv None (answering 200 twoReply) Reference.clock storeOne
      (exampleUi doctorTomorrow) = Some run
    /\ added run = [convertAtlasToAppointment Reference.Date_parse Reference.toISOString
                      (Reference.clock 0) standup]
    /\ aiError (ui run) = Some (js "new row violates row-level security policy")
    /\ aiText (ui run) = doctorTomorrow
    /\ refetched run = false.
Proof.
  pose proof (fun reqs res parsed item items =>
                store_failure_keeps_earlier_drafts Reference.JSON_parse Reference.Date_parse
                  Reference.toISOString exampleEnv None (answering 200 twoReply)
                  Reference.clock storeOne (exampleUi doctorTomorrow)
                  reqs res parsed item items [standup; gym]
                  [convertAtlasToAppointment Reference.Date_parse Reference.toISOString
                     (Reference.clock 0) standup]
                  (convertAtlasToAppointment Reference.Date_parse Reference.toISOString
                     (Reference.clock 1) gym)
                  [] storeFailure) as H.
  edestruct H as (run & Hrun & Hadded & _ & Hre & Htext & _ & Herr & _).
  - vm_compute. discriminate.
  - vm_compute. reflexivity.
  - vm_compute. reflexivity.
  - vm_compute. reflexivity.
  - vm_compute. reflexivity.
  - reflexivity.
  - intros [|a0 a] b c; [intros _; reflexivity|].
    intros H0. destruct a; discriminate H0.
  - reflexivity.
  - exists run. split; [exact Hrun|]. split; [exact Hadded|].
    split; [rewrite Herr; vm_compute; reflexivity|]. split; [exact Htext | exact Hre].
Defined.

Lemma run_invariants_witness :
  exists run,
    handleAiSubmit Reference.JSON_parse Reference.Date_parse Reference.toISOString
      exampleEnv None (answering 200 twoReply) Reference.clock storeOne
      (exampleUi doctorTomorrow) = Some run
    /\ (List.length (requests run) <= 1)%nat
    /\ refetched run = false
    /\ aiText (ui run) = doctorTomorrow.
Proof.
  eexists. split; [vm_compute; reflexivity|].
  match goal with
  | |- (List.length (requests ?r) <= 1)%nat /\ _ =>
    destruct (run_invariants Reference.JSON_parse Reference.Date_parse
                Reference.toISOString exampleEnv None (answering 200 twoReply)
                Reference.clock storeOne (exampleUi doctorTomorrow))
      as (_ & Hinv);
    destruct (Hinv r) as (Hreqs & _ & _ & _ & _ & Hkept); [vm_compute; reflexivity|]
  end.
  split; [exact Hreqs|]. split; [reflexivity|]. apply Hkept. reflexivity.
Defined.


Lemma reply_without_content_reports_no_appointments_witness :
  shownError
    (handleAiSubmit Reference.JSON_parse Reference.Date_parse Reference.toISOString
       exampleEnv None (answering 200 noChoicesReply) Reference.clock storeAll
       (exampleUi doctorTomorrow))
  = Some noAppointmentsMessage.
Proof.
  edestruct (reply_without_content_reports_no_appointments Reference.JSON_parse
               Reference.Date_parse Reference.toISOString exampleEnv None
               (answering 200 noChoicesReply) Reference.clock storeAll
               (exampleUi doctorTomorrow) 200%Z noChoicesReply) as (_ & Hrun).
  - vm_compute. discriminate.
  - vm_compute. discriminate.
  - reflexivity.
  - reflexivity.
  - vm_compute. reflexivity.
  - reflexivity.
  - reflexivity.
  - rewrite Hrun. reflexivity.
Defined.

(** * Further properties of the page *)

(** ** Numbers typed into a field *)

Lemma unitsOf_digits (d : Decimal.uint) :
  Forall (fun c => isDecimalDigit c = true) (unitsOf d).
Proof. induction d; constructor; try reflexivity; assumption. Qed.

Lemma leadingDigits_all (s : jsstring) :
  Forall (fun c => isDecimalDigit c = true) s -> leadingDigits s = s.
Proof.
  induction 1 as [|c s Hc _ IH]; [reflexivity|]. cbn [leadingDigits]. rewrite Hc, IH. reflexivity.
Qed.

Lemma digits_acc (d : Decimal.uint) (acc : positive) :
  fold_left (fun a c => (a * 10 + Z.of_N (c - 48))%Z) (unitsOf d) (Z.pos acc)
  = Z.pos (Pos.of_uint_acc d acc).
Proof.
  revert acc. induction d; intros acc; [reflexivity|..];
    cbn [Pos.of_uint_acc]; rewrite <- IHd; unfold unitsOf at 1;
    cbn [NilEmpty.string_of_uint list_ascii_of_string List.map fold_left];
    fold (unitsOf d); f_equal; cbn; lia.
Qed.

Lemma digits_zero (d : Decimal.uint) :
  digitsValue (unitsOf d) = Z.of_N (Pos.of_uint d).
Proof.
  unfold digitsValue. induction d; [reflexivity|..]; cbn [Pos.of_uint];
    unfold unitsOf; cbn [NilEmpty.string_of_uint list_ascii_of_string List.map fold_left];
    fold (unitsOf d); [exact IHd|..]; apply (digits_acc d).
Qed.

Lemma unitsOf_head (d : Decimal.uint) :
  d <> Decimal.Nil ->
  exists c rest, unitsOf d = c :: rest /\ isDecimalDigit c = true.
Proof.
  intros Hd. pose proof (unitsOf_digits d) as Hall.
  destruct (unitsOf d) as [|c rest] eqn:Hu.
  - destruct d; try congruence; discriminate Hu.
  - exists c, rest. split; [reflexivity|]. inversion Hall; assumption.
Qed.

Lemma digit_plain (c : N) :
  isDecimalDigit c = true ->
  JsString.isWhiteSpace c = false /\ (c =? 45) = false /\ (c =? 43) = false.
Proof.
  unfold isDecimalDigit, JsString.isWhiteSpace. intros H.
  apply andb_true_iff in H as [H1 H2]. apply N.leb_le in H1, H2.
  repeat split.
  - repeat (apply orb_false_iff; split); try (apply andb_false_iff);
      try (apply N.eqb_neq; lia).
    + right. apply N.leb_gt. lia.
    + left. apply N.leb_gt. lia.
  - apply N.eqb_neq. lia.
  - apply N.eqb_neq. lia.
Qed.

Lemma parseInt10_all_digits (c : N) (rest : jsstring) :
  Forall (fun c => isDecimalDigit c = true) (c :: rest) ->
  parseInt10 (c :: rest) = Some (digitsValue (c :: rest))
  /\ parseInt10 (45 :: c :: rest) = Some (- digitsValue (c :: rest))%Z.
Proof.
  intros Hall. pose proof (leadingDigits_all _ Hall) as Hlead.
  assert (Hc : isDecimalDigit c = true) by (inversion Hall; assumption).
  destruct (digit_plain c Hc) as (Hws & Hminus & Hplus).
  unfold parseInt10. split.
  - cbn [JsString.trimStart]. rewrite Hws, Hminus, Hplus. cbn [orb].
    rewrite Hlead. f_equal; lia.
  - cbn [JsString.trimStart]. change (JsString.isWhiteSpace 45) with false. cbv iota.
    change (45 =? 45) with true. change (45 =? 43) with false. cbn [orb]. cbv iota.
    rewrite Hlead. f_equal; lia.
Qed.

Lemma parseInt10_digits (d : Decimal.uint) :
  d <> Decimal.Nil ->
  parseInt10 (unitsOf d) = Some (Z.of_N (Pos.of_uint d))
  /\ parseInt10 (45 :: unitsOf d) = Some (- Z.of_N (Pos.of_uint d))%Z.
Proof.
  intros Hd. destruct (unitsOf_head d Hd) as (c & rest & Hu & Hc).
  pose proof (unitsOf_digits d) as Hall. pose proof (digits_zero d) as Hval.
  rewrite Hu in Hall, Hval |- *. rewrite <- Hval.
  apply parseInt10_all_digits. exact Hall.
Qed.

Lemma ofZ_units (p : positive) :
  JsString.ofZ (Z.pos p) = unitsOf (Pos.to_uint p)
  /\ JsString.ofZ (Z.neg p) = 45 :: unitsOf (Pos.to_uint p).
Proof.
  pose proof (DecimalPos.Unsigned.to_uint_nonnil p) as Hd.
  unfold JsString.ofZ, unitsOf. cbn [Z.to_int NilZero.string_of_int].
  unfold NilZero.string_of_uint.
  destruct (Pos.to_uint p); try congruence; split; reflexivity.
Qed.

(** [parseInt(String(n), 10)] is [n]. *)
Lemma parseInt10_ofZ (n : Z) : parseInt10 (JsString.ofZ n) = Some n.
Proof.
  destruct n as [|p|p]; [reflexivity|..];
    destruct (ofZ_units p) as [Hpos Hneg];
    destruct (parseInt10_digits _ (DecimalPos.Unsigned.to_uint_nonnil p)) as [H1 H2];
    rewrite DecimalPos.Unsigned.of_to in H1, H2.
  - rewrite Hpos. exact H1.
  - rewrite Hneg. exact H2.
Qed.

(** ** The settings overlay *)

(** X12: the reminder window set from the field is always between 5 and
    180 minutes: a text without a leading integer changes nothing, an
    integer in the range is taken as it is, and one outside is moved to
    the nearer bound.  Nothing else in the settings changes. *)
Theorem reminder_window_stays_in_range (value : jsstring) (s : Settings.t) :
  let s' := onReminderWindowChange value s in
  (parseInt10 value = None -> s' = s)
  /\ (forall v, parseInt10 value = Some v ->
        (5 <= Settings.reminderWindowMinutes s' <= 180)%Z
        /\ ((5 <= v <= 180)%Z -> Settings.reminderWindowMinutes s' = v)
        /\ ((v < 5)%Z -> Settings.reminderWindowMinutes s' = 5%Z)
        /\ ((180 < v)%Z -> Settings.reminderWindowMinutes s' = 180%Z))
  /\ Settings.tags s' = Settings.tags s
  /\ Settings.defaultPriority s' = Settings.defaultPriority s
  /\ (forall n : Z,
        Settings.reminderWindowMinutes (onReminderWindowChange (JsString.ofZ n) s)
        = Z.min 180 (Z.max 5 n)).
Proof.
  cbv zeta. unfold onReminderWindowChange.
  split; [intros ->; reflexivity|].
  split.
  { intros v ->. cbn [withWindow Settings.reminderWindowMinutes]. lia. }
  split; [destruct (parseInt10 value); reflexivity|].
  split; [destruct (parseInt10 value); reflexivity|].
  intros n. rewrite parseInt10_ofZ. reflexivity.
Qed.

Lemma filter_other_fresh (name : jsstring) (tags : list jsstring) :
  name ∉ tags ->
  List.filter (fun t => negb (bool_decide (t = name))) tags = tags.
Proof.
  induction tags as [|t tags IH]; intros Hfresh; [reflexivity|].
  apply not_elem_of_cons in Hfresh as [Hne Hfresh]. cbn [List.filter].
  rewrite bool_decide_eq_false_2 by congruence. cbn [negb]. rewrite IH by exact Hfresh.
  reflexivity.
Qed.

Lemma filter_other_spec (name t : jsstring) (tags : list jsstring) :
  In t (List.filter (fun t => negb (bool_decide (t = name))) tags) <-> In t tags /\ t <> name.
Proof.
  rewrite filter_In. split; intros [Hin H]; (split; [exact Hin|]).
  - intros ->. rewrite bool_decide_eq_true_2 in H by reflexivity. discriminate H.
  - rewrite bool_decide_eq_false_2 by exact H. reflexivity.
Qed.

(** X13: adding and removing tags keeps the tags distinct.  A blank name
    adds nothing and leaves the whole state as it is; a name that is a
    tag already adds nothing and clears the field; any other name is
    added trimmed, at the end of the list, and the field is cleared.
    Removing a tag takes out that tag and keeps the others in their
    order; and removing a tag that was just added gives back the list as
    it was. *)
Theorem tags_stay_distinct (st : TagState) (name : jsstring) :
  NoDup (Settings.tags (settings st)) ->
  let tags := Settings.tags (settings st) in
  let fresh := JsString.trim (newTag st) in
  let added := Settings.tags (settings (addTag st)) in
  let removed := Settings.tags (settings (removeTag name st)) in
  NoDup added
  /\ (fresh = [] -> addTag st = st)
  /\ (fresh <> [] -> fresh ∈ tags -> added = tags /\ newTag (addTag st) = [])
  /\ (fresh <> [] -> fresh ∉ tags -> added = tags ++ [fresh] /\ newTag (addTag st) = [])
  /\ (fresh <> [] -> fresh ∈ added)
  /\ (forall t, t ∈ tags -> t ∈ added)
  /\ NoDup removed
  /\ (forall t, t ∈ removed <-> t ∈ tags /\ t <> name)
  /\ (forall before after, tags = before ++ name :: after -> removed = before ++ after)
  /\ (name ∉ tags -> removed = tags)
  /\ (fresh ∉ tags ->
      Settings.tags (settings (removeTag fresh (addTag st))) = tags).
Proof.
  intros Hnodup. cbv zeta.
  set (tags := Settings.tags (settings st)) in *.
  set (fresh := JsString.trim (newTag st)).
  assert (Hadded : Settings.tags (settings (addTag st))
                   = match fresh with
                     | [] => tags
                     | _ :: _ => if bool_decide (fresh ∈ tags) then tags else tags ++ [fresh]
                     end).
  { unfold addTag. fold fresh. destruct fresh as [|c f]; [reflexivity|].
    cbn [settings]. fold tags. destruct (bool_decide _); reflexivity. }
  assert (Hfield : fresh <> [] -> newTag (addTag st) = []).
  { unfold addTag. fold fresh. destruct fresh as [|c f]; [congruence|]. reflexivity. }
  assert (Hremoved : Settings.tags (settings (removeTag name st))
                     = List.filter (fun t => negb (bool_decide (t = name))) tags)
    by reflexivity.
  rewrite Hadded, Hremoved.
  split; [|split; [|split; [|split; [|split; [|split; [|split; [|split; [|split; [|split]]]]]]]]].
  - destruct fresh as [|c f]; [exact Hnodup|].
    destruct (bool_decide (c :: f ∈ tags)) eqn:E; [exact Hnodup|].
    apply bool_decide_eq_false in E. apply NoDup_app. split; [exact Hnodup|].
    split; [|apply NoDup_singleton].
    intros x Hx Hin. apply list_elem_of_singleton in Hin. subst x. exact (E Hx).
  - intros Hblank. unfold addTag. fold fresh. rewrite Hblank. reflexivity.
  - intros Hne Hin. split; [|exact (Hfield Hne)].
    destruct fresh as [|c f]; [congruence|].
    rewrite bool_decide_eq_true_2 by exact Hin. reflexivity.
  - intros Hne Hout. split; [|exact (Hfield Hne)].
    destruct fresh as [|c f]; [congruence|].
    rewrite bool_decide_eq_false_2 by exact Hout. reflexivity.
  - intros Hne. destruct fresh as [|c f]; [congruence|].
    destruct (bool_decide (c :: f ∈ tags)) eqn:E.
    + apply bool_decide_eq_true in E. exact E.
    + apply elem_of_app. right. apply list_elem_of_singleton. reflexivity.
  - intros t Ht. destruct fresh as [|c f]; [exact Ht|].
    destruct (bool_decide (c :: f ∈ tags)); [exact Ht|].
    apply elem_of_app. left. exact Ht.
  - apply NoDup_ListNoDup. apply List.NoDup_filter. apply NoDup_ListNoDup. exact Hnodup.
  - intros t. rewrite !list_elem_of_In. apply filter_other_spec.
  - intros before after Hsplit. rewrite Hsplit in Hnodup |- *.
    apply NoDup_app in Hnodup as (Hb & Hcross & Ha).
    apply NoDup_cons in Ha as [Hafter _].
    assert (Hbefore : name ∉ before).
    { intros Hin. apply (Hcross name Hin). left. }
    rewrite List.filter_app. cbn [List.filter].
    rewrite bool_decide_eq_true_2 by reflexivity. cbn [negb].
    rewrite (filter_other_fresh name before Hbefore).
    rewrite (filter_other_fresh name after Hafter). reflexivity.
  - intros Hout. apply filter_other_fresh. exact Hout.
  - intros Hfresh. unfold removeTag. cbn [settings withTags Settings.tags].
    rewrite Hadded. destruct fresh as [|c f] eqn:Ef.
    + apply filter_other_fresh. exact Hfresh.
    + rewrite bool_decide_eq_false_2 by exact Hfresh.
      rewrite List.filter_app. cbn [List.filter].
      rewrite bool_decide_eq_true_2 by reflexivity. cbn [negb].
      rewrite app_nil_r. apply filter_other_fresh. exact Hfresh.
Qed.

(** X14: renaming a tag.  A blank name changes no tag and puts the old
    name back in the field.  Otherwise every occurrence of the old name
    takes the trimmed new name, at its place, and the other tags are
    kept: the list keeps its length, and it is unchanged when the old
    name is not in it.  Distinct tags stay distinct when the new name is
    not a tag yet; renaming a tag to the name of another one leaves a
    duplicate. *)
Theorem rename_keeps_places (oldName value : jsstring) (st : TagState) :
  let name := JsString.trim value in
  let tags := Settings.tags (settings st) in
  let renamed := Settings.tags (settings (updateTag oldName value st)) in
  (name = [] ->
   renamed = tags /\ tagEdits (updateTag oldName value st) !! oldName = Some oldName)
  /\ (name <> [] ->
      List.length renamed = List.length tags
      /\ (forall i t, tags !! i = Some t ->
            renamed !! i = Some (if bool_decide (t = oldName) then name else t))
      /\ (oldName ∉ tags -> renamed = tags)
      /\ (NoDup tags -> name ∉ tags -> NoDup renamed)
      /\ (oldName ∈ tags -> name ∈ tags -> name <> oldName -> ~ NoDup renamed)).
Proof.
  cbv zeta. unfold updateTag.
  set (name := JsString.trim value). set (tags := Settings.tags (settings st)).
  split.
  - intros ->. cbn [settings tagEdits]. split; [reflexivity|]. apply lookup_insert_eq.
  - intros Hne. destruct name as [|c name'] eqn:Ename; [congruence|]. rewrite <- Ename in *.
    cbn [settings withTags Settings.tags]. fold tags.
    change (List.map (fun t => if bool_decide (t = oldName) then name else t) tags)
      with ((fun t => if bool_decide (t = oldName) then name else t) <$> tags).
    set (f := fun t : jsstring => if bool_decide (t = oldName) then name else t).
    split; [apply length_fmap|].
    split; [intros i t Ht; rewrite list_lookup_fmap, Ht; reflexivity|].
    split; [|split].
    + intros Hold. rewrite <- (list_fmap_id tags) at 2. apply list_fmap_ext.
      intros i t Ht. unfold f. rewrite bool_decide_eq_false_2; [reflexivity|].
      intros ->. apply Hold. eapply list_elem_of_lookup_2. exact Ht.
    + intros Hnodup Hfresh. apply NoDup_fmap_2_strong; [|exact Hnodup].
      intros x y Hx Hy. unfold f.
      destruct (bool_decide (x = oldName)) eqn:Ex, (bool_decide (y = oldName)) eqn:Ey.
      * apply bool_decide_eq_true in Ex, Ey. congruence.
      * intros E. subst y. contradiction.
      * intros E. subst x. contradiction.
      * intros E. exact E.
    + intros Hold Hname Hdiff Hnodup.
      apply list_elem_of_lookup_1 in Hold as [i Hi].
      apply list_elem_of_lookup_1 in Hname as [j Hj].
      assert (Hfi : (f <$> tags) !! i = Some name).
      { rewrite list_lookup_fmap, Hi. cbn. unfold f.
        rewrite bool_decide_eq_true_2 by reflexivity. reflexivity. }
      assert (Hfj : (f <$> tags) !! j = Some name).
      { rewrite list_lookup_fmap, Hj. cbn. unfold f.
        rewrite bool_decide_eq_false_2 by exact Hdiff. reflexivity. }
      pose proof (NoDup_lookup _ _ _ _ Hnodup Hfi Hfj) as Hij. subst j.
      rewrite Hi in Hj. congruence.
Qed.

Lemma tags_stay_distinct_witness :
  NoDup (Settings.tags (settings threeTags))
  /\ Settings.tags (settings (addTag threeTags))
     = [js "work"; js "home"; js "clinic"; js "family"]
  /\ NoDup (Settings.tags (settings (addTag threeTags)))
  /\ NoDup (Settings.tags (settings (removeTag (js "home") threeTags))).
Proof.
  assert (Hdistinct : NoDup (Settings.tags (settings threeTags))).
  { apply (bool_decide_unpack (NoDup (Settings.tags (settings threeTags)))).
    vm_compute. exact I. }
  destruct (tags_stay_distinct threeTags (js "home") Hdistinct)
    as (Hadd & _ & _ & _ & _ & _ & Hrem & _).
  split; [exact Hdistinct|]. split; [vm_compute; reflexivity|].
  split; [exact Hadd | exact Hrem].
Defined.

(** ** The manual form and the edit form *)

Lemma reminderOfField_ofZ (n : Z) : reminderOfField (JsString.ofZ n) = Some (Some n).
Proof.
  unfold reminderOfField. rewrite parseInt10_ofZ.
  destruct (JsString.ofZ n) eqn:E; [|reflexivity].
  pose proof (parseInt10_ofZ n) as H. rewrite E in H. discriminate H.
Qed.

Section FormProperties.

Variable Date_parse : jsstring -> option Z.
Variable toISOString : Z -> jsstring.
Variable invalidTime : thrown.

Section ManualProperties.

Variable add : Appointment.t -> option thrown.
Variable now : Z.
Variable current : Settings.t.

Local Abbreviation submitManual :=
  (handleManualSubmit Date_parse toISOString invalidTime add now current).

(** X15: what every run of the manual handler leaves, the reminder field
    being empty or read by [parseInt] as an integer.  A blank title is
    refused before anything else.  With a title, the store is left
    uncalled only when the end time cannot be read; otherwise [add] is
    called once, with a draft whose title is the trimmed, non-empty title
    of the form and whose priority and status are those of the form.
    When [add] throws, that is the only call and its error is shown; when
    [add] returns, the one further call is the fetch of the list, and the
    form is reset to the template.  So the list is fetched exactly when
    [add] returned; on every failure the form is kept as typed; and the
    handler never calls [update]. *)
Theorem manual_submit_outcomes (st st' : ManualUi.t) (calls : list StoreCall) :
  submitManual st = Some (st', calls) ->
  let form := ManualUi.manual st in
  let date := orString (FormModel.date form) (slice 0 10 (toISOString now)) in
  (JsString.trim (FormModel.title form) = [] ->
   calls = [] /\ ManualUi.manualError st' = Some titleRequiredMessage
   /\ ManualUi.errorModal st' = ManualUi.errorModal st)
  /\ (JsString.trim (FormModel.title form) <> [] -> calls = [] ->
      FormModel.endTime form <> []
      /\ Date_parse (date ++ js "T" ++ FormModel.endTime form) = None
      /\ ManualUi.manualError st' = Some (messageOr manualFallback invalidTime))
  /\ (JsString.trim (FormModel.title form) <> [] ->
      endOf Date_parse toISOString invalidTime date (FormModel.endTime form)
      <> Throw invalidTime ->
      exists d, head calls = Some (Add d))
  /\ (forall d, In (Add d) calls ->
        Appointment.title d = JsString.trim (FormModel.title form)
        /\ Appointment.title d <> []
        /\ Appointment.priority d = FormModel.priority form
        /\ Appointment.status d = FormModel.status form
        /\ ((exists err, add d = Some err /\ calls = [Add d]
                         /\ ManualUi.manualError st' = Some (messageOr manualFallback err)
                         /\ ManualUi.errorModal st'
                            = Some (manualModalTitle, messageOr modalFallback err))
            \/ calls = [Add d; Fetch] /\ add d = None))
  /\ (In Fetch calls <-> ManualUi.manualError st' = None)
  /\ (In Fetch calls ->
      (exists d, calls = [Add d; Fetch] /\ add d = None)
      /\ ManualUi.manual st' = getManualTemplate current
      /\ ManualUi.errorModal st' = ManualUi.errorModal st
      /\ ManualUi.manualLoading st' = false)
  /\ (~ In Fetch calls -> ManualUi.manual st' = form)
  /\ (forall id patch, ~ In (Update id patch) calls).
Proof.
  unfold handleManualSubmit. cbv zeta.
  destruct (JsString.trim (FormModel.title (ManualUi.manual st))) as [|c title] eqn:Htitle.
  - intros [= <- <-]. cbn.
    split; [auto|]. split; [congruence|]. split; [congruence|].
    split; [intros d []|]. split; [split; [intros []|discriminate]|].
    split; [intros []|]. split; [reflexivity|]. intros id patch [].
  - destruct (endOf _ _ _ _ _) as [end_at|err] eqn:Hend.
    2:{ assert (Herr : FormModel.endTime (ManualUi.manual st) <> []
                       /\ Date_parse
                            (orString (FormModel.date (ManualUi.manual st))
                               (slice 0 10 (toISOString now))
                             ++ js "T" ++ FormModel.endTime (ManualUi.manual st)) = None
                       /\ err = invalidTime).
        { unfold endOf, isoOf in Hend.
          destruct (FormModel.endTime (ManualUi.manual st)); [discriminate|].
          destruct (Date_parse _); [discriminate|]. cbn in Hend.
          split; [discriminate|]. split; [reflexivity | congruence]. }
        destruct Herr as (Hne & Hnone & ->).
        intros [= <- <-]. cbn.
        split; [discriminate|]. split; [intros _ _; auto|].
        split; [intros _ H; congruence|].
        split; [intros d []|].
        split; [split; [intros []|discriminate]|].
        split; [intros []|]. split; [reflexivity|]. intros id patch []. }
    destruct (draftOfForm _ _ _) as [draft|] eqn:Hdraft; [|discriminate].
    assert (Hfields : Appointment.title draft = c :: title
                      /\ Appointment.priority draft = FormModel.priority (ManualUi.manual st)
                      /\ Appointment.status draft = FormModel.status (ManualUi.manual st)).
    { unfold draftOfForm in Hdraft.
      destruct (reminderOfField _); [|discriminate]. cbn in Hdraft.
      injection Hdraft as <-. cbn. rewrite Htitle. auto. }
    destruct Hfields as (Ht & Hp & Hs).
    cbn [mbind option_bind].
    destruct (add draft) as [err|] eqn:Hadd; intros [= <- <-]; cbn.
    + split; [discriminate|]. split; [intros _ H; discriminate H|].
      split; [intros _ _; exists draft; reflexivity|].
      split.
      { intros d [[= <-]|[]]. rewrite Ht, Hp, Hs.
        split; [reflexivity|]. split; [discriminate|]. split; [reflexivity|].
        split; [reflexivity|]. left. exists err. rewrite Hadd. auto. }
      split; [split; [intros [H|[]]; discriminate H | discriminate]|].
      split; [intros [H|[]]; discriminate H|].
      split; [reflexivity|]. intros id patch [H|[]]; discriminate H.
    + split; [discriminate|]. split; [intros _ H; discriminate H|].
      split; [intros _ _; exists draft; reflexivity|].
      split.
      { intros d [[= <-]|[H|[]]]; [|discriminate H]. rewrite Ht, Hp, Hs.
        split; [reflexivity|]. split; [discriminate|]. split; [reflexivity|].
        split; [reflexivity|]. right. split; [reflexivity | exact Hadd]. }
      split; [split; [reflexivity | intros _; right; left; reflexivity]|].
      split; [intros _; split; [exists draft; auto | auto]|].
      split; [intros H; exfalso; apply H; right; left; reflexivity|].
      intros id patch [H|[H|[]]]; discriminate H.
Qed.

(** X16: an end time that the platform cannot read stops the manual
    handler before the store is called: the [RangeError] of
    [toISOString] is shown, and the form is kept.  (The normalizer of
    assistant replies leaves such an end time out instead.) *)
Theorem manual_unreadable_end_stores_nothing (st : ManualUi.t) :
  let form := ManualUi.manual st in
  let date := orString (FormModel.date form) (slice 0 10 (toISOString now)) in
  JsString.trim (FormModel.title form) <> [] ->
  FormModel.endTime form <> [] ->
  Date_parse (date ++ js "T" ++ FormModel.endTime form) = None ->
  submitManual st
  = Some ({| ManualUi.manual := form;
             ManualUi.manualError := Some (messageOr manualFallback invalidTime);
             ManualUi.manualLoading := false;
             ManualUi.errorModal :=
               Some (manualModalTitle, messageOr modalFallback invalidTime) |}, []).
Proof.
  cbv zeta. intros Htitle Hend Hparse. unfold handleManualSubmit. cbv zeta.
  destruct (JsString.trim (FormModel.title (ManualUi.manual st))); [congruence|].
  unfold endOf, isoOf.
  destruct (FormModel.endTime (ManualUi.manual st)) eqn:E; [congruence|].
  rewrite Hparse. reflexivity.
Qed.

(** X17: a manual appointment saved from the template with nothing but a
    title typed.  Its reminder lead is the reminder window of the
    settings, its priority their default priority, its status
    "scheduled", its tag the first tag of the settings (trimmed, absent
    when blank or when there is no tag); it has no end.  Its start is
    what the platform reads from the first ten characters of the ISO
    print of the current instant, which is its UTC date, followed by
    "T09:00", or the current instant when that cannot be read.  (The
    platform reads such a text as local time, so away from UTC the day
    need not be today.) *)
Theorem template_draft_takes_settings (st : ManualUi.t) (title : jsstring) :
  JsString.trim title <> [] ->
  ManualUi.manual st = onTitleChange title (getManualTemplate current) ->
  exists draft st' rest,
    submitManual st = Some (st', Add draft :: rest)
    /\ Appointment.title draft = JsString.trim title
    /\ Appointment.reminder_minutes_before draft = Some (Settings.reminderWindowMinutes current)
    /\ Appointment.priority draft = Settings.defaultPriority current
    /\ Appointment.status draft = scheduled
    /\ Appointment.tag draft
       = or_undefined (JsString.trim (nullish (head (Settings.tags current)) []))
    /\ Appointment.end_at draft = None
    /\ Appointment.description draft = None
    /\ Appointment.location draft = None
    /\ Appointment.start_at draft
       = toISOString
           (nullish (Date_parse (slice 0 10 (toISOString now) ++ js "T" ++ js "09:00")) now).
Proof.
  intros Htitle Hform. unfold handleManualSubmit. cbv zeta. rewrite Hform.
  cbn [onTitleChange getManualTemplate FormModel.title FormModel.date FormModel.time
       FormModel.endTime orString endOf].
  destruct (JsString.trim title) as [|c t] eqn:Et; [congruence|].
  unfold draftOfForm.
  cbn [onTitleChange getManualTemplate FormModel.reminderMinutes FormModel.title
       FormModel.description FormModel.tag FormModel.priority FormModel.status
       FormModel.location].
  rewrite reminderOfField_ofZ, Et. cbn [mbind option_bind].
  match goal with
  | |- context [add ?d] =>
    exists d; destruct (add d); eexists; eexists; (split; [reflexivity|])
  end.
  all: cbn [Appointment.title Appointment.reminder_minutes_before Appointment.priority
            Appointment.status Appointment.tag Appointment.end_at Appointment.description
            Appointment.location Appointment.start_at].
  all: split; [reflexivity|]; split; [reflexivity|]; split; [reflexivity|].
  all: split; [reflexivity|]; split; [reflexivity|]; split; [reflexivity|].
  all: split; [reflexivity|]; split; [reflexivity|].
  all: destruct (Date_parse _); reflexivity.
Qed.

End ManualProperties.

Section EditProperties.

Variable update : jsstring -> Appointment.t -> option thrown.

Local Abbreviation submitEdit :=
  (handleEditSubmit Date_parse toISOString invalidTime update).
Local Abbreviation formOf := (editFormOf Date_parse toISOString invalidTime).
Local Abbreviation partsOf := (toDateParts Date_parse toISOString invalidTime).

(** X18: what every run of the edit handler leaves, the reminder field
    being empty or read by [parseInt] as an integer.  Without a target it
    does nothing, and a blank title is refused.  With a target and a
    title, the store is left uncalled only when reading the dates throws;
    otherwise [update] is called once, for the target's identifier, with
    a patch whose title is the trimmed, non-empty title of the form.
    When [update] throws, that is the only call and its error is shown;
    when [update] returns, the one further call is the fetch of the list,
    and the edit is closed.  So the list is fetched exactly when [update]
    returned; on every failure the target is kept; the form is always
    kept; and the handler never calls [add]. *)
Theorem edit_submit_outcomes (st st' : EditUi.t) (calls : list StoreCall) :
  submitEdit st = Some (st', calls) ->
  (EditUi.editTarget st = None -> st' = st /\ calls = [])
  /\ (JsString.trim (FormModel.title (EditUi.editForm st)) = [] -> calls = [])
  /\ (forall target, EditUi.editTarget st = Some target ->
        JsString.trim (FormModel.title (EditUi.editForm st)) = [] ->
        EditUi.editError st' = Some titleRequiredMessage
        /\ EditUi.errorModal st' = EditUi.errorModal st)
  /\ (forall target, EditUi.editTarget st = Some target ->
        JsString.trim (FormModel.title (EditUi.editForm st)) <> [] ->
        (calls = [] ->
         exists err,
           editTimes Date_parse toISOString invalidTime target (EditUi.editForm st)
           = Throw err
           /\ EditUi.editError st' = Some (messageOr editFallback err))
        /\ (forall times,
              editTimes Date_parse toISOString invalidTime target (EditUi.editForm st)
              = Return times ->
              exists patch, head calls = Some (Update (Item.id target) patch)))
  /\ (forall id patch, In (Update id patch) calls ->
        (exists target, EditUi.editTarget st = Some target /\ id = Item.id target)
        /\ Appointment.title patch = JsString.trim (FormModel.title (EditUi.editForm st))
        /\ Appointment.title patch <> []
        /\ ((exists err, update id patch = Some err /\ calls = [Update id patch]
                         /\ EditUi.editError st' = Some (messageOr editFallback err)
                         /\ EditUi.errorModal st'
                            = Some (editModalTitle, messageOr modalFallback err))
            \/ calls = [Update id patch; Fetch] /\ update id patch = None))
  /\ (In Fetch calls ->
      (exists id patch, calls = [Update id patch; Fetch] /\ update id patch = None)
      /\ EditUi.editTarget st' = None /\ EditUi.editError st' = None
      /\ EditUi.editLoading st' = false
      /\ EditUi.errorModal st' = EditUi.errorModal st)
  /\ (~ In Fetch calls -> EditUi.editTarget st' = EditUi.editTarget st)
  /\ EditUi.editForm st' = EditUi.editForm st
  /\ (forall d, ~ In (Add d) calls).
Proof.
  unfold handleEditSubmit.
  destruct (EditUi.editTarget st) as [target|] eqn:Htarget.
  2:{ intros [= <- <-]. split; [auto|]. split; [auto|].
      split; [intros t H; discriminate H|]. split; [intros t H; discriminate H|].
      split; [intros id patch []|].
      split; [intros []|]. split; [intros _; exact Htarget|]. split; [reflexivity|].
      intros d []. }
  cbv zeta.
  destruct (JsString.trim (FormModel.title (EditUi.editForm st))) as [|c title] eqn:Htitle.
  { intros [= <- <-]. cbn. split; [discriminate|]. split; [auto|].
    split; [intros t _ _; auto|]. split; [intros t _ H; congruence|].
    split; [intros id patch []|]. split; [intros []|]. split; [auto|].
    split; [reflexivity|]. intros d []. }
  destruct (editTimes _ _ _ _ _) as [[start_at end_at]|err] eqn:Htimes.
  2:{ intros [= <- <-]. cbn. split; [discriminate|]. split; [discriminate|].
      split; [intros t _ H; discriminate H|].
      split.
      { intros t [= <-] _. split.
        - intros _. exists err. rewrite Htimes. auto.
        - intros times H. rewrite Htimes in H. discriminate H. }
      split; [intros id patch []|]. split; [intros []|]. split; [auto|].
      split; [reflexivity|]. intros d []. }
  destruct (draftOfForm _ _ _) as [patch|] eqn:Hpatch; [|discriminate].
  assert (Ht : Appointment.title patch = c :: title).
  { unfold draftOfForm in Hpatch. destruct (reminderOfField _); [|discriminate].
    cbn in Hpatch. injection Hpatch as <-. cbn. exact Htitle. }
  cbn [mbind option_bind].
  destruct (update (Item.id target) patch) as [err|] eqn:Hupdate; intros [= <- <-]; cbn.
  - split; [discriminate|]. split; [discriminate|].
    split; [intros t _ H; discriminate H|].
    split.
    { intros t [= <-] _. split; [intros H; discriminate H|].
      intros times _. exists patch. reflexivity. }
    split.
    { intros id p [[= <- <-]|[]]. split; [exists target; auto|]. rewrite Ht.
      split; [reflexivity|]. split; [discriminate|]. left.
      exists err. rewrite Hupdate. auto. }
    split; [intros [H|[]]; discriminate H|]. split; [auto|]. split; [reflexivity|].
    intros d [H|[]]; discriminate H.
  - split; [discriminate|]. split; [discriminate|].
    split; [intros t _ H; discriminate H|].
    split.
    { intros t [= <-] _. split; [intros H; discriminate H|].
      intros times _. exists patch. reflexivity. }
    split.
    { intros id p [[= <- <-]|[H|[]]]; [|discriminate H].
      split; [exists target; auto|]. rewrite Ht.
      split; [reflexivity|]. split; [discriminate|]. right.
      split; [reflexivity | exact Hupdate]. }
    split; [intros _; split; [exists (Item.id target), patch; auto | auto]|].
    split; [intros H; exfalso; apply H; right; left; reflexivity|].
    split; [reflexivity|]. intros d [H|[H|[]]]; discriminate H.
Qed.

(** X19: an appointment opened in the edit form and saved untouched.  The
    patch keeps the identifier, the priority and the status; title,
    description, location and tag are trimmed, and absent when blank; a
    reminder lead other than zero is kept, while a lead of zero comes
    back absent.  The start is read again from the date and the time of
    day (to the minute) that the form shows, and is the stored start
    when they cannot be read.  Before the store is called, the only
    failure left is an end time that cannot be read. *)
Theorem edit_untouched_patch (st : EditUi.t) (a : Item.t) (form : FormModel.t) :
  formOf a = Return form ->
  EditUi.editTarget st = Some a ->
  EditUi.editForm st = form ->
  JsString.trim (Appointment.title (Item.fields a)) <> [] ->
  let f := Item.fields a in
  exists st' calls,
    submitEdit st = Some (st', calls)
    /\ (calls = [] -> EditUi.editError st' = Some (messageOr editFallback invalidTime))
    /\ (forall id patch, In (Update id patch) calls ->
          id = Item.id a
          /\ Appointment.title patch = JsString.trim (Appointment.title f)
          /\ Appointment.priority patch = Appointment.priority f
          /\ Appointment.status patch = Appointment.status f
          /\ Appointment.description patch
             = or_undefined (JsString.trim (nullish (Appointment.description f) []))
          /\ Appointment.location patch
             = or_undefined (JsString.trim (nullish (Appointment.location f) []))
          /\ Appointment.tag patch
             = or_undefined (JsString.trim (nullish (Appointment.tag f) []))
          /\ Appointment.reminder_minutes_before patch
             = (if truthy_number (Appointment.reminder_minutes_before f)
                then Appointment.reminder_minutes_before f else None)
          /\ Appointment.start_at patch
             = match Date_parse (FormModel.date form ++ js "T" ++ FormModel.time form) with
               | Some t => toISOString t
               | None => Appointment.start_at f
               end).
Proof.
  intros Hform Htarget Hst Htitle. cbv zeta.
  unfold editFormOf in Hform.
  destruct (partsOf (Item.fields a)) as [[[date time] endTime]|err] eqn:Hparts;
    [|discriminate]. cbn [bind] in Hform. injection Hform as Hform.
  assert (Hreminder : reminderOfField (FormModel.reminderMinutes form)
                      = Some (if truthy_number (Appointment.reminder_minutes_before (Item.fields a))
                              then Appointment.reminder_minutes_before (Item.fields a)
                              else None)).
  { rewrite <- Hform. cbn [FormModel.reminderMinutes].
    destruct (Appointment.reminder_minutes_before (Item.fields a)) as [n|]; [|reflexivity].
    cbn [truthy_number nullish]. destruct (negb (n =? 0)%Z); [|reflexivity].
    apply reminderOfField_ofZ. }
  unfold handleEditSubmit. rewrite Htarget, Hst. cbv zeta.
  assert (Hft : FormModel.title form = Appointment.title (Item.fields a))
    by (rewrite <- Hform; reflexivity).
  rewrite Hft.
  destruct (JsString.trim (Appointment.title (Item.fields a))) as [|c t] eqn:Et;
    [congruence|].
  unfold editTimes. rewrite Hparts. cbn [bind].
  assert (Hdate : orString (FormModel.date form) date = FormModel.date form).
  { rewrite <- Hform. cbn. destruct date; reflexivity. }
  assert (Htime : orString (FormModel.time form) time = FormModel.time form).
  { rewrite <- Hform. cbn. destruct time; reflexivity. }
  rewrite Hdate, Htime.
  destruct (endOf _ _ _ _ _) as [end_at|err] eqn:Hend.
  2:{ cbn [bind]. eexists. eexists. split; [reflexivity|].
      assert (Herr : err = invalidTime).
      { unfold endOf, isoOf in Hend. destruct (FormModel.endTime form); [discriminate|].
        destruct (Date_parse _); [discriminate|]. cbn in Hend. congruence. }
      subst err. split; [reflexivity|]. intros id patch []. }
  cbn [bind]. unfold draftOfForm. rewrite Hreminder. cbn [mbind option_bind].
  match goal with
  | |- context [update ?i ?p] =>
    assert (Hpatch :
      Appointment.title p = c :: t
      /\ Appointment.priority p = Appointment.priority (Item.fields a)
      /\ Appointment.status p = Appointment.status (Item.fields a)
      /\ Appointment.description p
         = or_undefined (JsString.trim (nullish (Appointment.description (Item.fields a)) []))
      /\ Appointment.location p
         = or_undefined (JsString.trim (nullish (Appointment.location (Item.fields a)) []))
      /\ Appointment.tag p
         = or_undefined (JsString.trim (nullish (Appointment.tag (Item.fields a)) []))
      /\ Appointment.reminder_minutes_before p
         = (if truthy_number (Appointment.reminder_minutes_before (Item.fields a))
            then Appointment.reminder_minutes_before (Item.fields a) else None)
      /\ Appointment.start_at p
         = match Date_parse (FormModel.date form ++ js "T" ++ FormModel.time form) with
           | Some t => toISOString t
           | None => Appointment.start_at (Item.fields a)
           end);
    [|destruct (update i p); eexists; eexists; (split; [reflexivity|]);
      (split; [discriminate|])]
  end.
  { cbn [Appointment.title Appointment.priority Appointment.status Appointment.description
         Appointment.location Appointment.tag Appointment.reminder_minutes_before
         Appointment.start_at].
    rewrite Hft, Et. rewrite <- Hform at 1 2 3 4 5.
    cbn [FormModel.priority FormModel.status FormModel.description FormModel.location
         FormModel.tag].
    split; [reflexivity|]. split; [reflexivity|]. split; [reflexivity|].
    split; [reflexivity|]. split; [reflexivity|]. split; [reflexivity|].
    split; reflexivity. }
  - intros id p [[= <- <-]|[]]. split; [reflexivity | exact Hpatch].
  - intros id p [[= <- <-]|[H|[]]]; [|discriminate H]. split; [reflexivity | exact Hpatch].
Qed.

End EditProperties.

End FormProperties.

(** ** Reminders *)

Lemma head_insertByDiff (u : Upcoming) (sorted : list Upcoming) :
  head (insertByDiff u sorted)
  = match head sorted with
    | Some x => if (diffOf u <=? diffOf x)%Z then Some u else Some x
    | None => Some u
    end.
Proof.
  destruct sorted as [|x rest]; [reflexivity|]. cbn [insertByDiff head].
  destruct (diffOf u <=? diffOf x)%Z; reflexivity.
Qed.

(** The head of the sorted array is the first of the elements of the
    smallest distance. *)
Lemma head_sortByDiff (l : list Upcoming) (u : Upcoming) :
  head (sortByDiff l) = Some u ->
  exists before after,
    l = before ++ u :: after
    /\ Forall (fun x => (diffOf u < diffOf x)%Z) before
    /\ Forall (fun x => (diffOf u <= diffOf x)%Z) after.
Proof.
  revert u. induction l as [|x l IH]; intros u; [discriminate|].
  cbn [sortByDiff fold_right]. fold (sortByDiff l). rewrite head_insertByDiff.
  destruct (head (sortByDiff l)) as [y|] eqn:Hy.
  - destruct (IH y eq_refl) as (before & after & -> & Hb & Ha).
    destruct (diffOf x <=? diffOf y)%Z eqn:E; intros [= <-].
    + apply Z.leb_le in E. exists [], (before ++ y :: after).
      split; [reflexivity|]. split; [constructor|].
      apply Forall_app. split.
      * eapply Forall_impl; [exact Hb|]. intros z Hz. cbn in Hz. lia.
      * constructor; [exact E|]. eapply Forall_impl; [exact Ha|]. intros z Hz. cbn in Hz. lia.
    + apply Z.leb_gt in E. exists (x :: before), after.
      split; [reflexivity|]. split; [constructor; [lia | exact Hb] | exact Ha].
  - intros [= <-]. destruct l as [|z l].
    + exists [], []. split; [reflexivity|]. split; constructor.
    + exfalso. cbn [sortByDiff fold_right] in Hy. fold (sortByDiff l) in Hy.
      rewrite head_insertByDiff in Hy. destruct (head (sortByDiff l)) as [w|].
      * destruct (diffOf z <=? diffOf w)%Z; discriminate Hy.
      * discriminate Hy.
Qed.

Lemma head_sortByDiff_none (l : list Upcoming) : head (sortByDiff l) = None -> l = [].
Proof.
  destruct l as [|x l]; [reflexivity|]. cbn [sortByDiff fold_right]. fold (sortByDiff l).
  rewrite head_insertByDiff. destruct (head (sortByDiff l)) as [y|].
  - destruct (diffOf x <=? diffOf y)%Z; discriminate.
  - discriminate.
Qed.

Lemma minutesOf_bounds (d w : Z) :
  (0 < d <= w * 60 * 1000)%Z -> (1 <= minutesOf d <= w)%Z.
Proof.
  intros [Hpos Hle]. unfold minutesOf.
  assert (Hq : ((d + 30000) / 60000 <= w)%Z).
  { apply Z.lt_succ_r. apply Z.div_lt_upper_bound; lia. }
  lia.
Qed.

Section ReminderProperties.

Variable Date_parse : jsstring -> option Z.

Local Abbreviation due := (due Date_parse).

Lemma inWindow_due (now : Z) (current : Settings.t) (items : list Item.t) (u : Upcoming) :
  In u (List.filter inWindow
          (List.map (upcomingOf Date_parse now current) (List.filter isScheduled items)))
  <-> exists a t, u = upcomingOf Date_parse now current a /\ In a items
                  /\ due now current a t.
Proof.
  rewrite filter_In, in_map_iff. split.
  - intros [(a & <- & Ha) Hin]. apply filter_In in Ha as [Ha Hs].
    unfold inWindow, upcomingOf in Hin. cbn [diff windowMinutes] in Hin.
    destruct (Date_parse _) as [t|] eqn:Ht; [|discriminate]. cbn in Hin.
    apply andb_true_iff in Hin as [H1 H2]. apply Z.ltb_lt in H1. apply Z.leb_le in H2.
    exists a, t. split; [unfold upcomingOf; rewrite Ht; reflexivity|].
    split; [exact Ha|]. split; [exact Hs|]. split; [exact Ht | lia].
  - intros (a & t & -> & Ha & Hs & Ht & Hd). split.
    + exists a. split; [reflexivity|]. apply filter_In. split; assumption.
    + unfold inWindow, upcomingOf. cbn [diff windowMinutes]. rewrite Ht. cbn.
      apply andb_true_iff. split; [apply Z.ltb_lt | apply Z.leb_le]; lia.
Qed.

(** What the timer shows is due, and the minutes are those of its
    distance. *)
Lemma tick_shows_due (now : Z) (current : Settings.t) (items : list Item.t) (a : Item.t) :
  nextReminder (tick Date_parse now current items) = Some a ->
  exists t,
    In a items /\ due now current a t
    /\ minutesToReminder (tick Date_parse now current items) = Some (minutesOf (t - now)).
Proof.
  unfold tick, upcoming.
  destruct (head (sortByDiff _)) as [u|] eqn:Hhead; [|discriminate].
  cbn [nextReminder minutesToReminder]. intros [= <-].
  destruct (head_sortByDiff _ _ Hhead) as (ubefore & uafter & Hsplit & _).
  assert (Hin : In u (ubefore ++ u :: uafter)) by apply in_elt.
  rewrite <- Hsplit in Hin.
  destruct (proj1 (inWindow_due now current items u) Hin) as (a & t & -> & Hitems & Hdue).
  exists t. cbn [upcomingOf appt]. split; [exact Hitems|]. split; [exact Hdue|].
  unfold diffOf, upcomingOf. cbn [diff]. destruct Hdue as (_ & -> & _). reflexivity.
Qed.

(** X20: the next reminder is the soonest appointment that is due.  The
    appointment that a run of the timer shows is one of the list that is
    scheduled and starts ahead, within its own window (its reminder lead,
    or the window of the settings when it has none); no other such
    appointment starts sooner, and among those that start at the same
    instant it is the first of the list.  The minutes shown are the
    distance rounded to the minute, at least 1 and at most the window.
    The timer shows nothing exactly when no appointment is due. *)
Theorem next_reminder_is_soonest (now : Z) (current : Settings.t) (items : list Item.t) :
  let r := tick Date_parse now current items in
  (forall a, nextReminder r = Some a ->
     exists t before after,
       items = before ++ a :: after
       /\ due now current a t
       /\ minutesToReminder r = Some (minutesOf (t - now))
       /\ (1 <= minutesOf (t - now) <= windowOf current a)%Z
       /\ (forall b tb, In b before -> due now current b tb -> (t < tb)%Z)
       /\ (forall b tb, In b after -> due now current b tb -> (t <= tb)%Z))
  /\ (nextReminder r = None <-> forall b tb, In b items -> ~ due now current b tb)
  /\ (nextReminder r = None <-> minutesToReminder r = None).
Proof.
  cbv zeta. unfold tick, upcoming.
  set (dues := List.filter inWindow
                 (List.map (upcomingOf Date_parse now current)
                    (List.filter isScheduled items))).
  destruct (head (sortByDiff dues)) as [u|] eqn:Hhead.
  - cbn [nextReminder minutesToReminder].
    destruct (head_sortByDiff _ _ Hhead) as (ubefore & uafter & Hsplit & Hb & Ha).
    assert (Hin : In u dues) by (rewrite Hsplit; apply in_elt).
    destruct (proj1 (inWindow_due now current items u) Hin) as (a & t & Hu & Hitems & Hdue).
    assert (Hdiff : diffOf u = (t - now)%Z).
    { rewrite Hu. unfold diffOf, upcomingOf. cbn [diff].
      destruct Hdue as (_ & -> & _). reflexivity. }
    assert (Happt : appt u = a) by (rewrite Hu; reflexivity).
    split; [|split; [split; [discriminate|] | split; discriminate]].
    + intros a' [= <-]. rewrite Happt, Hdiff.
      (* the place of [a] in the list is read off the place of [u] *)
      assert (Hplace : exists before after,
                 items = before ++ a :: after
                 /\ (forall b tb, In b before -> due now current b tb ->
                       In (upcomingOf Date_parse now current b) ubefore)
                 /\ (forall b tb, In b after -> due now current b tb ->
                       In (upcomingOf Date_parse now current b) uafter)).
      { clear Hhead Hb Ha Hin Hitems Hdiff Happt. subst dues.
        revert ubefore Hsplit. induction items as [|x items' IH]; intros ubefore Hsplit.
        - destruct ubefore; discriminate Hsplit.
        - cbn [List.filter] in Hsplit. destruct (isScheduled x) eqn:Hx.
          2:{ destruct (IH ubefore Hsplit) as (before & after & -> & Hbef & Haft).
              exists (x :: before), after. split; [reflexivity|]. split; [|exact Haft].
              intros b tb [<-|Hbin] Hdb; [|exact (Hbef b tb Hbin Hdb)].
              destruct Hdb as (Hs & _). congruence. }
          cbn [List.map List.filter] in Hsplit.
          destruct (inWindow (upcomingOf Date_parse now current x)) eqn:Hw.
          2:{ destruct (IH ubefore Hsplit) as (before & after & -> & Hbef & Haft).
              exists (x :: before), after. split; [reflexivity|]. split; [|exact Haft].
              intros b tb [<-|Hbin] Hdb; [|exact (Hbef b tb Hbin Hdb)].
              exfalso. destruct Hdb as (_ & Ht & Hd).
              unfold inWindow, upcomingOf in Hw. cbn [diff windowMinutes] in Hw.
              rewrite Ht in Hw. cbn in Hw.
              apply andb_false_iff in Hw as [Hw|Hw];
                [apply Z.ltb_ge in Hw | apply Z.leb_gt in Hw]; lia. }
          destruct ubefore as [|v ubefore].
          + cbn [app] in Hsplit. injection Hsplit as Hx' Hrest.
            exists [], items'. split.
            { rewrite Hu in Hx'. unfold upcomingOf in Hx'.
              injection Hx' as Hx' _ _. rewrite Hx'. reflexivity. }
            split; [intros b tb []|].
            intros b tb Hbin Hdb. rewrite <- Hrest.
            apply (inWindow_due now current items'). exists b, tb. auto.
          + cbn [app] in Hsplit. injection Hsplit as Hx' Hrest.
            destruct (IH ubefore Hrest) as (before & after & -> & Hbef & Haft).
            exists (x :: before), after. split; [reflexivity|]. split; [|exact Haft].
            intros b tb [<-|Hbin] Hdb.
            * left. symmetry. exact Hx'.
            * right. exact (Hbef b tb Hbin Hdb). }
      destruct Hplace as (before & after & Hlist & Hbef & Haft).
      exists t, before, after. split; [exact Hlist|]. split; [exact Hdue|].
      split; [reflexivity|].
      split; [apply minutesOf_bounds; destruct Hdue as (_ & _ & Hd); exact Hd|].
      split.
      * intros b tb Hbin Hdb. pose proof (Hbef b tb Hbin Hdb) as Hub.
        rewrite List.Forall_forall in Hb. specialize (Hb _ Hub).
        rewrite Hdiff in Hb. unfold diffOf, upcomingOf in Hb. cbn [diff] in Hb.
        destruct Hdb as (_ & Htb & _). rewrite Htb in Hb. cbn in Hb. lia.
      * intros b tb Hbin Hdb. pose proof (Haft b tb Hbin Hdb) as Hub.
        rewrite List.Forall_forall in Ha. specialize (Ha _ Hub).
        rewrite Hdiff in Ha. unfold diffOf, upcomingOf in Ha. cbn [diff] in Ha.
        destruct Hdb as (_ & Htb & _). rewrite Htb in Ha. cbn in Ha. lia.
    + intros Hnone. exfalso. exact (Hnone a t Hitems Hdue).
  - cbn [nextReminder minutesToReminder].
    apply head_sortByDiff_none in Hhead.
    split; [discriminate|]. split; [|split; reflexivity].
    split; [|reflexivity]. intros _ b tb Hbin Hdb.
    assert (Hin : In (upcomingOf Date_parse now current b) dues).
    { apply inWindow_due. exists b, tb. auto. }
    rewrite Hhead in Hin. exact Hin.
Qed.

(** X22: a signal is given only inside both windows.  When the
    notification effect gives a signal after a run of the timer, the
    appointment shown is due, it was not signalled before, and its
    distance in minutes is at most the window of the settings as well as
    at most its own window: a reminder lead longer than the window of
    the settings shows the appointment earlier but does not signal it
    earlier. *)
Theorem signal_only_within_both_windows (now : Z) (current : Settings.t)
    (items : list Item.t) (tone : ToneName) (granted : bool) (notified : gset jsstring) :
  let r := tick Date_parse now current items in
  snd (notify current tone granted r notified) <> [] ->
  exists a t,
    nextReminder r = Some a
    /\ In a items
    /\ due now current a t
    /\ (minutesOf (t - now) <= Settings.reminderWindowMinutes current)%Z
    /\ (minutesOf (t - now) <= windowOf current a)%Z
    /\ Item.id a ∉ notified.
Proof.
  cbv zeta. intros Hsignal.
  pose proof (tick_shows_due now current items) as Hsome.
  unfold notify in Hsignal.
  destruct (nextReminder (tick Date_parse now current items)) as [a|] eqn:Hnext;
    [|contradiction].
  destruct (Hsome a eq_refl) as (t & Hitems & Hdue & Hmin).
  pose proof (minutesOf_bounds _ _ (proj2 (proj2 Hdue))) as Hbounds.
  rewrite Hmin in Hsignal.
  destruct (Settings.reminderWindowMinutes current <? minutesOf (t - now))%Z eqn:Hw;
    [contradiction|].
  destruct (bool_decide (Item.id a ∈ notified)) eqn:Hid; [contradiction|].
  apply Z.ltb_ge in Hw. apply bool_decide_eq_false in Hid.
  exists a, t. split; [reflexivity|]. split; [exact Hitems|].
  split; [exact Hdue|]. split; [exact Hw|]. split; [lia | exact Hid].
Qed.

End ReminderProperties.

(** X21: the notification effect signals an appointment once.  It gives
    a signal exactly when a reminder is shown whose minutes are within
    the window of the settings and whose identifier is not in the set of
    notified identifiers; it then adds the identifier and plays the tone
    first, and it notifies only when the permission is granted.  Without a
    signal the set is unchanged, and a second run on the set it left
    gives no signal. *)
Theorem notification_given_once (current : Settings.t) (tone : ToneName) (granted : bool)
    (r : ReminderState) (notified : gset jsstring) :
  let out := notify current tone granted r notified in
  notified ⊆ fst out
  /\ (snd out <> [] <->
      exists a m, nextReminder r = Some a /\ minutesToReminder r = Some m
                  /\ (m <= Settings.reminderWindowMinutes current)%Z
                  /\ Item.id a ∉ notified)
  /\ (snd out <> [] ->
      exists a, nextReminder r = Some a /\ fst out = {[ Item.id a ]} ∪ notified
                /\ head (snd out) = Some (Played tone))
  /\ (snd out = [] -> fst out = notified)
  /\ (forall t b g, In (Notified t b g) (snd out) -> granted = true)
  /\ snd (notify current tone granted r (fst out)) = []
  /\ (List.length (snd out) <= 2)%nat.
Proof.
  cbv zeta. unfold notify.
  destruct (nextReminder r) as [a|].
  2:{ cbn. split; [reflexivity|]. split; [split; [congruence|]|].
      { intros (a & m & H & _). discriminate H. }
      split; [congruence|]. split; [reflexivity|]. split; [intros t b g []|].
      split; [reflexivity | lia]. }
  destruct (minutesToReminder r) as [m|].
  2:{ cbn. split; [reflexivity|]. split; [split; [congruence|]|].
      { intros (a' & m & _ & H & _). discriminate H. }
      split; [congruence|]. split; [reflexivity|]. split; [intros t b g []|].
      split; [reflexivity | lia]. }
  destruct (Settings.reminderWindowMinutes current <? m)%Z eqn:Hw.
  { apply Z.ltb_lt in Hw. cbn [fst snd].
    split; [reflexivity|]. split; [split; [congruence|]|].
    { intros (a' & m' & _ & [= <-] & Hle & _). lia. }
    split; [congruence|]. split; [reflexivity|]. split; [intros t b g []|].
    split; [reflexivity | cbn; lia]. }
  destruct (bool_decide (Item.id a ∈ notified)) eqn:Hid.
  { apply bool_decide_eq_true in Hid. cbn [fst snd].
    rewrite (bool_decide_eq_true_2 _ Hid).
    split; [reflexivity|]. split; [split; [congruence|]|].
    { intros (a' & m' & [= <-] & _ & _ & Hfresh). contradiction. }
    split; [congruence|]. split; [reflexivity|]. split; [intros t b g []|].
    split; [reflexivity | cbn; lia]. }
  apply bool_decide_eq_false in Hid. apply Z.ltb_ge in Hw. cbn [fst snd].
  split; [set_solver|].
  split; [split; [intros _; exists a, m; auto | discriminate]|].
  split; [intros _; exists a; auto|].
  split; [discriminate|].
  split.
  { intros t b g [H|H]; [discriminate H|]. destruct granted; [reflexivity | destruct H]. }
  split.
  - rewrite bool_decide_eq_true_2 by set_solver. reflexivity.
  - destruct granted; cbn; lia.
Qed.

(** X23: the set of notified identifiers follows the list.  After the
    effect on the list, an identifier is left exactly when it was there
    and belongs to an appointment that is scheduled; so once the list
    holds no scheduled appointment of an identifier, a reminder shown
    for it within the window of the settings is signalled again. *)
Theorem prune_rearms_notification (items : list Item.t) (notified : gset jsstring) :
  (forall id, id ∈ prune items notified <->
     id ∈ notified /\ exists a, In a items /\ isScheduled a = true /\ Item.id a = id)
  /\ (forall current tone granted r a m,
        nextReminder r = Some a ->
        minutesToReminder r = Some m ->
        (m <= Settings.reminderWindowMinutes current)%Z ->
        (forall b, In b items -> Item.id b = Item.id a -> isScheduled b = false) ->
        snd (notify current tone granted r (prune items notified)) <> []).
Proof.
  assert (Hprune : forall id, id ∈ prune items notified <->
            id ∈ notified /\ exists a, In a items /\ isScheduled a = true /\ Item.id a = id).
  { intros id. unfold prune. rewrite elem_of_filter, elem_of_list_to_set.
    rewrite list_elem_of_In, in_map_iff. split.
    - intros [(a & <- & Ha) Hin]. apply filter_In in Ha as [Ha Hs].
      split; [exact Hin|]. exists a. auto.
    - intros [Hin (a & Ha & Hs & <-)]. split; [|exact Hin].
      exists a. split; [reflexivity|]. apply filter_In. auto. }
  split; [exact Hprune|].
  intros current tone granted r a m Hnext Hmin Hle Hgone.
  unfold notify. rewrite Hnext, Hmin.
  rewrite (proj2 (Z.ltb_ge _ _) Hle).
  rewrite bool_decide_eq_false_2; [discriminate|].
  intros Hin. apply Hprune in Hin as [_ (b & Hb & Hs & Hid)].
  rewrite (Hgone b Hb Hid) in Hs. discriminate Hs.
Qed.

(** ** The handlers of the page on the reference platform *)

Lemma manual_submit_outcomes_witness :
  exists st' draft,
    handleManualSubmit Reference.Date_parse Reference.toISOString referenceInvalidTime
      acceptAll (Reference.clock 0) defaultSettings (manualUi dentistForm)
    = Some (st', [Add draft; Fetch])
    /\ Appointment.title draft = js "Dentist"
    /\ ManualUi.manual st' = getManualTemplate defaultSettings.
Proof.
  eexists. eexists. split; [vm_compute; reflexivity|].
  match goal with
  | |- Appointment.title ?d = _ /\ ManualUi.manual ?s = _ =>
    destruct (manual_submit_outcomes Reference.Date_parse Reference.toISOString
                referenceInvalidTime acceptAll (Reference.clock 0) defaultSettings
                (manualUi dentistForm) s [Add d; Fetch])
      as (_ & _ & _ & Hadd & _ & Hfetch & _); [vm_compute; reflexivity|];
    destruct (Hadd d (or_introl eq_refl)) as (Htitle & _);
    destruct (Hfetch (or_intror (or_introl eq_refl))) as (_ & Hform & _)
  end.
  split; [rewrite Htitle; vm_compute; reflexivity | exact Hform].
Defined.

Lemma manual_unreadable_end_stores_nothing_witness :
  handleManualSubmit Reference.Date_parse Reference.toISOString referenceInvalidTime
    acceptAll (Reference.clock 0) defaultSettings
    (manualUi (withEndTime (js "25:00") dentistForm))
  = Some ({| ManualUi.manual := withEndTime (js "25:00") dentistForm;
             ManualUi.manualError := Some (js "Invalid time value");
             ManualUi.manualLoading := false;
             ManualUi.errorModal := Some (manualModalTitle, js "Invalid time value") |}, []).
Proof.
  apply (manual_unreadable_end_stores_nothing Reference.Date_parse Reference.toISOString
           referenceInvalidTime acceptAll (Reference.clock 0) defaultSettings
           (manualUi (withEndTime (js "25:00") dentistForm))).
  - vm_compute. discriminate.
  - vm_compute. discriminate.
  - vm_compute. reflexivity.
Defined.

Lemma template_draft_takes_settings_witness :
  exists draft st' rest,
    handleManualSubmit Reference.Date_parse Reference.toISOString referenceInvalidTime
      acceptAll (Reference.clock 0) (settings threeTags)
      (manualUi (onTitleChange (js "Dentist") (getManualTemplate (settings threeTags))))
    = Some (st', Add draft :: rest)
    /\ Appointment.reminder_minutes_before draft = Some 15%Z
    /\ Appointment.tag draft = Some (js "work").
Proof.
  destruct (template_draft_takes_settings Reference.Date_parse Reference.toISOString
              referenceInvalidTime acceptAll (Reference.clock 0) (settings threeTags)
              (manualUi (onTitleChange (js "Dentist") (getManualTemplate (settings threeTags))))
              (js "Dentist"))
    as (draft & st' & rest & Hrun & _ & Hreminder & _ & _ & Htag & _).
  - vm_compute. discriminate.
  - reflexivity.
  - exists draft, st', rest. split; [exact Hrun|]. split; [exact Hreminder|].
    rewrite Htag. vm_compute. reflexivity.
Defined.

Lemma edit_submit_outcomes_witness :
  exists st' patch,
    handleEditSubmit Reference.Date_parse Reference.toISOString referenceInvalidTime
      updateAll (editUi storedCheckup dentistForm)
    = Some (st', [Update (js "a1") patch; Fetch])
    /\ Appointment.title patch = js "Dentist"
    /\ EditUi.editTarget st' = None.
Proof.
  eexists. eexists. split; [vm_compute; reflexivity|].
  match goal with
  | |- Appointment.title ?p = _ /\ EditUi.editTarget ?s = _ =>
    destruct (edit_submit_outcomes Reference.Date_parse Reference.toISOString
                referenceInvalidTime updateAll (editUi storedCheckup dentistForm)
                s [Update (js "a1") p; Fetch])
      as (_ & _ & _ & _ & Hupdate & Hfetch & _); [vm_compute; reflexivity|];
    destruct (Hupdate (js "a1") p (or_introl eq_refl)) as (_ & Htitle & _);
    destruct (Hfetch (or_intror (or_introl eq_refl))) as (_ & Hclosed & _)
  end.
  split; [rewrite Htitle; vm_compute; reflexivity | exact Hclosed].
Defined.

Lemma edit_untouched_patch_witness :
  editFormOf Reference.Date_parse Reference.toISOString referenceInvalidTime storedCheckup
  = Return checkupForm
  /\ exists st' patch,
       handleEditSubmit Reference.Date_parse Reference.toISOString referenceInvalidTime
         updateAll (editUi storedCheckup checkupForm)
       = Some (st', [Update (js "a1") patch; Fetch])
       /\ Appointment.title patch = js "Checkup"
       /\ Appointment.reminder_minutes_before (Item.fields storedCheckup) = Some 0%Z
       /\ Appointment.reminder_minutes_before patch = None.
Proof.
  assert (Hform : editFormOf Reference.Date_parse Reference.toISOString referenceInvalidTime
                    storedCheckup = Return checkupForm) by (vm_compute; reflexivity).
  split; [exact Hform|].
  assert (Htitle : JsString.trim (Appointment.title (Item.fields storedCheckup)) <> [])
    by (vm_compute; discriminate).
  destruct (edit_untouched_patch Reference.Date_parse Reference.toISOString
              referenceInvalidTime updateAll (editUi storedCheckup checkupForm)
              storedCheckup checkupForm Hform eq_refl eq_refl Htitle)
    as (st' & calls & Hrun & _ & Hpatch).
  destruct calls as [|[d|id patch|] [|[| |] [|]]];
    try (vm_compute in Hrun; discriminate Hrun).
  assert (Hid : id = js "a1").
  { vm_compute in Hrun. injection Hrun as _ Hid _. symmetry. exact Hid. }
  subst id. exists st', patch. split; [exact Hrun|].
  destruct (Hpatch (js "a1") patch (or_introl eq_refl))
    as (_ & Ht & _ & _ & _ & _ & _ & Hreminder & _).
  split; [rewrite Ht; vm_compute; reflexivity|]. split; [reflexivity|].
  rewrite Hreminder. reflexivity.
Defined.

Lemma signal_only_within_both_windows_witness :
  exists t,
    nextReminder (tick Reference.Date_parse tenMinutesBefore defaultSettings
                    [storedCheckup; storedMeeting]) = Some storedMeeting
    /\ due Reference.Date_parse tenMinutesBefore defaultSettings storedMeeting t
    /\ minutesOf (t - tenMinutesBefore) = 10%Z.
Proof.
  destruct (signal_only_within_both_windows Reference.Date_parse tenMinutesBefore
              defaultSettings [storedCheckup; storedMeeting] soft true ∅)
    as (a & t & Hnext & _ & Hdue & _).
  - vm_compute. discriminate.
  - assert (Ha : a = storedMeeting).
    { vm_compute in Hnext. injection Hnext as <-. reflexivity. }
    subst a. exists t. split; [exact Hnext|]. split; [exact Hdue|].
    destruct Hdue as (_ & Ht & _). vm_compute in Ht. injection Ht as <-. reflexivity.
Defined.

(** ** The requests of the client *)

Section RequestProperties.

Variable JSON_parse : jsstring -> Json.t + jsstring.
Variable viteEnv nodeEnv : option EnvLike.
Variable fetch : Request -> FetchOutcome.

Lemma firstConfigured_nonempty (names : list jsstring) (v : jsstring) :
  firstConfigured names viteEnv nodeEnv = Some v -> v <> [].
Proof.
  induction names as [|name names IH]; [discriminate|].
  cbn [firstConfigured fold_right]. fold (firstConfigured names viteEnv nodeEnv).
  destruct (getEnvValue name viteEnv nodeEnv) as [w|] eqn:Hw; cbn [orElse].
  - intros [= <-]. exact (getEnvValue_nonempty viteEnv nodeEnv name w Hw).
  - exact IH.
Qed.

(** X24: every request the client issues is well formed.  It goes by POST
    to an address that is not empty, with a JSON content type and the
    credential, which is not empty, after "Bearer "; its body names the
    fixed model, asks for no streaming and holds two messages: the fixed
    system prompt and then the user text, cut to at most 2000 code units. *)
Theorem request_is_well_formed (userText : jsstring) :
  Forall
    (fun req =>
       url req <> []
       /\ method req = js "POST"
       /\ (exists key, key <> []
             /\ headers req = [ (js "Content-Type", js "application/json");
                                (js "Authorization", js "Bearer " ++ key) ])
       /\ Json.member (Some (body req)) (js "model") = Some (Json.Str (js "openai/gpt-oss-20b"))
       /\ Json.member (Some (body req)) (js "stream") = Some (Json.Bool false)
       /\ (exists text,
             Json.member (Some (body req)) (js "messages")
             = Some (Json.Arr [message (js "system") systemPrompt; message (js "user") text])
             /\ text = JsString.slice0 2000 userText
             /\ (List.length text <= 2000)%nat))
    (fst (sendToAtlas JSON_parse viteEnv nodeEnv fetch userText)).
Proof.
  destruct (resolveApiKey viteEnv nodeEnv) as [|c key] eqn:Hkey.
  - rewrite (sendToAtlas_no_key _ _ _ _ _ Hkey). constructor.
  - rewrite sendToAtlas_requests by (rewrite Hkey; discriminate).
    constructor; [|constructor]. unfold requestFor, buildRequest.
    cbn [url method headers body]. rewrite Hkey.
    split.
    { unfold resolveUrl. destruct (firstConfigured urlNames viteEnv nodeEnv) as [u|] eqn:Hu.
      - exact (firstConfigured_nonempty _ _ Hu).
      - discriminate. }
    split; [reflexivity|].
    split; [exists (c :: key); split; [discriminate | reflexivity]|].
    split; [vm_compute; reflexivity|]. split; [vm_compute; reflexivity|].
    exists (JsString.slice0 2000 userText).
    split; [|split; [reflexivity|]].
    + unfold payload, trimmedUserText.
      set (t := JsString.slice0 2000 userText).
      set (sys := message (js "system") systemPrompt).
      set (usr := message (js "user") t).
      vm_compute. reflexivity.
    + unfold JsString.slice0. rewrite length_take. lia.
Qed.

End RequestProperties.

(** Renaming "home" to "work" in the list work, home, clinic leaves
    "work" twice. *)
Example rename_onto_another_tag :
  Settings.tags (settings (updateTag (js "home") (js " work ") threeTags))
  = [js "work"; js "work"; js "clinic"].
Proof. vm_compute. reflexivity. Qed.

(** Ten minutes before the two stored appointments start: the check-up,
    whose own lead is zero, is not due; the meeting is shown and
    signalled once. *)
Example meeting_is_shown_and_signalled_once :
  let r := tick Reference.Date_parse tenMinutesBefore defaultSettings
             [storedCheckup; storedMeeting] in
  let first := notify defaultSettings soft true r ∅ in
  nextReminder r = Some storedMeeting
  /\ minutesToReminder r = Some 10%Z
  /\ snd first
     = [Played soft;
        Notified notificationTitle (js "Meeting بعد 10 دقيقة") (js "appointment-a2")]
  /\ snd (notify defaultSettings soft true r (fst first)) = [].
Proof.
  cbv zeta. split; [vm_compute; reflexivity|]. split; [vm_compute; reflexivity|].
  split; vm_compute; reflexivity.
Qed.

(** ** The day a missing date defaults to *)

Section DefaultDate.

Variable Date_parse : jsstring -> option Z.
Variable toISOString : Z -> jsstring.

(** The calendar date of an instant in the time zone of the platform. *)
Variable localDate : Z -> jsstring.

(** C3 fails on the code: a missing date does not default to today's
    date.  It defaults to the UTC date of the current instant, the first
    ten characters of its ISO print, and the platform then reads that
    date with the time as local time.  So when the local day of the
    current instant is not its UTC day, the start of the draft falls on
    the UTC day, which is not today. *)
Theorem default_date_is_utc_date_read_as_local
    (now : Z) (raw : Atlas.Appointment) (utcDate rest : jsstring) (t : Z) :
  Atlas.date raw = None ->
  toISOString now = utcDate ++ rest ->
  List.length utcDate = 10%nat ->
  Date_parse (utcDate ++ js "T" ++ nullish (Atlas.time raw) (js "09:00")) = Some t ->
  localDate t = utcDate ->
  localDate now <> utcDate ->
  Appointment.start_at (convertAtlasToAppointment Date_parse toISOString now raw)
  = toISOString t
  /\ localDate t <> localDate now.
Proof.
  intros Hdate Hiso Hlen Hparse Hlocal Htoday.
  split; [|congruence].
  unfold convertAtlasToAppointment. cbn [Appointment.start_at].
  rewrite Hdate. cbn [nullish].
  assert (Hten : JsString.slice0 10 (toISOString now) = utcDate).
  { unfold JsString.slice0. rewrite Hiso, <- Hlen. apply take_app_length. }
  rewrite Hten, Hparse. reflexivity.
Qed.

End DefaultDate.

Lemma default_date_is_utc_date_read_as_local_witness :
  Zoned.localDate Zoned.losAngeles eveningInLosAngeles = js "2025-05-10"
  /\ Appointment.start_at
       (convertAtlasToAppointment (Zoned.Date_parse Zoned.losAngeles) Reference.toISOString
          eveningInLosAngeles fortnightly)
     = js "2025-05-11T16:00:00.000Z"
  /\ Zoned.localDate Zoned.losAngeles 1746979200000%Z = js "2025-05-11"
  /\ Zoned.localDate Zoned.losAngeles 1746979200000%Z
     <> Zoned.localDate Zoned.losAngeles eveningInLosAngeles.
Proof.
  destruct (default_date_is_utc_date_read_as_local
              (Zoned.Date_parse Zoned.losAngeles) Reference.toISOString
              (Zoned.localDate Zoned.losAngeles)
              eveningInLosAngeles fortnightly (js "2025-05-11") (js "T00:30:00.000Z")
              1746979200000%Z)
    as (Hstart & Hday).
  - reflexivity.
  - vm_compute. reflexivity.
  - reflexivity.
  - vm_compute. reflexivity.
  - vm_compute. reflexivity.
  - vm_compute. discriminate.
  - split; [vm_compute; reflexivity|].
    split; [rewrite Hstart; vm_compute; reflexivity|].
    split; [vm_compute; reflexivity | exact Hday].
Defined.
